(** * Maintenance scheduling core of the repository (repo/maintenance)

    A shallow embedding of [maintenance_run.go]: the eligibility check
    [shouldRun], the schedule advance [updateSchedule], the exclusivity and
    clock-safety guard [RunExclusive], the two cycle bodies
    [runQuickMaintenance] and [runFullMaintenance], the rewrite and deletion
    policies and the safe-drop-time algorithm [findSafeDropTime]. *)

From Stdlib Require Import ZArith Lia Bool String List Permutation Sorted.
From stdpp Require Import gmap strings list.
Import ListNotations.

Local Open Scope string_scope.
Local Open Scope Z_scope.

(** ** The [time] package, as far as the code uses it.

    An instant is the number of nanoseconds since the zero [time.Time]
    (January 1 of year 1, UTC); instants before it are negative.  The clock of
    this repository strips monotonic readings, so an instant is all there is
    to a timestamp.  A [Duration] is Go's [int64] count of nanoseconds: [Sub]
    saturates at the smallest and largest [Duration], as the library
    documents, and the unary minus of the language wraps around.  The range
    of [Time] itself, some 292 billion years either side of the zero time, is
    not modelled. *)
Module time.

Definition Time : Type := Z.
Definition Duration : Type := Z.

Definition minDuration : Duration := - 2 ^ 63.
Definition maxDuration : Duration := 2 ^ 63 - 1.

Definition Nanosecond : Duration := 1.
Definition Second : Duration := 1000000000 * Nanosecond.
Definition Minute : Duration := 60 * Second.
Definition Hour : Duration := 60 * Minute.

(** [time.Time{}] *)
Definition zero : Time := 0.

(** arithmetic of [int64]: the value is kept modulo 2^64 *)
Definition wrap64 (z : Z) : Z := (z + 2 ^ 63) mod 2 ^ 64 - 2 ^ 63.

(** [-d] on a [Duration] *)
Definition neg (d : Duration) : Duration := wrap64 (- d).

Definition IsZero (t : Time) : bool := t =? 0.
Definition Before (t u : Time) : bool := t <? u.
Definition After (t u : Time) : bool := u <? t.

(** [t.Sub(u)]: the difference, or the extreme [Duration] on its side when
    the difference does not fit *)
Definition Sub (t u : Time) : Duration :=
  if t - u <? minDuration then minDuration
  else if maxDuration <? t - u then maxDuration
  else t - u.

(** [t.Add(d)] *)
Definition Add (t : Time) (d : Duration) : Time := t + d.

(** a [Duration] value, as opposed to an arbitrary integer *)
Definition representable (z : Z) : Prop := minDuration <= z <= maxDuration.

End time.

Abbreviation Time := time.Time.
Abbreviation Duration := time.Duration.

Arguments time.IsZero _ : simpl never.
Arguments time.Before _ _ : simpl never.
Arguments time.After _ _ : simpl never.
Arguments time.Sub _ _ : simpl never.
Arguments time.Add _ _ : simpl never.
Arguments time.neg _ : simpl never.

Definition maxClockSkew : Duration := 5 * time.Minute.

(** ** Modes and task identifiers (string types in the source) *)

Definition Mode : Type := string.

Definition ModeNone : Mode := "none".
Definition ModeQuick : Mode := "quick".
Definition ModeFull : Mode := "full".
Definition ModeAuto : Mode := "auto".

Definition TaskType : Type := string.

Definition TaskSnapshotGarbageCollection : TaskType := "snapshot-gc".
Definition TaskDeleteOrphanedBlobsQuick : TaskType := "quick-delete-blobs".
Definition TaskDeleteOrphanedBlobsFull : TaskType := "full-delete-blobs".
Definition TaskRewriteContentsQuick : TaskType := "quick-rewrite-contents".
Definition TaskRewriteContentsFull : TaskType := "full-rewrite-contents".
Definition TaskDropDeletedContentsFull : TaskType := "full-drop-deleted-content".
Definition TaskIndexCompaction : TaskType := "index-compaction".
Definition TaskCleanupLogs : TaskType := "cleanup-logs".
Definition TaskCleanupEpochManager : TaskType := "cleanup-epoch-manager".

(** ** Data model

    The types below are declared in sibling files of the package; their
    fields are the ones this file reads and writes. *)

(** Modelled from the spec: [RunInfo], one historical execution record: start
    timestamp, end timestamp, success flag. *)
Record RunInfo : Type := mkRunInfo {
  Start : Time;
  End : Time;
  Success : bool
}.

(** Modelled from the spec: [Schedule], the two next-due times and the
    mapping from task type to its sequence of runs. *)
Record Schedule : Type := mkSchedule {
  NextFullMaintenanceTime : Time;
  NextQuickMaintenanceTime : Time;
  Runs : gmap string (list RunInfo)
}.

(** [s.Runs[task]]: a key that is absent reads as the nil slice *)
Definition runsOf (s : Schedule) (task : TaskType) : list RunInfo :=
  default [] (Runs s !! task).

(** Modelled from the spec: one cycle of [Params], enabled flag and
    interval. *)
Record CycleParams : Type := mkCycleParams {
  Enabled : bool;
  Interval : Duration
}.

(** Modelled from the spec: [Params], the per-repository configuration (the
    log retention is only handed on to the log cleanup and is left out). *)
Record Params : Type := mkParams {
  Owner : string;
  QuickCycle : CycleParams;
  FullCycle : CycleParams
}.

(** Modelled from the spec: [SafetyParameters], the tunable safety margins. *)
Record SafetyParameters : Type := mkSafetyParameters {
  RequireTwoGCCycles : bool;
  MinRewriteToOrphanDeletionDelay : Duration;
  MarginBetweenSnapshotGC : Duration;
  DropContentFromIndexExtraMargin : Duration
}.

(** ** Safety policy evaluator (pure functions) *)

(** One iteration of the inner loop of [maxEndTime]. *)
Definition maxEndTime_step (result : Time) (r : RunInfo) : Time :=
  if negb (Success r) then result
  else if time.After (End r) result then End r else result.

(** [maxEndTime(taskRuns ...[]RunInfo)] *)
Definition maxEndTime (taskRuns : list (list RunInfo)) : Time :=
  fold_left (fun result tr => fold_left maxEndTime_step tr result)
            taskRuns time.zero.

Definition shouldQuickRewriteContents (s : Schedule) (safety : SafetyParameters) : bool :=
  let latestContentRewriteEndTime :=
    maxEndTime [runsOf s TaskRewriteContentsFull; runsOf s TaskRewriteContentsQuick] in
  let latestBlobDeleteTime :=
    maxEndTime [runsOf s TaskDeleteOrphanedBlobsFull; runsOf s TaskDeleteOrphanedBlobsQuick] in
  if time.IsZero latestContentRewriteEndTime
     || (MinRewriteToOrphanDeletionDelay safety =? 0)
  then true
  else negb (time.Before latestBlobDeleteTime latestContentRewriteEndTime).

Definition shouldFullRewriteContents (s : Schedule) (safety : SafetyParameters) : bool :=
  let latestContentRewriteEndTime :=
    maxEndTime [runsOf s TaskRewriteContentsFull] in
  let latestBlobDeleteTime :=
    maxEndTime [runsOf s TaskDeleteOrphanedBlobsFull; runsOf s TaskDeleteOrphanedBlobsQuick] in
  if time.IsZero latestContentRewriteEndTime
     || (MinRewriteToOrphanDeletionDelay safety =? 0)
  then true
  else negb (time.Before latestBlobDeleteTime latestContentRewriteEndTime).

Definition nextBlobDeleteTime (s : Schedule) (safety : SafetyParameters) : Time :=
  let latestContentRewriteEndTime :=
    maxEndTime [runsOf s TaskRewriteContentsFull; runsOf s TaskRewriteContentsQuick] in
  if time.IsZero latestContentRewriteEndTime then time.zero
  else time.Add latestContentRewriteEndTime (MinRewriteToOrphanDeletionDelay safety).

Definition shouldDeleteOrphanedPacks (now : Time) (s : Schedule) (safety : SafetyParameters) : bool :=
  negb (time.Before now (nextBlobDeleteTime s safety)).

Definition hadRecentFullRewrite (s : Schedule) : bool :=
  negb (time.Before (maxEndTime [runsOf s TaskRewriteContentsFull])
                    (maxEndTime [runsOf s TaskRewriteContentsQuick])).

(** ** [sort.Slice]

    The library promises a permutation of the slice that is ordered by
    [less], and no stability.  The code is modelled over any function that
    keeps this promise; [insertionSort] is the one the library runs on slices
    of at most twelve elements. *)

Record StrictWeakOrder {A : Type} (less : A -> A -> bool) : Prop := {
  swo_irrefl : forall a, less a a = false;
  swo_trans : forall a b c, less a b = true -> less b c = true -> less a c = true;
  swo_incomp : forall a b c, less a b = false -> less b c = false -> less a c = false
}.

Definition SortSlice : Type := forall A : Type, (A -> A -> bool) -> list A -> list A.

Record SortSliceContract (sortSlice : SortSlice) : Prop := {
  sortSlice_perm : forall A (less : A -> A -> bool) l,
    Permutation (sortSlice A less l) l;
  sortSlice_sorted : forall A (less : A -> A -> bool) l,
    StrictWeakOrder less ->
    StronglySorted (fun a b => less b a = false) (sortSlice A less l)
}.

(** the inner loop of the insertion sort: [x] moves towards the front while
    it is less than its left neighbour; the prefix is held last element
    first *)
Fixpoint sinkLeft {A : Type} (less : A -> A -> bool) (x : A) (revPrefix : list A) : list A :=
  match revPrefix with
  | [] => [x]
  | y :: ys => if less x y then y :: sinkLeft less x ys else x :: y :: ys
  end.

Definition insertionSort : SortSlice :=
  fun A less l => rev (fold_left (fun acc x => sinkLeft less x acc) l []).

(** ** Safe-drop-time algorithm *)

(** the order handed to [sort.Slice]: later start first *)
Definition startsAfter (ri rj : RunInfo) : bool := time.After (Start ri) (Start rj).

(** the loop over [successfulRuns[1:]], with [r0] for [successfulRuns[0]] *)
Fixpoint findSafeDropTime_scan (r0 : RunInfo) (older : list RunInfo)
    (safety : SafetyParameters) : Time :=
  match older with
  | [] => time.zero
  | r :: rest =>
      let diff := time.neg (time.Sub (End r) (Start r0)) in
      if MarginBetweenSnapshotGC safety <? diff
      then time.Add (Start r) (time.neg (DropContentFromIndexExtraMargin safety))
      else findSafeDropTime_scan r0 rest safety
  end.

Section FindSafeDropTime.

Variable sortSlice : SortSlice.

Definition findSafeDropTime (runs : list RunInfo) (safety : SafetyParameters) : Time :=
  let successfulRuns := List.filter Success runs in
  if (length successfulRuns <=? 1)%nat then time.zero
  else
    let successfulRuns := sortSlice RunInfo startsAfter successfulRuns in
    match successfulRuns with
    | [] => time.zero (* not reached: sorting keeps the length *)
    | r0 :: older => findSafeDropTime_scan r0 older safety
    end.

End FindSafeDropTime.

(** ** Errors, collaborators and the state of a maintenance invocation *)

(** Go's [error] values of this package: the ownership error, an error made
    by [errors.Errorf] or handed up by a collaborator, and [errors.Wrap]. *)
Inductive error : Type :=
| NotOwnedError (owner : string)
| Errorf (msg : string)
| Wrap (cause : error) (msg : string).

Inductive result (A : Type) : Type :=
| Ok (a : A)
| Err (e : error).
Arguments Ok {A} a.
Arguments Err {A} e.

Inductive IDRange : Type :=
| AllIDs
| AllPrefixedIDs.

(** [content.PackBlobIDPrefixSpecial], the prefix of the 'q' packs *)
Definition PackBlobIDPrefixSpecial : string := "q".

(** The calls this file makes on the repository, the blob store, the lock
    file and the task bodies, with their arguments. *)
Module Calls.

Inductive Call : Type :=
| DisableIndexRefresh
| GetParams
| GetSchedule
| SetSchedule (s : Schedule)
| TryLock (lockFile : string)
| Unlock
| GetMetadata
| Refresh
| EpochManager
| RewriteContents (ContentIDRange : IDRange) (PackPrefix : string) (ShortPacks : bool)
| DeleteUnreferencedBlobs (NotAfterTime : Time) (Prefix : string)
| DropDeletedContents (safeDropTime : Time)
| IndexCompaction
| CleanupLogs
| CleanupSupersededIndexes
| Callback (mode : Mode) (MaintenanceStartTime : Time).

End Calls.

Abbreviation Call := Calls.Call.

Inductive Event : Type :=
| Called (c : Call)
| Logged (format : string).

(** What the surroundings of one invocation answer.  A call is identified by
    its position in the run (the number of events before it). *)
Record Env : Type := mkEnv {
  UsernameAtHost : string;
  ConfigFilename : string;
  (** [rep.Time()], by the number of the reading *)
  clock : nat -> Time;
  (** the error a call returns, if any *)
  failure : Call -> nat -> option error;
  (** whether [TryLock] finds the lock free *)
  lockFree : nat -> bool;
  (** the timestamp the blob store reports for the schedule blob *)
  blobTimestamp : nat -> Time;
  (** the presence flag of the epoch manager *)
  epochManagerPresent : nat -> bool
}.

Record World : Type := mkWorld {
  (** the persisted maintenance parameters *)
  params : Params;
  (** the persisted schedule *)
  schedule : Schedule;
  indexRefreshDisabled : bool;
  (** this process holds the maintenance lock *)
  locked : bool;
  clockReads : nat;
  (** newest event first *)
  trace : list Event
}.

Definition M (A : Type) : Type := World -> result A * World.

Definition ret {A : Type} (a : A) : M A := fun w => (Ok a, w).

Definition fail {A : Type} (e : error) : M A := fun w => (Err e, w).

Definition bind {A B : Type} (m : M A) (k : A -> M B) : M B :=
  fun w => match m w with
           | (Ok a, w') => k a w'
           | (Err e, w') => (Err e, w')
           end.

Notation "x <- m ;; k" := (bind m (fun x => k))
  (at level 100, m at next level, right associativity).
Notation "m ;;; k" := (bind m (fun _ => k))
  (at level 100, right associativity).

(** [if err != nil { return errors.Wrap(err, msg) }] *)
Definition wrapErr {A : Type} (m : M A) (msg : string) : M A :=
  fun w => match m w with
           | (Ok a, w') => (Ok a, w')
           | (Err e, w') => (Err (Wrap e msg), w')
           end.

(** [defer cleanup]: [cleanup] runs on every way out of [body] *)
Definition defer {A : Type} (cleanup : M unit) (body : M A) : M A :=
  fun w => match body w with
           | (r, w') => (r, snd (cleanup w'))
           end.

Definition record (e : Event) (w : World) : World :=
  mkWorld (params w) (schedule w) (indexRefreshDisabled w) (locked w)
          (clockReads w) (e :: trace w).

(** [log(ctx).Debugf] and [Infof]: the format string is recorded, the
    values printed with it are not *)
Definition log (format : string) : M unit :=
  fun w => (Ok tt, record (Logged format) w).

(** a call that only succeeds or fails *)
Definition call (env : Env) (c : Call) : M unit :=
  fun w => match failure env c (length (trace w)) with
           | Some e => (Err e, record (Called c) w)
           | None => (Ok tt, record (Called c) w)
           end.

(** [RunParameters]: what [RunExclusive] hands to the cycle bodies (the
    repository handle is the environment and the world). *)
Module RunParameters.

Record t : Type := mk {
  Mode : Mode;
  Params : Params;
  (** timestamp of the last update of the maintenance schedule blob *)
  MaintenanceStartTime : Time
}.

End RunParameters.

Abbreviation RunParameters := RunParameters.t.

Definition setNextFullMaintenanceTime (s : Schedule) (t : Time) : Schedule :=
  mkSchedule t (NextQuickMaintenanceTime s) (Runs s).

Definition setNextQuickMaintenanceTime (s : Schedule) (t : Time) : Schedule :=
  mkSchedule (NextFullMaintenanceTime s) t (Runs s).

(** Modelled from the spec: the method of [Schedule] that [ReportRun] uses,
    which appends a [RunInfo] to the per-task history. *)
Definition reportRun (s : Schedule) (taskType : TaskType) (ri : RunInfo) : Schedule :=
  mkSchedule (NextFullMaintenanceTime s) (NextQuickMaintenanceTime s)
             (<[taskType := (runsOf s taskType ++ [ri])%list]> (Runs s)).

(** runs [m] and hands its error back as a value, as in [err := f()] *)
Definition attempt {A : Type} (m : M A) : M (result A) :=
  fun w => match m w with (r, w') => (Ok r, w') end.

Definition lift {A : Type} (r : result A) : M A := fun w => (r, w).

Section Maintenance.

Variable sortSlice : SortSlice.
Variable env : Env.

(** *** The repository handle *)

(** [rep.Time()] *)
Definition repTime : M Time :=
  fun w => (Ok (clock env (clockReads w)),
            mkWorld (params w) (schedule w) (indexRefreshDisabled w) (locked w)
                    (S (clockReads w)) (trace w)).

Definition DisableIndexRefresh : M unit :=
  fun w => (Ok tt,
            record (Called Calls.DisableIndexRefresh)
                   (mkWorld (params w) (schedule w) true (locked w)
                            (clockReads w) (trace w))).

(** Modelled from the spec: [GetParams] loads the persisted parameters. *)
Definition GetParams : M Params :=
  call env Calls.GetParams ;;; (fun w => (Ok (params w), w)).

(** Modelled from the spec: [GetSchedule] loads the current schedule and
    propagates storage errors. *)
Definition GetSchedule : M Schedule :=
  call env Calls.GetSchedule ;;; (fun w => (Ok (schedule w), w)).

(** Modelled from the spec: [SetSchedule] persists the schedule, a full
    replace. *)
Definition SetSchedule (s : Schedule) : M unit :=
  call env (Calls.SetSchedule s) ;;;
  (fun w => (Ok tt,
             mkWorld (params w) s (indexRefreshDisabled w) (locked w)
                     (clockReads w) (trace w))).

(** [flock.New(lockFile).TryLock()] *)
Definition TryLock (lockFile : string) : M bool :=
  fun w =>
    let n := length (trace w) in
    match failure env (Calls.TryLock lockFile) n with
    | Some e => (Err e, record (Called (Calls.TryLock lockFile)) w)
    | None =>
        if lockFree env n
        then (Ok true,
              record (Called (Calls.TryLock lockFile))
                     (mkWorld (params w) (schedule w) (indexRefreshDisabled w) true
                              (clockReads w) (trace w)))
        else (Ok false, record (Called (Calls.TryLock lockFile)) w)
    end.

Definition Unlock : M unit :=
  fun w => (Ok tt,
            record (Called Calls.Unlock)
                   (mkWorld (params w) (schedule w) (indexRefreshDisabled w) false
                            (clockReads w) (trace w))).

(** [rep.BlobReader().GetMetadata(ctx, maintenanceScheduleBlobID)], of
    which the timestamp is used *)
Definition GetMetadata : M Time :=
  fun w =>
    let n := length (trace w) in
    match failure env Calls.GetMetadata n with
    | Some e => (Err e, record (Called Calls.GetMetadata) w)
    | None => (Ok (blobTimestamp env n), record (Called Calls.GetMetadata) w)
    end.

(** [rep.ContentManager().EpochManager()]: the presence flag and the
    error *)
Definition EpochManager : M (bool * option error) :=
  fun w =>
    let n := length (trace w) in
    (Ok (epochManagerPresent env n, failure env Calls.EpochManager n),
     record (Called Calls.EpochManager) w).

(** Modelled from the spec: the caller's identity equals [Params.Owner]. *)
Definition isOwnedByByThisUser (p : Params) : bool :=
  String.eqb (Owner p) (UsernameAtHost env).

(** *** Eligibility check *)

Definition shouldRun (p : Params) : M Mode :=
  if negb (String.eqb (Owner p) (UsernameAtHost env)) then
    log "maintenance owned by another user '%v'" ;;;
    ret ModeNone
  else
    s <- wrapErr GetSchedule "error getting status" ;;
    (* no time for full cycle, check quick cycle *)
    let quick : M Mode :=
      if Enabled (QuickCycle p) then
        now <- repTime ;;
        if negb (time.Before now (NextQuickMaintenanceTime s)) then
          log "due for quick maintenance cycle" ;;;
          ret ModeQuick
        else
          log "not due for quick maintenance cycle until %v" ;;;
          ret ModeNone
      else
        log "quick maintenance cycle not enabled" ;;;
        ret ModeNone in
    (* check full cycle first, as it does more than the quick cycle *)
    if Enabled (FullCycle p) then
      now <- repTime ;;
      if negb (time.Before now (NextFullMaintenanceTime s)) then
        log "due for full maintenance cycle" ;;;
        ret ModeFull
      else
        log "not due for full maintenance cycle until %v" ;;;
        quick
    else
      log "full maintenance cycle not enabled" ;;;
      quick.

(** *** Schedule advance *)

Definition updateSchedule (runParams : RunParameters) : M unit :=
  let p := RunParameters.Params runParams in
  s <- wrapErr GetSchedule "error getting schedule" ;;
  if String.eqb (RunParameters.Mode runParams) ModeFull then
    (* on full cycle, also update the quick cycle *)
    t <- repTime ;;
    let s := setNextFullMaintenanceTime s (time.Add t (Interval (FullCycle p))) in
    t <- repTime ;;
    let s := setNextQuickMaintenanceTime s (time.Add t (Interval (QuickCycle p))) in
    log "scheduling next full cycle at %v" ;;;
    log "scheduling next quick cycle at %v" ;;;
    SetSchedule s
  else if String.eqb (RunParameters.Mode runParams) ModeQuick then
    log "scheduling next quick cycle at %v" ;;;
    t <- repTime ;;
    let s := setNextQuickMaintenanceTime s (time.Add t (Interval (QuickCycle p))) in
    SetSchedule s
  else
    ret tt.

(** *** Clock-skew check *)

Definition checkClockSkewBounds (rp : RunParameters) : M unit :=
  localTime <- repTime ;;
  let repoTime := RunParameters.MaintenanceStartTime rp in
  let clockSkew := time.Sub repoTime localTime in
  let clockSkew := if clockSkew <? 0 then time.neg clockSkew else clockSkew in
  if maxClockSkew <? clockSkew then
    fail (Errorf "Clock skew detected: local clock is out of sync with repository timestamp by more than allowed %v (local: %v repository: %v). Refusing to run maintenance.")
  else
    ret tt.

(** *** Exclusivity guard *)

Definition RunExclusive (mode : Mode) (force : bool)
    (cb : RunParameters -> M unit) : M unit :=
  DisableIndexRefresh ;;;
  (* ctx = rep.AlsoLogToContentLog(ctx): where the log lines go; they are
     recorded in the trace either way *)
  p <- wrapErr GetParams "unable to get maintenance params" ;;
  if negb force && negb (isOwnedByByThisUser p) then
    fail (NotOwnedError (Owner p))
  else
    mode <- (if String.eqb mode ModeAuto
             then wrapErr (shouldRun p) "unable to determine if maintenance is required"
             else ret mode) ;;
    if String.eqb mode ModeNone then
      log "not due for maintenance" ;;;
      ret tt
    else
      let lockFile := (ConfigFilename env ++ ".mlock")%string in
      log "Acquiring maintenance lock in file %v" ;;;
      (* acquire local lock on a config file *)
      ok <- wrapErr (TryLock lockFile) "error acquiring maintenance lock" ;;
      if negb ok then
        log "maintenance is already in progress locally" ;;;
        ret tt
      else
        defer Unlock (
          let runParams := RunParameters.mk mode p time.zero in
          (* update schedule so that we don't run the maintenance again
             immediately if this process crashes. *)
          wrapErr (updateSchedule runParams) "error updating maintenance schedule" ;;;
          bm <- wrapErr GetMetadata "error getting maintenance blob time" ;;
          let runParams := RunParameters.mk mode p bm in
          wrapErr (checkClockSkewBounds runParams) "error checking for clock skew" ;;;
          log "Running %v maintenance..." ;;;
          defer (log "Finished %v maintenance.") (
            wrapErr (call env Calls.Refresh) "error refreshing indexes before maintenance" ;;;
            cb runParams)).

(** *** Run reporting and the tasks *)

(** Modelled from the spec: [ReportRun] records the start time, invokes the
    task, records the end time and the outcome, appends the [RunInfo] to
    the history of the task, persists the schedule and hands the error of
    the task to the caller.  The schedule is mutated in place in the
    source; here the updated schedule is the result. *)
Definition ReportRun (taskType : TaskType) (s : Schedule) (run : M unit) : M Schedule :=
  start <- repTime ;;
  runErr <- attempt run ;;
  finish <- repTime ;;
  let ri := mkRunInfo start finish
              (match runErr with Ok _ => true | Err _ => false end) in
  let s := reportRun s taskType ri in
  attempt (SetSchedule s) ;;;
  match runErr with
  | Ok _ => ret s
  | Err e => fail e
  end.

Definition notRewritingContents : M unit :=
  log "Previous content rewrite has not been finalized yet, waiting until the next blob deletion.".

Definition notDeletingOrphanedBlobs (s : Schedule) (safety : SafetyParameters) : M unit :=
  log "Skipping blob deletion because not enough time has passed yet (%v left).".

Definition runTaskCleanupLogs (runParams : RunParameters) (s : Schedule) : M Schedule :=
  ReportRun TaskCleanupLogs s (
    err <- attempt (call env Calls.CleanupLogs) ;;
    log "Cleaned up %v logs." ;;;
    lift err).

Definition runTaskCleanupEpochManager (runParams : RunParameters) (s : Schedule) : M Schedule :=
  r <- EpochManager ;;
  match snd r with
  | Some emerr => fail (Wrap emerr "epoch manager")
  | None =>
      if negb (fst r) then ret s
      else
        ReportRun TaskCleanupEpochManager s (
          log "Cleaning up old index blobs which have already been compacted..." ;;;
          wrapErr (call env Calls.CleanupSupersededIndexes)
                  "error cleaning up superseded index blobs")
  end.

Definition runTaskDropDeletedContentsFull (runParams : RunParameters) (s : Schedule)
    (safety : SafetyParameters) : M Schedule :=
  safeDropTime <- (if RequireTwoGCCycles safety
                   then ret (findSafeDropTime sortSlice
                               (runsOf s TaskSnapshotGarbageCollection) safety)
                   else repTime) ;;
  if time.IsZero safeDropTime then
    log "Not enough time has passed since previous successful Snapshot GC. Will try again next time." ;;;
    ret s
  else
    log "Found safe time to drop indexes: %v" ;;;
    ReportRun TaskDropDeletedContentsFull s
              (call env (Calls.DropDeletedContents safeDropTime)).

Definition runTaskRewriteContentsQuick (runParams : RunParameters) (s : Schedule)
    (safety : SafetyParameters) : M Schedule :=
  ReportRun TaskRewriteContentsQuick s
    (call env (Calls.RewriteContents AllPrefixedIDs PackBlobIDPrefixSpecial true)).

Definition runTaskRewriteContentsFull (runParams : RunParameters) (s : Schedule)
    (safety : SafetyParameters) : M Schedule :=
  ReportRun TaskRewriteContentsFull s
    (call env (Calls.RewriteContents AllIDs "" true)).

Definition runTaskDeleteOrphanedBlobsFull (runParams : RunParameters) (s : Schedule)
    (safety : SafetyParameters) : M Schedule :=
  ReportRun TaskDeleteOrphanedBlobsFull s
    (call env (Calls.DeleteUnreferencedBlobs
                 (RunParameters.MaintenanceStartTime runParams) "")).

Definition runTaskDeleteOrphanedBlobsQuick (runParams : RunParameters) (s : Schedule)
    (safety : SafetyParameters) : M Schedule :=
  ReportRun TaskDeleteOrphanedBlobsQuick s
    (call env (Calls.DeleteUnreferencedBlobs
                 (RunParameters.MaintenanceStartTime runParams)
                 PackBlobIDPrefixSpecial)).

(** Modelled from the spec: the quick index compaction, which consolidates
    many small index blobs and is reported like every task. *)
Definition runTaskIndexCompactionQuick (runParams : RunParameters) (s : Schedule)
    (safety : SafetyParameters) : M Schedule :=
  ReportRun TaskIndexCompaction s (call env Calls.IndexCompaction).

(** *** The quick cycle *)

(** the rewrite block of [runQuickMaintenance] *)
Definition quickRewriteStep (runParams : RunParameters) (s : Schedule)
    (safety : SafetyParameters) : M Schedule :=
  if shouldQuickRewriteContents s safety then
    wrapErr (runTaskRewriteContentsQuick runParams s safety)
            "error rewriting metadata contents"
  else
    notRewritingContents ;;;
    ret s.

(** the orphaned-blob block of [runQuickMaintenance] *)
Definition quickDeleteStep (runParams : RunParameters) (s : Schedule)
    (safety : SafetyParameters) : M Schedule :=
  now <- repTime ;;
  if shouldDeleteOrphanedPacks now s safety then
    wrapErr
      (if hadRecentFullRewrite s then
         log "Had recent full rewrite - performing full blob deletion." ;;;
         runTaskDeleteOrphanedBlobsFull runParams s safety
       else
         log "Performing quick blob deletion." ;;;
         runTaskDeleteOrphanedBlobsQuick runParams s safety)
      "error deleting unreferenced metadata blobs"
  else
    notDeletingOrphanedBlobs s safety ;;;
    ret s.

Definition runQuickMaintenance (runParams : RunParameters)
    (safety : SafetyParameters) : M unit :=
  r <- EpochManager ;;
  if fst r then
    log "quick maintenance not required for epoch manager" ;;;
    ret tt
  else
    match snd r with
    | Some emerr => fail (Wrap emerr "epoch manager")
    | None =>
        s <- wrapErr GetSchedule "unable to get schedule" ;;
        s <- quickRewriteStep runParams s safety ;;
        s <- quickDeleteStep runParams s safety ;;
        (* consolidate many smaller indexes into fewer larger ones. *)
        s <- wrapErr (runTaskIndexCompactionQuick runParams s safety)
                     "error performing index compaction" ;;
        wrapErr (runTaskCleanupLogs runParams s) "error cleaning up logs" ;;;
        ret tt
    end.

(** *** The full cycle *)

(** the rewrite block of [runFullMaintenance] *)
Definition fullRewriteStep (runParams : RunParameters) (s : Schedule)
    (safety : SafetyParameters) : M Schedule :=
  if shouldFullRewriteContents s safety then
    wrapErr (runTaskRewriteContentsFull runParams s safety)
            "error rewriting contents in short packs"
  else
    notRewritingContents ;;;
    ret s.

(** the orphaned-blob block of [runFullMaintenance] *)
Definition fullDeleteStep (runParams : RunParameters) (s : Schedule)
    (safety : SafetyParameters) : M Schedule :=
  now <- repTime ;;
  if shouldDeleteOrphanedPacks now s safety then
    wrapErr (runTaskDeleteOrphanedBlobsFull runParams s safety)
            "error deleting unreferenced blobs"
  else
    notDeletingOrphanedBlobs s safety ;;;
    ret s.

Definition runFullMaintenance (runParams : RunParameters)
    (safety : SafetyParameters) : M unit :=
  s <- wrapErr GetSchedule "unable to get schedule" ;;
  s <- fullRewriteStep runParams s safety ;;
  (* rewrite indexes by dropping content entries that have been marked
     as deleted for a long time *)
  s <- wrapErr (runTaskDropDeletedContentsFull runParams s safety)
               "error dropping deleted contents" ;;
  s <- fullDeleteStep runParams s safety ;;
  s <- wrapErr (runTaskCleanupLogs runParams s) "error cleaning up logs" ;;
  wrapErr (runTaskCleanupEpochManager runParams s)
          "error cleaning up epoch manager" ;;;
  ret tt.

(** [Run] performs maintenance activities for a repository. *)
Definition Run (runParams : RunParameters) (safety : SafetyParameters) : M unit :=
  if String.eqb (RunParameters.Mode runParams) ModeQuick then
    runQuickMaintenance runParams safety
  else if String.eqb (RunParameters.Mode runParams) ModeFull then
    runFullMaintenance runParams safety
  else
    fail (Errorf "unknown mode %q").

End Maintenance.

(** * The description, in definitions

    What the properties below say of the code is stated with these. *)

(** The latest end among the successful runs, the zero time when there is
    none: the declarative reading of "latest successful run". *)
Definition latestSuccessfulEnd (runs : list RunInfo) : Time :=
  fold_right Z.max time.zero (map End (List.filter Success runs)).

Definition noSuccessfulRun (runs : list RunInfo) : Prop :=
  Forall (fun r => Success r = false) runs.

(** the successful or failed orphan-blob deletions of either class *)
Definition deletionHistory (s : Schedule) : list RunInfo :=
  (runsOf s TaskDeleteOrphanedBlobsFull ++ runsOf s TaskDeleteOrphanedBlobsQuick)%list.

(** the three alternatives of the policy, over the rewrite history that is
    relevant to the class *)
Definition rewritePermitted (s : Schedule) (safety : SafetyParameters)
    (rewrites : list RunInfo) : Prop :=
  noSuccessfulRun rewrites
  \/ MinRewriteToOrphanDeletionDelay safety = 0
  \/ ~ (latestSuccessfulEnd (deletionHistory s) < latestSuccessfulEnd rewrites).

(** the time between the start of the latest run and the end of an older
    one, as an exact difference of instants *)
Definition spacing (r0 r : RunInfo) : Z := Start r0 - End r.

(** a margin that is a [Duration] other than the smallest one, whose
    negation does not wrap around *)
Definition plainDuration (d : Duration) : Prop :=
  time.minDuration < d <= time.maxDuration.

(** the outcome of the scan over the older runs: the first one beyond the
    margin decides, and without one the result is the zero time *)
Definition firstBeyondMargin (r0 : RunInfo) (older : list RunInfo)
    (safety : SafetyParameters) (result : Time) : Prop :=
  (exists pre ri post,
      older = (pre ++ ri :: post)%list
      /\ Forall (fun r => spacing r0 r <= MarginBetweenSnapshotGC safety) pre
      /\ MarginBetweenSnapshotGC safety < spacing r0 ri
      /\ result = Start ri - DropContentFromIndexExtraMargin safety)
  \/ (Forall (fun r => spacing r0 r <= MarginBetweenSnapshotGC safety) older
      /\ result = time.zero).

(** the skew as the code computes it *)
Definition clockSkewOf (repoTime localTime : Time) : Duration :=
  let clockSkew := time.Sub repoTime localTime in
  if clockSkew <? 0 then time.neg clockSkew else clockSkew.

(** the resolution of the description: full before quick, a disabled cycle
    never chosen.  [nowFull] and [nowQuick] are the clock readings taken for
    the two comparisons. *)
Definition resolveMode (p : Params) (s : Schedule) (nowFull nowQuick : Time) : Mode :=
  if Enabled (FullCycle p) && (NextFullMaintenanceTime s <=? nowFull) then ModeFull
  else if Enabled (QuickCycle p) && (NextQuickMaintenanceTime s <=? nowQuick) then ModeQuick
  else ModeNone.

(** a computation that leaves the events before it in place *)
Definition extends {A : Type} (m : M A) : Prop :=
  forall w, exists new, trace (snd (m w)) = (new ++ trace w)%list.

Definition notEnoughTimeMsg : string :=
  "Not enough time has passed since previous successful Snapshot GC. Will try again next time.".

Definition foundSafeTimeMsg : string := "Found safe time to drop indexes: %v".

(** the latest successful full rewrite ended no earlier than the latest
    successful quick rewrite; equal times count for the full one *)
Definition fullIsAtLeastAsRecent (s : Schedule) : bool :=
  latestSuccessfulEnd (runsOf s TaskRewriteContentsQuick)
  <=? latestSuccessfulEnd (runsOf s TaskRewriteContentsFull).

(** the events of the deletion that is selected, newest first: the write of
    the schedule with the run [ri] reported under the task, the call of the
    deletion with its prefix, and the log line of the choice *)
Definition deletionEvents (rp : RunParameters) (s : Schedule) (ri : RunInfo) : list Event :=
  if fullIsAtLeastAsRecent s then
    [Called (Calls.SetSchedule (reportRun s TaskDeleteOrphanedBlobsFull ri));
     Called (Calls.DeleteUnreferencedBlobs (RunParameters.MaintenanceStartTime rp) "");
     Logged "Had recent full rewrite - performing full blob deletion."]
  else
    [Called (Calls.SetSchedule (reportRun s TaskDeleteOrphanedBlobsQuick ri));
     Called (Calls.DeleteUnreferencedBlobs (RunParameters.MaintenanceStartTime rp)
                                           PackBlobIDPrefixSpecial);
     Logged "Performing quick blob deletion."].

(** * Repositories and histories to run the code on *)

(** 2026-10-30 00:00:00 UTC, in nanoseconds since the zero time *)
Definition t2026 : Time := 63928915200 * time.Second.

Definition gcRunAtZero : RunInfo := mkRunInfo time.zero time.zero true.

Definition gcRunIn2026 : RunInfo := mkRunInfo t2026 t2026 true.

Definition safetyFull : SafetyParameters :=
  mkSafetyParameters true time.Hour (4 * time.Hour) time.Hour.

(** an environment in which nothing fails, the lock is free, the repository
    has no epoch manager, the clock reads the given time and the blob store
    reports the given timestamp *)
Definition quietEnv (user : string) (now blobTime : Time) : Env :=
  mkEnv user "/repo/kopia.config" (fun _ => now) (fun _ _ => None)
        (fun _ => true) (fun _ => blobTime) (fun _ => false).

(** both cycles enabled, quick every hour and full every day *)
Definition paramsOwnedBy (owner : string) : Params :=
  mkParams owner (mkCycleParams true time.Hour) (mkCycleParams true (24 * time.Hour)).

Definition emptySchedule : Schedule := mkSchedule time.zero time.zero ∅.

Definition freshWorld (p : Params) (s : Schedule) : World :=
  mkWorld p s false false 0 [].

(** a callback that only leaves its mark *)
Definition markCallback (env : Env) (rp : RunParameters) : M unit :=
  call env (Calls.Callback (RunParameters.Mode rp) (RunParameters.MaintenanceStartTime rp)).

Definition fullRunAt (user : string) (start : Time) : RunParameters :=
  RunParameters.mk ModeFull (paramsOwnedBy user) start.

(** an environment like [quietEnv] with an epoch manager *)
Definition epochEnv (user : string) (now blobTime : Time) : Env :=
  mkEnv user "/repo/kopia.config" (fun _ => now) (fun _ _ => None)
        (fun _ => true) (fun _ => blobTime) (fun _ => true).

(** an environment like [quietEnv] in which every content rewrite fails *)
Definition failingRewriteEnv (user : string) (now blobTime : Time) : Env :=
  mkEnv user "/repo/kopia.config" (fun _ => now)
        (fun c _ => match c with
                    | Calls.RewriteContents _ _ _ => Some (Errorf "rewrite failed")
                    | _ => None
                    end)
        (fun _ => true) (fun _ => blobTime) (fun _ => false).

Definition fullRunOf (user : string) : RunParameters :=
  RunParameters.mk ModeFull (paramsOwnedBy user) t2026.

Definition quickRunOf (user : string) : RunParameters :=
  RunParameters.mk ModeQuick (paramsOwnedBy user) t2026.

Definition earlyRun (start finish : Z) : RunInfo :=
  mkRunInfo (start * time.Hour) (finish * time.Hour) true.

(** a full rewrite ended at hour 2, no quick rewrite *)
Definition afterFullRewrite : Schedule :=
  mkSchedule time.zero time.zero {[ TaskRewriteContentsFull := [earlyRun 1 2] ]}.

(** a full and a quick rewrite both ended at hour 2 *)
Definition afterBothRewrites : Schedule :=
  mkSchedule time.zero time.zero
    (<[ TaskRewriteContentsQuick := [earlyRun 1 2] ]>
       {[ TaskRewriteContentsFull := [earlyRun 0 2] ]}).

(** a full rewrite ended at hour 2 and a quick one at hour 3 *)
Definition afterLaterQuickRewrite : Schedule :=
  mkSchedule time.zero time.zero
    (<[ TaskRewriteContentsQuick := [earlyRun 2 3] ]>
       {[ TaskRewriteContentsFull := [earlyRun 1 2] ]}).

(** the calls of orphan-blob deletion in a quick cycle on the schedule *)
Definition deletionsOfQuickCycle (s : Schedule) : list Event :=
  List.filter (fun e => match e with
                        | Called (Calls.DeleteUnreferencedBlobs _ _) => true
                        | _ => false
                        end)
    (trace (snd (runQuickMaintenance (quietEnv "alice@host1" t2026 t2026)
                   (quickRunOf "alice@host1") safetyFull
                   (freshWorld (paramsOwnedBy "alice@host1") s)))).

(** a run that starts and ends so many hours after the start of 2026-10-30 *)
Definition gcRun (start finish : Z) (ok : bool) : RunInfo :=
  mkRunInfo (t2026 + start * time.Hour) (t2026 + finish * time.Hour) ok.

(** a finished rewrite blocks the next one until a deletion has ended no
    earlier than it *)
Definition rewriteThenDeletion (deletionEnd : Z) : Schedule :=
  mkSchedule time.zero time.zero
    (<[ TaskDeleteOrphanedBlobsFull := [gcRun 0 deletionEnd true] ]>
       {[ TaskRewriteContentsFull := [gcRun 1 2 true] ]}).

(** * Further definitions for the properties of the whole file *)

(** the full and quick content rewrites of a schedule *)
Definition rewriteHistory (s : Schedule) : list RunInfo :=
  (runsOf s TaskRewriteContentsFull ++ runsOf s TaskRewriteContentsQuick)%list.

(** two schedules whose histories hold the same successful runs, task by
    task; the failed runs and the next times may differ *)
Definition sameSuccessfulRuns (s s' : Schedule) : Prop :=
  forall task : TaskType,
    List.filter Success (runsOf s task) = List.filter Success (runsOf s' task).

(** a second schedule for [afterFullRewrite]: the same successful runs, a
    failed quick rewrite and a failed deletion besides, other next times *)
Definition afterFullRewriteAndFailures : Schedule :=
  mkSchedule t2026 t2026
    (<[ TaskDeleteOrphanedBlobsFull := [mkRunInfo (5 * time.Hour) (6 * time.Hour) false] ]>
       (<[ TaskRewriteContentsQuick := [mkRunInfo (3 * time.Hour) (4 * time.Hour) false] ]>
          {[ TaskRewriteContentsFull := [mkRunInfo time.Hour time.Hour false; earlyRun 1 2] ]})).

(** another sort that keeps the promise of [sort.Slice]: the insertion sort
    run on the reversed slice, which leaves equal elements the other way
    round *)
Definition insertionSortReversed : SortSlice :=
  fun A less l => insertionSort A less (rev l).

(** two successful runs that start at the same instant: the first ends well
    before that start, the second after it *)
Definition tiedRuns : list RunInfo :=
  [mkRunInfo (10 * time.Hour) time.Hour true;
   mkRunInfo (10 * time.Hour) (20 * time.Hour) true].

(** every run of [m] takes a world to one that is related to it *)
Definition always (R : World -> World -> Prop) {A : Type} (m : M A) : Prop :=
  forall w, R w (snd (m w)).

(** every error [m] returns is one of [Q] *)
Definition errs (Q : error -> Prop) {A : Type} (m : M A) : Prop :=
  forall w e, fst (m w) = Err e -> Q e.

(** the persisted parameters and schedule, the lock and the index-refresh
    flag of the handle are as before *)
Definition storeKept (w w' : World) : Prop :=
  params w' = params w /\ schedule w' = schedule w
  /\ locked w' = locked w /\ indexRefreshDisabled w' = indexRefreshDisabled w.

(** the run history of the persisted schedule, the parameters and the lock
    are as before *)
Definition historyKept (w w' : World) : Prop :=
  Runs (schedule w') = Runs (schedule w)
  /\ params w' = params w /\ locked w' = locked w.

(** the lock is not held afterwards unless it was held before *)
Definition lockNotLeft (w w' : World) : Prop :=
  locked w = false -> locked w' = false.

(** the events since are all of [P]; the parameters, the lock and the
    index-refresh flag are as before *)
Definition emitting (P : Event -> Prop) (w w' : World) : Prop :=
  (exists new, trace w' = (new ++ trace w)%list /\ Forall P new)
  /\ params w' = params w /\ locked w' = locked w
  /\ indexRefreshDisabled w' = indexRefreshDisabled w.

(** what a quick cycle may leave in the trace: log lines, the reads and
    writes of the schedule, the query for the epoch manager, the rewrite of
    short packs with the special prefix over the prefixed content IDs, the
    deletion of blobs not after the start of the maintenance, the index
    compaction and the log cleanup *)
Definition quickCycleEvent (rp : RunParameters) (e : Event) : Prop :=
  match e with
  | Logged _ => True
  | Called c =>
      match c with
      | Calls.EpochManager | Calls.GetSchedule | Calls.SetSchedule _
      | Calls.IndexCompaction | Calls.CleanupLogs => True
      | Calls.RewriteContents range prefix short =>
          range = AllPrefixedIDs /\ prefix = PackBlobIDPrefixSpecial /\ short = true
      | Calls.DeleteUnreferencedBlobs notAfter prefix =>
          notAfter = RunParameters.MaintenanceStartTime rp
          /\ (prefix = "" \/ prefix = PackBlobIDPrefixSpecial)
      | _ => False
      end
  end.

(** what a full cycle may leave in the trace: log lines, the reads and
    writes of the schedule, the rewrite of short packs over all content IDs
    without a prefix, the drop of deleted contents, the deletion of blobs of
    every prefix not after the start of the maintenance, the log cleanup, the
    query for the epoch manager and its cleanup *)
Definition fullCycleEvent (rp : RunParameters) (e : Event) : Prop :=
  match e with
  | Logged _ => True
  | Called c =>
      match c with
      | Calls.EpochManager | Calls.GetSchedule | Calls.SetSchedule _
      | Calls.DropDeletedContents _ | Calls.CleanupLogs
      | Calls.CleanupSupersededIndexes => True
      | Calls.RewriteContents range prefix short =>
          range = AllIDs /\ prefix = "" /\ short = true
      | Calls.DeleteUnreferencedBlobs notAfter prefix =>
          notAfter = RunParameters.MaintenanceStartTime rp /\ prefix = ""
      | _ => False
      end
  end.

(** an error wrapped with one of the given contexts *)
Definition wrappedWith (contexts : list string) (e : error) : Prop :=
  exists cause msg, e = Wrap cause msg /\ In msg contexts.

Definition quickCycleContexts : list string :=
  ["epoch manager"; "unable to get schedule"; "error rewriting metadata contents";
   "error deleting unreferenced metadata blobs"; "error performing index compaction";
   "error cleaning up logs"].

Definition fullCycleContexts : list string :=
  ["unable to get schedule"; "error rewriting contents in short packs";
   "error dropping deleted contents"; "error deleting unreferenced blobs";
   "error cleaning up logs"; "error cleaning up epoch manager"].

(** the world after one more reading of the clock *)
Definition tick (w : World) : World :=
  mkWorld (params w) (schedule w) (indexRefreshDisabled w) (locked w)
          (S (clockReads w)) (trace w).

(** the world with the lock taken, and with the lock released *)
Definition withLock (held : bool) (w : World) : World :=
  mkWorld (params w) (schedule w) (indexRefreshDisabled w) held
          (clockReads w) (trace w).

(** the name of the lock file *)
Definition lockFileOf (env : Env) : string := (ConfigFilename env ++ ".mlock")%string.

(** the world in which [RunExclusive] asks for the lock when the mode is
    given and the ownership test is passed: the index refresh is off, the
    parameters are loaded and one line is logged *)
Definition worldAtLock (w : World) : World :=
  record (Logged "Acquiring maintenance lock in file %v")
    (record (Called Calls.GetParams)
       (record (Called Calls.DisableIndexRefresh)
          (mkWorld (params w) (schedule w) true (locked w) (clockReads w) (trace w)))).

(** that world once the lock is taken *)
Definition worldLocked (env : Env) (w : World) : World :=
  record (Called (Calls.TryLock (lockFileOf env))) (withLock true (worldAtLock w)).

(** the part of [RunExclusive] from the attempt to take the lock on, for the
    resolved mode [mode] and the loaded parameters [p] *)
Definition underLock (env : Env) (mode : Mode) (p : Params)
    (cb : RunParameters -> M unit) : M unit :=
  ok <- wrapErr (TryLock env (lockFileOf env)) "error acquiring maintenance lock" ;;
  if negb ok then
    log "maintenance is already in progress locally" ;;;
    ret tt
  else
    defer Unlock (
      let runParams := RunParameters.mk mode p time.zero in
      wrapErr (updateSchedule env runParams) "error updating maintenance schedule" ;;;
      bm <- wrapErr (GetMetadata env) "error getting maintenance blob time" ;;
      let runParams := RunParameters.mk mode p bm in
      wrapErr (checkClockSkewBounds env runParams) "error checking for clock skew" ;;;
      log "Running %v maintenance..." ;;;
      defer (log "Finished %v maintenance.") (
        wrapErr (call env Calls.Refresh) "error refreshing indexes before maintenance" ;;;
        cb runParams)).

(** the error of the clock-skew check, as [RunExclusive] returns it *)
Definition clockSkewError : error :=
  Wrap (Errorf "Clock skew detected: local clock is out of sync with repository timestamp by more than allowed %v (local: %v repository: %v). Refusing to run maintenance.")
       "error checking for clock skew".

(** an environment like [quietEnv] in which another process holds the
    lock *)
Definition busyEnv (user : string) (now blobTime : Time) : Env :=
  mkEnv user "/repo/kopia.config" (fun _ => now) (fun _ _ => None)
        (fun _ => false) (fun _ => blobTime) (fun _ => false).

(** the world of a fresh repository of alice after [updateSchedule] in mode
    full under the lock, in an environment *)
Definition advancedWorld (env : Env) : World :=
  snd (updateSchedule env
         (RunParameters.mk ModeFull (paramsOwnedBy "alice@host1") time.zero)
         (worldLocked env (freshWorld (paramsOwnedBy "alice@host1") emptySchedule))).

(** the world in which the callback then runs *)
Definition callbackWorld (env : Env) : World :=
  record (Called Calls.Refresh)
    (record (Logged "Running %v maintenance...")
       (tick (record (Called Calls.GetMetadata) (advancedWorld env)))).

(** a schedule with two successful GC runs seven hours apart *)
Definition afterTwoGCRuns : Schedule :=
  mkSchedule time.zero time.zero
    {[ TaskSnapshotGarbageCollection := [gcRun 0 1 true; gcRun 8 9 true] ]}.

(** the persisted parameters and schedule and the lock are as before *)
Definition persistedKept (w w' : World) : Prop :=
  params w' = params w /\ schedule w' = schedule w /\ locked w' = locked w.

(** the same, unless the run ended with an unlock in the trace *)
Definition keptUnlessUnlocked (w w' : World) : Prop :=
  ~ In (Called Calls.Unlock) (trace w') -> persistedKept w w'.

(** * Properties *)

(** ** Durations *)

Ltac int64_bounds :=
  unfold time.representable, time.minDuration, time.maxDuration in *;
  change (2 ^ 63) with 9223372036854775808 in *;
  change (2 ^ 64) with 18446744073709551616 in *.

Lemma neg_exact (d : Duration) :
  time.minDuration < d <= time.maxDuration -> time.neg d = - d.
Proof.
  unfold time.neg, time.wrap64. int64_bounds.
  intros Hd. rewrite Z.mod_small; lia.
Qed.

Lemma neg_minDuration : time.neg time.minDuration = time.minDuration.
Proof. reflexivity. Qed.

Lemma Sub_exact (t u : Time) :
  time.representable (t - u) -> time.Sub t u = t - u.
Proof.
  unfold time.Sub. intros [Hlo Hhi].
  destruct (Z.ltb_spec (t - u) time.minDuration); [lia|].
  destruct (Z.ltb_spec time.maxDuration (t - u)); [lia|]. reflexivity.
Qed.

Lemma Sub_representable (t u : Time) : time.representable (time.Sub t u).
Proof.
  unfold time.Sub.
  destruct (Z.ltb_spec (t - u) time.minDuration);
    [|destruct (Z.ltb_spec time.maxDuration (t - u))]; int64_bounds; lia.
Qed.

(** ** The latest successful end time *)

Lemma maxEndTime_step_max (result : Time) (r : RunInfo) :
  maxEndTime_step result r = if Success r then Z.max result (End r) else result.
Proof.
  unfold maxEndTime_step, time.After. destruct (Success r); simpl; [|reflexivity].
  destruct (Z.ltb_spec result (End r)); lia.
Qed.

Lemma latestSuccessfulEnd_nonneg (runs : list RunInfo) :
  time.zero <= latestSuccessfulEnd runs.
Proof.
  unfold latestSuccessfulEnd.
  induction (map End (List.filter Success runs)); simpl; unfold time.zero in *; lia.
Qed.

Lemma latestSuccessfulEnd_app (l1 l2 : list RunInfo) :
  latestSuccessfulEnd (l1 ++ l2) =
  Z.max (latestSuccessfulEnd l1) (latestSuccessfulEnd l2).
Proof.
  unfold latestSuccessfulEnd. rewrite List.filter_app, List.map_app.
  induction (map End (List.filter Success l1)) as [|e es IH]; simpl.
  - pose proof (latestSuccessfulEnd_nonneg l2) as H.
    unfold latestSuccessfulEnd in H. lia.
  - rewrite IH. lia.
Qed.

Lemma fold_maxEndTime_step_ge (tr : list RunInfo) (acc : Time) :
  time.zero <= acc ->
  fold_left maxEndTime_step tr acc = Z.max acc (latestSuccessfulEnd tr).
Proof.
  revert acc. induction tr as [|r tr IH]; intros acc Hacc; simpl.
  - unfold latestSuccessfulEnd; simpl. lia.
  - rewrite maxEndTime_step_max.
    pose proof (latestSuccessfulEnd_nonneg tr) as Hn.
    unfold latestSuccessfulEnd in *. simpl.
    destruct (Success r); simpl.
    + rewrite IH by lia. lia.
    + apply IH. exact Hacc.
Qed.

(** The nested loops of [maxEndTime] compute the latest successful end over
    all the histories handed in. *)
Lemma maxEndTime_latest (taskRuns : list (list RunInfo)) :
  maxEndTime taskRuns = latestSuccessfulEnd (concat taskRuns).
Proof.
  unfold maxEndTime.
  assert (G : forall acc, time.zero <= acc ->
            fold_left (fun result tr => fold_left maxEndTime_step tr result) taskRuns acc
            = Z.max acc (latestSuccessfulEnd (concat taskRuns))).
  { induction taskRuns as [|tr trs IH]; intros acc Hacc; simpl.
    - unfold latestSuccessfulEnd; simpl. unfold time.zero in *. lia.
    - rewrite fold_maxEndTime_step_ge by exact Hacc.
      rewrite IH by (pose proof (latestSuccessfulEnd_nonneg tr); lia).
      rewrite latestSuccessfulEnd_app. lia. }
  rewrite G by reflexivity.
  pose proof (latestSuccessfulEnd_nonneg (concat taskRuns)). lia.
Qed.

Lemma latestSuccessfulEnd_none (runs : list RunInfo) :
  noSuccessfulRun runs -> latestSuccessfulEnd runs = time.zero.
Proof.
  unfold noSuccessfulRun, latestSuccessfulEnd.
  induction 1 as [|r rs Hr _ IH]; simpl; [reflexivity|].
  rewrite Hr. exact IH.
Qed.

(** every successful run ends no later than the latest successful end, and
    the latest successful end is the end of a successful run unless it is the
    zero time *)
Lemma latestSuccessfulEnd_upper (runs : list RunInfo) (r : RunInfo) :
  In r runs -> Success r = true -> End r <= latestSuccessfulEnd runs.
Proof.
  unfold latestSuccessfulEnd. induction runs as [|x xs IH]; simpl; [tauto|].
  intros [-> | Hin] Hs.
  - rewrite Hs. simpl. lia.
  - specialize (IH Hin Hs). destruct (Success x); simpl; lia.
Qed.

Lemma latestSuccessfulEnd_attained (runs : list RunInfo) :
  latestSuccessfulEnd runs = time.zero \/
  exists r, In r runs /\ Success r = true /\ End r = latestSuccessfulEnd runs.
Proof.
  unfold latestSuccessfulEnd. induction runs as [|x xs IH]; simpl; [left; reflexivity|].
  destruct (Success x) eqn:Hx; simpl.
  - destruct (Z.max_spec (End x) (fold_right Z.max time.zero (map End (List.filter Success xs))))
      as [[_ ->] | [_ ->]].
    + destruct IH as [IH | (r & Hin & Hs & He)]; [left; exact IH|].
      right. exists r. tauto.
    + right. exists x. tauto.
  - destruct IH as [IH | (r & Hin & Hs & He)]; [left; exact IH|].
    right. exists r. tauto.
Qed.

(** ** Rewrite-due policy *)

Lemma rewritePermitted_decides (s : Schedule) (safety : SafetyParameters)
    (rewrites : list RunInfo) :
  (time.IsZero (latestSuccessfulEnd rewrites)
   || (MinRewriteToOrphanDeletionDelay safety =? 0)
   || negb (time.Before (latestSuccessfulEnd (deletionHistory s))
                        (latestSuccessfulEnd rewrites)))
  = true <-> rewritePermitted s safety rewrites.
Proof.
  unfold rewritePermitted, time.IsZero, time.Before.
  pose proof (latestSuccessfulEnd_nonneg (deletionHistory s)) as Hd.
  unfold time.zero in Hd.
  rewrite !orb_true_iff, negb_true_iff, Z.ltb_ge, !Z.eqb_eq. split.
  - intros [[H | H] | H]; [right; right; lia | right; left; exact H | right; right; lia].
  - intros [H | [H | H]].
    + left; left. apply latestSuccessfulEnd_none. exact H.
    + left; right. exact H.
    + right. lia.
Qed.

(** C5: a quick rewrite is permitted exactly when no full or quick rewrite
    ever succeeded, or the delay is zero, or the latest successful
    orphan-blob deletion of either class is not before the latest successful
    end of a full or quick rewrite; a full rewrite is permitted exactly when
    the same holds of the full rewrites alone. *)
Theorem rewrite_due_policy (s : Schedule) (safety : SafetyParameters) :
  (shouldQuickRewriteContents s safety = true
   <-> rewritePermitted s safety
         (runsOf s TaskRewriteContentsFull ++ runsOf s TaskRewriteContentsQuick))
  /\ (shouldFullRewriteContents s safety = true
      <-> rewritePermitted s safety (runsOf s TaskRewriteContentsFull)).
Proof.
  unfold shouldQuickRewriteContents, shouldFullRewriteContents.
  rewrite !maxEndTime_latest. simpl concat. rewrite !app_nil_r.
  fold (deletionHistory s).
  split; rewrite <- rewritePermitted_decides;
    destruct (time.IsZero _ || _); simpl; tauto.
Qed.

(** ** The insertion sort keeps the promise of [sort.Slice] *)

Section InsertionSort.

Context {A : Type} (less : A -> A -> bool).

Lemma sinkLeft_perm (x : A) (p : list A) :
  Permutation (sinkLeft less x p) (x :: p).
Proof.
  induction p as [|y ys IH]; simpl; [reflexivity|].
  destruct (less x y); [|reflexivity].
  rewrite IH. apply perm_swap.
Qed.

Lemma fold_sinkLeft_perm (l acc : list A) :
  Permutation (fold_left (fun acc x => sinkLeft less x acc) l acc) (l ++ acc).
Proof.
  revert acc. induction l as [|x l IH]; intros acc; simpl; [reflexivity|].
  rewrite IH, sinkLeft_perm. symmetry. apply Permutation_middle.
Qed.

Hypothesis less_swo : StrictWeakOrder less.

Lemma less_asym (a b : A) : less a b = true -> less b a = false.
Proof.
  intros Hab. destruct (less b a) eqn:Hba; [|reflexivity].
  pose proof (swo_trans less less_swo a b a Hab Hba) as H.
  rewrite (swo_irrefl less less_swo) in H. discriminate.
Qed.

Lemma sinkLeft_sorted (x : A) (p : list A) :
  StronglySorted (fun a b => less a b = false) p ->
  StronglySorted (fun a b => less a b = false) (sinkLeft less x p).
Proof.
  induction 1 as [|y ys Hs IH Hy]; simpl.
  - repeat constructor.
  - destruct (less x y) eqn:Hxy.
    + constructor; [exact IH|].
      apply (Permutation_Forall (Permutation_sym (sinkLeft_perm x ys))).
      constructor; [apply less_asym; exact Hxy | exact Hy].
    + constructor; [constructor; assumption|].
      constructor; [exact Hxy|].
      eapply List.Forall_impl; [|exact Hy]. simpl.
      intros z Hyz. exact (swo_incomp less less_swo x y z Hxy Hyz).
Qed.

Lemma fold_sinkLeft_sorted (l acc : list A) :
  StronglySorted (fun a b => less a b = false) acc ->
  StronglySorted (fun a b => less a b = false)
                 (fold_left (fun acc x => sinkLeft less x acc) l acc).
Proof.
  revert acc. induction l as [|x l IH]; intros acc Hacc; simpl; [exact Hacc|].
  apply IH, sinkLeft_sorted, Hacc.
Qed.

End InsertionSort.

Lemma StronglySorted_snoc {A : Type} (R : A -> A -> Prop) (l : list A) (a : A) :
  StronglySorted R l -> Forall (fun x => R x a) l -> StronglySorted R (l ++ [a]).
Proof.
  induction 1 as [|y ys Hs IH Hy]; intros Ha; simpl.
  - repeat constructor.
  - inversion Ha as [|? ? Hya Hrest]; subst.
    constructor; [apply IH; exact Hrest|].
    apply Forall_app. split; [exact Hy | repeat constructor; exact Hya].
Qed.

Lemma StronglySorted_rev {A : Type} (R : A -> A -> Prop) (l : list A) :
  StronglySorted R l -> StronglySorted (fun a b => R b a) (rev l).
Proof.
  induction 1 as [|y ys Hs IH Hy]; simpl; [constructor|].
  apply StronglySorted_snoc; [exact IH|].
  apply List.Forall_forall. intros x Hx. apply List.in_rev in Hx.
  rewrite List.Forall_forall in Hy. apply Hy, Hx.
Qed.

Lemma insertionSort_contract : SortSliceContract insertionSort.
Proof.
  split; intros A less l; unfold insertionSort.
  - rewrite <- Permutation_rev, fold_sinkLeft_perm, app_nil_r. reflexivity.
  - intros Hswo. apply StronglySorted_rev.
    apply fold_sinkLeft_sorted; [exact Hswo | constructor].
Qed.

Lemma startsAfter_swo : StrictWeakOrder startsAfter.
Proof.
  split; unfold startsAfter, time.After; intros *.
  - apply Z.ltb_irrefl.
  - rewrite !Z.ltb_lt. lia.
  - rewrite !Z.ltb_ge. lia.
Qed.

(** ** Safe-drop time *)

(** As long as the spacing fits a [Duration], the test of the loop compares
    the exact spacing with the margin. *)
Lemma diff_exact (r0 r : RunInfo) (margin : Duration) :
  plainDuration margin ->
  spacing r0 r <= time.maxDuration ->
  (margin <? time.neg (time.Sub (End r) (Start r0))) = (margin <? spacing r0 r).
Proof.
  unfold plainDuration, spacing. intros Hm Hg.
  unfold time.Sub.
  destruct (Z.ltb_spec (End r - Start r0) time.minDuration) as [H1 | H1].
  { int64_bounds. lia. }
  destruct (Z.ltb_spec time.maxDuration (End r - Start r0)) as [H2 | H2].
  - rewrite neg_exact by (int64_bounds; lia).
    destruct (Z.ltb_spec margin (- time.maxDuration));
      destruct (Z.ltb_spec margin (Start r0 - End r));
      try reflexivity; int64_bounds; lia.
  - rewrite neg_exact by (int64_bounds; lia).
    f_equal. lia.
Qed.

Lemma findSafeDropTime_scan_spec (r0 : RunInfo) (older : list RunInfo)
    (safety : SafetyParameters) :
  plainDuration (MarginBetweenSnapshotGC safety) ->
  plainDuration (DropContentFromIndexExtraMargin safety) ->
  Forall (fun r => spacing r0 r <= time.maxDuration) older ->
  firstBeyondMargin r0 older safety (findSafeDropTime_scan r0 older safety).
Proof.
  intros Hm He. induction 1 as [|r rest Hr Hrest IH]; simpl.
  - right. split; [constructor | reflexivity].
  - rewrite (diff_exact r0 r _ Hm Hr).
    destruct (Z.ltb_spec (MarginBetweenSnapshotGC safety) (spacing r0 r)) as [Hlt | Hge].
    + left. exists [], r, rest. simpl.
      repeat split; [constructor | exact Hlt |].
      unfold time.Add. rewrite neg_exact by exact He. lia.
    + destruct IH as [(pre & ri & post & -> & Hpre & Hri & Hres) | [Hall Hres]].
      * left. exists (r :: pre), ri, post.
        repeat split; [constructor; assumption | exact Hri | exact Hres].
      * right. split; [constructor; assumption | exact Hres].
Qed.

Lemma filter_Success_idem (runs : list RunInfo) :
  List.filter Success (List.filter Success runs) = List.filter Success runs.
Proof.
  induction runs as [|r rs IH]; simpl; [reflexivity|].
  destruct (Success r) eqn:Hr; simpl; [rewrite Hr, IH|]; auto.
Qed.

Lemma StronglySorted_startsAfter (l : list RunInfo) :
  StronglySorted (fun a b => startsAfter b a = false) l ->
  StronglySorted (fun a b => Start b <= Start a) l.
Proof.
  induction 1 as [|r rs Hs IH Hr]; constructor; [exact IH|].
  eapply List.Forall_impl; [|exact Hr]. simpl.
  unfold startsAfter, time.After. intros x Hx. apply Z.ltb_ge in Hx. exact Hx.
Qed.

Section FindSafeDropTimeProperties.

Variable sortSlice : SortSlice.

(** failed runs are ignored throughout *)
Lemma findSafeDropTime_ignores_failed (runs : list RunInfo) (safety : SafetyParameters) :
  findSafeDropTime sortSlice runs safety
  = findSafeDropTime sortSlice (List.filter Success runs) safety.
Proof. unfold findSafeDropTime. rewrite filter_Success_idem. reflexivity. Qed.

(** with zero or one successful runs the result is the zero time *)
Lemma findSafeDropTime_few (runs : list RunInfo) (safety : SafetyParameters) :
  (length (List.filter Success runs) <= 1)%nat ->
  findSafeDropTime sortSlice runs safety = time.zero.
Proof.
  intros H. unfold findSafeDropTime.
  destruct (Nat.leb_spec (length (List.filter Success runs)) 1); [reflexivity | lia].
Qed.

Hypothesis sortSlice_ok : SortSliceContract sortSlice.

(** with two or more, the successful runs are put latest start first and
    the older ones are scanned against the latest *)
Lemma findSafeDropTime_sorted (runs : list RunInfo) (safety : SafetyParameters) :
  (2 <= length (List.filter Success runs))%nat ->
  exists r0 older,
    sortSlice RunInfo startsAfter (List.filter Success runs) = r0 :: older
    /\ Permutation (r0 :: older) (List.filter Success runs)
    /\ StronglySorted (fun a b => Start b <= Start a) (r0 :: older)
    /\ findSafeDropTime sortSlice runs safety = findSafeDropTime_scan r0 older safety.
Proof.
  intros Hlen. unfold findSafeDropTime.
  destruct (Nat.leb_spec (length (List.filter Success runs)) 1) as [Hle | _]; [lia|].
  pose proof (sortSlice_perm _ sortSlice_ok RunInfo startsAfter
                (List.filter Success runs)) as Hperm.
  pose proof (sortSlice_sorted _ sortSlice_ok RunInfo startsAfter
                (List.filter Success runs) startsAfter_swo) as Hsorted.
  destruct (sortSlice RunInfo startsAfter (List.filter Success runs)) as [|r0 older].
  - apply Permutation_length in Hperm. simpl in Hperm. lia.
  - exists r0, older.
    split; [reflexivity|]. split; [exact Hperm|].
    split; [apply StronglySorted_startsAfter, Hsorted | reflexivity].
Qed.

End FindSafeDropTimeProperties.

(** X7: within the range of a [Duration] the algorithm is the one of the
    description: failed runs are ignored, fewer than two successful runs give
    the zero time, and otherwise the successful runs are put latest start
    first and the first older run whose spacing to the latest is beyond the
    margin gives its start less the extra margin. *)
Theorem findSafeDropTime_within_range (sortSlice : SortSlice)
    (runs : list RunInfo) (safety : SafetyParameters) :
  SortSliceContract sortSlice ->
  plainDuration (MarginBetweenSnapshotGC safety) ->
  plainDuration (DropContentFromIndexExtraMargin safety) ->
  (forall r r', In r (List.filter Success runs) -> In r' (List.filter Success runs) ->
                spacing r r' <= time.maxDuration) ->
  findSafeDropTime sortSlice runs safety
  = findSafeDropTime sortSlice (List.filter Success runs) safety
  /\ ((length (List.filter Success runs) <= 1)%nat ->
      findSafeDropTime sortSlice runs safety = time.zero)
  /\ ((2 <= length (List.filter Success runs))%nat ->
      exists r0 older,
        sortSlice RunInfo startsAfter (List.filter Success runs) = r0 :: older
        /\ Permutation (r0 :: older) (List.filter Success runs)
        /\ StronglySorted (fun a b => Start b <= Start a) (r0 :: older)
        /\ firstBeyondMargin r0 older safety (findSafeDropTime sortSlice runs safety)).
Proof.
  intros Hsort Hm He Hrange.
  split; [apply findSafeDropTime_ignores_failed|].
  split; [apply findSafeDropTime_few|].
  intros Hlen.
  destruct (findSafeDropTime_sorted sortSlice Hsort runs safety Hlen)
    as (r0 & older & Heq & Hperm & Hsorted & Hres).
  exists r0, older. repeat (split; [assumption|]).
  rewrite Hres. apply findSafeDropTime_scan_spec; [exact Hm | exact He |].
  apply List.Forall_forall. intros r Hr.
  apply Hrange; eapply Permutation_in; try exact Hperm; simpl; auto.
Qed.

(** *** Two runs far apart *)

(** C1: two successful GC runs 2025 years apart.  The spacing between the
    start of the latest run and the end of the older one is beyond the
    margin of four hours, so the older start less the extra margin is due as
    the safe-drop time; the subtraction saturates at the smallest
    [Duration], whose negation is itself, the test fails and the code returns
    the zero time. *)
Theorem findSafeDropTime_saturated_spacing :
  length (List.filter Success [gcRunAtZero; gcRunIn2026]) = 2%nat
  /\ insertionSort RunInfo startsAfter [gcRunAtZero; gcRunIn2026]
     = [gcRunIn2026; gcRunAtZero]
  /\ MarginBetweenSnapshotGC safetyFull < spacing gcRunIn2026 gcRunAtZero
  /\ time.neg (time.Sub (End gcRunAtZero) (Start gcRunIn2026)) = time.minDuration
  /\ findSafeDropTime insertionSort [gcRunAtZero; gcRunIn2026] safetyFull = time.zero
  /\ Start gcRunAtZero - DropContentFromIndexExtraMargin safetyFull <> time.zero.
Proof. vm_compute. repeat split; congruence. Qed.

(** the same under every sort that keeps the promise of [sort.Slice]: the
    starts differ, so the order of the two runs is settled *)
Lemma findSafeDropTime_saturated_any_sort (sortSlice : SortSlice) :
  SortSliceContract sortSlice ->
  findSafeDropTime sortSlice [gcRunAtZero; gcRunIn2026] safetyFull = time.zero.
Proof.
  intros Hsort.
  destruct (findSafeDropTime_sorted sortSlice Hsort [gcRunAtZero; gcRunIn2026] safetyFull)
    as (r0 & older & _ & Hperm & Hsorted & ->); [simpl; lia|].
  simpl in Hperm. apply Permutation_sym, Permutation_length_2_inv in Hperm.
  destruct Hperm as [Heq | Heq]; injection Heq as -> ->.
  - inversion Hsorted as [|? ? _ Hall]; subst.
    inversion Hall as [|? ? Hle _]; subst. vm_compute in Hle. congruence.
  - vm_compute. reflexivity.
Qed.

(** ** Clock-skew check *)

Lemma checkClockSkewBounds_unfold (env : Env) (rp : RunParameters) (w : World) :
  fst (checkClockSkewBounds env rp w)
  = if maxClockSkew <? clockSkewOf (RunParameters.MaintenanceStartTime rp)
                                   (clock env (clockReads w))
    then Err (Errorf "Clock skew detected: local clock is out of sync with repository timestamp by more than allowed %v (local: %v repository: %v). Refusing to run maintenance.")
    else Ok tt.
Proof.
  unfold checkClockSkewBounds, clockSkewOf, bind, repTime, fail, ret. simpl.
  destruct (maxClockSkew <? _); reflexivity.
Qed.

(** Unless the local clock is ahead of the repository timestamp by 2^63
    nanoseconds or more, the computed skew is the absolute difference. *)
Lemma clockSkewOf_abs (repoTime localTime : Time) :
  time.minDuration < repoTime - localTime ->
  clockSkewOf repoTime localTime = Z.min (Z.abs (repoTime - localTime)) time.maxDuration.
Proof.
  intros Hlo. unfold clockSkewOf, time.Sub.
  destruct (Z.ltb_spec (repoTime - localTime) time.minDuration) as [H1 | H1]; [lia|].
  destruct (Z.ltb_spec time.maxDuration (repoTime - localTime)) as [H2 | H2].
  - change (time.maxDuration <? 0) with false. cbv iota. int64_bounds. lia.
  - destruct (Z.ltb_spec (repoTime - localTime) 0) as [H3 | H3].
    + rewrite neg_exact by lia. int64_bounds. lia.
    + int64_bounds. lia.
Qed.

(** X11: unless the local clock is ahead of the repository timestamp by
    2^63 nanoseconds or more, the check fails exactly when the absolute
    difference is more than five minutes, in either direction. *)
Lemma checkClockSkewBounds_within_range (env : Env) (rp : RunParameters) (w : World) :
  time.minDuration < RunParameters.MaintenanceStartTime rp - clock env (clockReads w) ->
  (exists e, fst (checkClockSkewBounds env rp w) = Err e)
  <-> maxClockSkew < Z.abs (RunParameters.MaintenanceStartTime rp - clock env (clockReads w)).
Proof.
  intros Hlo. rewrite checkClockSkewBounds_unfold, clockSkewOf_abs by exact Hlo.
  assert (Hmax : maxClockSkew < time.maxDuration) by (vm_compute; reflexivity).
  destruct (Z.ltb_spec maxClockSkew
              (Z.min (Z.abs (RunParameters.MaintenanceStartTime rp - clock env (clockReads w)))
                     time.maxDuration)) as [H | H].
  - split; [intros _; lia | intros _; eexists; reflexivity].
  - split; [intros [e He]; discriminate | lia].
Qed.

(** *** A schedule blob without a timestamp *)

(** C7: the repository timestamp is the zero time and the local clock reads
    2026.  The clocks differ by far more than five minutes, and the check
    passes: the subtraction saturates at the smallest [Duration], which its
    negation leaves negative.  [RunExclusive] goes on to the callback. *)
Theorem checkClockSkewBounds_passes_zero_timestamp :
  maxClockSkew
  < Z.abs (RunParameters.MaintenanceStartTime (fullRunAt "alice@host1" time.zero)
           - clock (quietEnv "alice@host1" t2026 time.zero)
                   (clockReads (freshWorld (paramsOwnedBy "alice@host1") emptySchedule)))
  /\ clockSkewOf time.zero t2026 = time.minDuration
  /\ checkClockSkewBounds (quietEnv "alice@host1" t2026 time.zero)
        (fullRunAt "alice@host1" time.zero)
        (freshWorld (paramsOwnedBy "alice@host1") emptySchedule)
     = (Ok tt, mkWorld (paramsOwnedBy "alice@host1") emptySchedule false false 1 [])
  /\ fst (RunExclusive (quietEnv "alice@host1" t2026 time.zero) ModeFull false
            (markCallback (quietEnv "alice@host1" t2026 time.zero))
            (freshWorld (paramsOwnedBy "alice@host1") emptySchedule))
     = Ok tt
  /\ In (Called (Calls.Callback ModeFull time.zero))
        (trace (snd (RunExclusive (quietEnv "alice@host1" t2026 time.zero) ModeFull false
                       (markCallback (quietEnv "alice@host1" t2026 time.zero))
                       (freshWorld (paramsOwnedBy "alice@host1") emptySchedule)))).
Proof.
  split; [vm_compute; reflexivity|].
  split; [vm_compute; reflexivity|].
  split; [vm_compute; reflexivity|].
  split; [vm_compute; reflexivity|].
  vm_compute. tauto.
Qed.

(** the bound itself: a skew of five minutes passes and one nanosecond more
    fails, whichever clock is ahead *)
Example checkClockSkewBounds_at_the_bound :
  fst (checkClockSkewBounds (quietEnv "alice@host1" t2026 time.zero)
         (fullRunAt "alice@host1" (t2026 + 5 * time.Minute))
         (freshWorld (paramsOwnedBy "alice@host1") emptySchedule)) = Ok tt
  /\ fst (checkClockSkewBounds (quietEnv "alice@host1" t2026 time.zero)
            (fullRunAt "alice@host1" (t2026 - 5 * time.Minute))
            (freshWorld (paramsOwnedBy "alice@host1") emptySchedule)) = Ok tt
  /\ fst (checkClockSkewBounds (quietEnv "alice@host1" t2026 time.zero)
            (fullRunAt "alice@host1" (t2026 + 5 * time.Minute + 1))
            (freshWorld (paramsOwnedBy "alice@host1") emptySchedule)) <> Ok tt
  /\ fst (checkClockSkewBounds (quietEnv "alice@host1" t2026 time.zero)
            (fullRunAt "alice@host1" (t2026 - 5 * time.Minute - 1))
            (freshWorld (paramsOwnedBy "alice@host1") emptySchedule)) <> Ok tt.
Proof. vm_compute. repeat split; congruence. Qed.

(** ** Eligibility *)

Ltac run_monad :=
  unfold bind, wrapErr, ret, fail, log, call, lift, attempt, defer; simpl.

Lemma not_Before (t u : Time) : negb (time.Before t u) = (u <=? t).
Proof.
  unfold time.Before.
  destruct (Z.ltb_spec t u); destruct (Z.leb_spec u t); simpl; try reflexivity; lia.
Qed.

(** another owner gives [ModeNone] with a log line and nothing else; the
    schedule is not loaded *)
Lemma shouldRun_other_owner (env : Env) (p : Params) (w : World) :
  Owner p <> UsernameAtHost env ->
  shouldRun env p w
  = (Ok ModeNone, record (Logged "maintenance owned by another user '%v'") w).
Proof.
  intros Hne. unfold shouldRun.
  apply String.eqb_neq in Hne. rewrite Hne. reflexivity.
Qed.

Lemma shouldRun_resolveMode (env : Env) (p : Params) (w : World) :
  Owner p = UsernameAtHost env ->
  failure env Calls.GetSchedule (length (trace w)) = None ->
  fst (shouldRun env p w)
  = Ok (resolveMode p (schedule w)
          (clock env (clockReads w))
          (clock env (if Enabled (FullCycle p) then S (clockReads w) else clockReads w))).
Proof.
  intros Hown Hget. unfold shouldRun, resolveMode.
  apply String.eqb_eq in Hown. rewrite Hown. simpl.
  unfold GetSchedule. run_monad. rewrite Hget. simpl.
  unfold repTime.
  destruct (Enabled (FullCycle p)); simpl.
  - rewrite not_Before.
    destruct (NextFullMaintenanceTime (schedule w) <=? clock env (clockReads w));
      simpl; [reflexivity|].
    destruct (Enabled (QuickCycle p)); simpl; [|reflexivity].
    rewrite not_Before.
    destruct (NextQuickMaintenanceTime (schedule w) <=? clock env (S (clockReads w)));
      reflexivity.
  - destruct (Enabled (QuickCycle p)); simpl; [|reflexivity].
    rewrite not_Before.
    destruct (NextQuickMaintenanceTime (schedule w) <=? clock env (clockReads w));
      reflexivity.
Qed.

(** what the resolution gives in the three cases of the description *)
Lemma resolveMode_full (p : Params) (s : Schedule) (nowFull nowQuick : Time) :
  Enabled (FullCycle p) = true -> NextFullMaintenanceTime s <= nowFull ->
  resolveMode p s nowFull nowQuick = ModeFull.
Proof.
  intros He Hd. unfold resolveMode. rewrite He.
  destruct (Z.leb_spec (NextFullMaintenanceTime s) nowFull); [reflexivity | lia].
Qed.

Lemma resolveMode_quick (p : Params) (s : Schedule) (nowFull nowQuick : Time) :
  (Enabled (FullCycle p) = false \/ nowFull < NextFullMaintenanceTime s) ->
  Enabled (QuickCycle p) = true -> NextQuickMaintenanceTime s <= nowQuick ->
  resolveMode p s nowFull nowQuick = ModeQuick.
Proof.
  intros Hf He Hd. unfold resolveMode. rewrite He.
  destruct (Z.leb_spec (NextQuickMaintenanceTime s) nowQuick); [|lia].
  destruct Hf as [-> | Hf]; [reflexivity|].
  destruct (Z.leb_spec (NextFullMaintenanceTime s) nowFull); [lia|].
  rewrite andb_false_r. reflexivity.
Qed.

Lemma resolveMode_disabled (p : Params) (s : Schedule) (nowFull nowQuick : Time) :
  (Enabled (FullCycle p) = false -> resolveMode p s nowFull nowQuick <> ModeFull)
  /\ (Enabled (QuickCycle p) = false -> resolveMode p s nowFull nowQuick <> ModeQuick)
  /\ (Enabled (FullCycle p) = false -> Enabled (QuickCycle p) = false ->
      resolveMode p s nowFull nowQuick = ModeNone).
Proof.
  unfold resolveMode. repeat split.
  - intros ->. simpl. destruct (_ && _); discriminate.
  - intros ->. simpl. destruct (_ && _); discriminate.
  - intros -> ->. reflexivity.
Qed.

(** C8: for the owner of the maintenance, once the schedule is loaded, the
    result is full when the full cycle is enabled and due, whatever the quick
    cycle says; else quick when the quick cycle is enabled and due; a
    disabled cycle is never chosen, and with both disabled the result is
    none.  The quick comparison takes a clock reading of its own, the second
    one when the full cycle is enabled. *)
Theorem shouldRun_owner_resolves (env : Env) (p : Params) (w : World) :
  Owner p = UsernameAtHost env ->
  failure env Calls.GetSchedule (length (trace w)) = None ->
  let s := schedule w in
  let nowFull := clock env (clockReads w) in
  let nowQuick :=
    clock env (if Enabled (FullCycle p) then S (clockReads w) else clockReads w) in
  (Enabled (FullCycle p) = true -> NextFullMaintenanceTime s <= nowFull ->
   fst (shouldRun env p w) = Ok ModeFull)
  /\ ((Enabled (FullCycle p) = false \/ nowFull < NextFullMaintenanceTime s) ->
      Enabled (QuickCycle p) = true -> NextQuickMaintenanceTime s <= nowQuick ->
      fst (shouldRun env p w) = Ok ModeQuick)
  /\ (Enabled (FullCycle p) = false -> fst (shouldRun env p w) <> Ok ModeFull)
  /\ (Enabled (QuickCycle p) = false -> fst (shouldRun env p w) <> Ok ModeQuick)
  /\ (Enabled (FullCycle p) = false -> Enabled (QuickCycle p) = false ->
      fst (shouldRun env p w) = Ok ModeNone).
Proof.
  intros Hown Hget s nowFull nowQuick.
  rewrite (shouldRun_resolveMode env p w Hown Hget).
  fold s nowFull nowQuick.
  destruct (resolveMode_disabled p s nowFull nowQuick) as (Hf & Hq & Hn).
  repeat split.
  - intros He Hd. f_equal. apply resolveMode_full; assumption.
  - intros Hfull He Hd. f_equal. apply resolveMode_quick; assumption.
  - intros He H. injection H as H. exact (Hf He H).
  - intros He H. injection H as H. exact (Hq He H).
  - intros He1 He2. f_equal. apply Hn; assumption.
Qed.

(** C8 as stated fails for another owner: the full cycle is enabled and due,
    and the result is none. *)
Lemma shouldRun_full_due_other_owner :
  Enabled (FullCycle (paramsOwnedBy "alice@host1")) = true
  /\ NextFullMaintenanceTime (schedule (freshWorld (paramsOwnedBy "alice@host1") emptySchedule))
     <= clock (quietEnv "bob@host2" t2026 t2026)
              (clockReads (freshWorld (paramsOwnedBy "alice@host1") emptySchedule))
  /\ fst (shouldRun (quietEnv "bob@host2" t2026 t2026) (paramsOwnedBy "alice@host1")
                    (freshWorld (paramsOwnedBy "alice@host1") emptySchedule))
     = Ok ModeNone
  /\ fst (shouldRun (quietEnv "bob@host2" t2026 t2026) (paramsOwnedBy "alice@host1")
                    (freshWorld (paramsOwnedBy "alice@host1") emptySchedule))
     <> Ok ModeFull.
Proof. vm_compute. repeat split; congruence. Qed.

Lemma shouldRun_owner_resolves_witness :
  fst (shouldRun (quietEnv "alice@host1" t2026 t2026) (paramsOwnedBy "alice@host1")
                 (freshWorld (paramsOwnedBy "alice@host1") emptySchedule))
  = Ok ModeFull.
Proof.
  refine (proj1 (shouldRun_owner_resolves
                   (quietEnv "alice@host1" t2026 t2026) (paramsOwnedBy "alice@host1")
                   (freshWorld (paramsOwnedBy "alice@host1") emptySchedule) _ _) _ _).
  - reflexivity.
  - reflexivity.
  - reflexivity.
  - vm_compute. congruence.
Defined.

(** ** Ownership *)

(** C4: without [force], when the loaded parameters name another owner, the
    call returns [NotOwnedError] with that owner; the lock is not asked for,
    the lock state and the persisted schedule are as before, and the only calls
    made are the two that come first, which switch off the index refresh of
    the handle and load the parameters. *)
Theorem RunExclusive_not_owned (env : Env) (mode : Mode)
    (cb : RunParameters -> M unit) (w : World) :
  failure env Calls.GetParams (S (length (trace w))) = None ->
  Owner (params w) <> UsernameAtHost env ->
  fst (RunExclusive env mode false cb w) = Err (NotOwnedError (Owner (params w)))
  /\ locked (snd (RunExclusive env mode false cb w)) = locked w
  /\ schedule (snd (RunExclusive env mode false cb w)) = schedule w
  /\ trace (snd (RunExclusive env mode false cb w))
     = Called Calls.GetParams :: Called Calls.DisableIndexRefresh :: trace w.
Proof.
  intros Hget Hne. apply String.eqb_neq in Hne.
  unfold RunExclusive, DisableIndexRefresh, GetParams, isOwnedByByThisUser.
  run_monad. rewrite Hget. simpl. rewrite Hne. simpl. auto.
Qed.

Lemma RunExclusive_not_owned_witness :
  fst (RunExclusive (quietEnv "bob@host2" t2026 t2026) ModeFull false
                    (markCallback (quietEnv "bob@host2" t2026 t2026))
                    (freshWorld (paramsOwnedBy "alice@host1") emptySchedule))
  = Err (NotOwnedError "alice@host1").
Proof.
  refine (proj1 (RunExclusive_not_owned
                   (quietEnv "bob@host2" t2026 t2026) ModeFull
                   (markCallback (quietEnv "bob@host2" t2026 t2026))
                   (freshWorld (paramsOwnedBy "alice@host1") emptySchedule) _ _)).
  - reflexivity.
  - vm_compute. congruence.
Defined.

(** C10: [shouldRun] answers none for another owner before it loads the
    schedule, so [RunExclusive] in mode auto with [force] returns without an
    error and without maintenance: after the parameters are loaded only two
    log lines follow, the lock is not asked for, the callback does not run
    and the schedule is as before. *)
Theorem RunExclusive_auto_forced_other_owner (env : Env)
    (cb : RunParameters -> M unit) (w : World) :
  failure env Calls.GetParams (S (length (trace w))) = None ->
  Owner (params w) <> UsernameAtHost env ->
  (forall w0 : World,
      shouldRun env (params w) w0
      = (Ok ModeNone, record (Logged "maintenance owned by another user '%v'") w0))
  /\ fst (RunExclusive env ModeAuto true cb w) = Ok tt
  /\ locked (snd (RunExclusive env ModeAuto true cb w)) = locked w
  /\ schedule (snd (RunExclusive env ModeAuto true cb w)) = schedule w
  /\ trace (snd (RunExclusive env ModeAuto true cb w))
     = Logged "not due for maintenance"
       :: Logged "maintenance owned by another user '%v'"
       :: Called Calls.GetParams :: Called Calls.DisableIndexRefresh :: trace w.
Proof.
  intros Hget Hne.
  split; [intros w0; apply shouldRun_other_owner; exact Hne|].
  unfold RunExclusive, DisableIndexRefresh, GetParams.
  run_monad. rewrite Hget. simpl.
  rewrite shouldRun_other_owner by exact Hne. simpl. auto.
Qed.

Lemma RunExclusive_auto_forced_other_owner_witness :
  fst (RunExclusive (quietEnv "bob@host2" t2026 t2026) ModeAuto true
                    (markCallback (quietEnv "bob@host2" t2026 t2026))
                    (freshWorld (paramsOwnedBy "alice@host1") emptySchedule))
  = Ok tt.
Proof.
  refine (proj1 (proj2 (RunExclusive_auto_forced_other_owner
                   (quietEnv "bob@host2" t2026 t2026)
                   (markCallback (quietEnv "bob@host2" t2026 t2026))
                   (freshWorld (paramsOwnedBy "alice@host1") emptySchedule) _ _))).
  - reflexivity.
  - vm_compute. congruence.
Defined.

(** ** Schedule advance *)

(** C9: when the schedule loads and is persisted, in mode full both next
    times are set, the full one to the first clock reading plus the full
    interval and the quick one to the second reading plus the quick interval;
    in mode quick only the quick one is set, to the clock reading plus the
    quick interval, and the full one is as it was.  The run history is as it
    was in both. *)
Theorem updateSchedule_advances (env : Env) (rp : RunParameters) (w : World) :
  failure env Calls.GetSchedule (length (trace w)) = None ->
  let p := RunParameters.Params rp in
  let s := schedule w in
  let t1 := clock env (clockReads w) in
  let t2 := clock env (S (clockReads w)) in
  let sFull := mkSchedule (time.Add t1 (Interval (FullCycle p)))
                          (time.Add t2 (Interval (QuickCycle p))) (Runs s) in
  let sQuick := mkSchedule (NextFullMaintenanceTime s)
                           (time.Add t1 (Interval (QuickCycle p))) (Runs s) in
  (RunParameters.Mode rp = ModeFull ->
   failure env (Calls.SetSchedule sFull) (3 + length (trace w)) = None ->
   fst (updateSchedule env rp w) = Ok tt
   /\ schedule (snd (updateSchedule env rp w)) = sFull)
  /\ (RunParameters.Mode rp = ModeQuick ->
      failure env (Calls.SetSchedule sQuick) (2 + length (trace w)) = None ->
      fst (updateSchedule env rp w) = Ok tt
      /\ schedule (snd (updateSchedule env rp w)) = sQuick).
Proof.
  intros Hget p s t1 t2 sFull sQuick.
  unfold updateSchedule, GetSchedule, SetSchedule, repTime,
    setNextFullMaintenanceTime, setNextQuickMaintenanceTime.
  subst p s t1 t2 sFull sQuick.
  split; intros Hmode Hset; simpl in Hset; rewrite Hmode; run_monad;
    rewrite Hget; simpl; rewrite Hset; simpl; auto.
Qed.

Lemma updateSchedule_advances_witness :
  (schedule (snd (updateSchedule (quietEnv "alice@host1" t2026 t2026)
                    (RunParameters.mk ModeFull (paramsOwnedBy "alice@host1") time.zero)
                    (freshWorld (paramsOwnedBy "alice@host1") emptySchedule)))
   = mkSchedule (t2026 + 24 * time.Hour) (t2026 + time.Hour) ∅)
  /\ (schedule (snd (updateSchedule (quietEnv "alice@host1" t2026 t2026)
                       (RunParameters.mk ModeQuick (paramsOwnedBy "alice@host1") time.zero)
                       (freshWorld (paramsOwnedBy "alice@host1") emptySchedule)))
      = mkSchedule time.zero (t2026 + time.Hour) ∅).
Proof.
  split.
  - refine (proj2 (proj1 (updateSchedule_advances
                     (quietEnv "alice@host1" t2026 t2026)
                     (RunParameters.mk ModeFull (paramsOwnedBy "alice@host1") time.zero)
                     (freshWorld (paramsOwnedBy "alice@host1") emptySchedule) _) _ _));
      reflexivity.
  - refine (proj2 (proj2 (updateSchedule_advances
                     (quietEnv "alice@host1" t2026 t2026)
                     (RunParameters.mk ModeQuick (paramsOwnedBy "alice@host1") time.zero)
                     (freshWorld (paramsOwnedBy "alice@host1") emptySchedule) _) _ _));
      reflexivity.
Defined.

(** ** The quick cycle under an epoch manager *)

(** C2, as the code has it: when the content manager reports an epoch
    manager, the quick cycle returns at once without an error; it runs no
    task at all, the log cleanup included, and leaves one log line. *)
Theorem runQuickMaintenance_epoch_manager (env : Env)
    (rp : RunParameters) (safety : SafetyParameters) (w : World) :
  epochManagerPresent env (length (trace w)) = true ->
  runQuickMaintenance env rp safety w
  = (Ok tt,
     record (Logged "quick maintenance not required for epoch manager")
            (record (Called Calls.EpochManager) w)).
Proof.
  intros Hem. unfold runQuickMaintenance, EpochManager. run_monad.
  rewrite Hem. reflexivity.
Qed.

Lemma runQuickMaintenance_epoch_manager_witness :
  epochManagerPresent (epochEnv "alice@host1" t2026 t2026) 0 = true
  /\ trace (snd (runQuickMaintenance (epochEnv "alice@host1" t2026 t2026)
                   (RunParameters.mk ModeQuick (paramsOwnedBy "alice@host1") t2026)
                   safetyFull
                   (freshWorld (paramsOwnedBy "alice@host1") emptySchedule)))
     = [Logged "quick maintenance not required for epoch manager";
        Called Calls.EpochManager].
Proof.
  split; [reflexivity|].
  rewrite (runQuickMaintenance_epoch_manager
             (epochEnv "alice@host1" t2026 t2026)
             (RunParameters.mk ModeQuick (paramsOwnedBy "alice@host1") t2026)
             safetyFull (freshWorld (paramsOwnedBy "alice@host1") emptySchedule)).
  - reflexivity.
  - reflexivity.
Defined.

(** C2 as stated fails: with an epoch manager the quick cycle does not run
    the log cleanup. *)
Lemma runQuickMaintenance_epoch_manager_no_cleanup :
  epochManagerPresent (epochEnv "alice@host1" t2026 t2026) 0 = true
  /\ ~ In (Called Calls.CleanupLogs)
          (trace (snd (runQuickMaintenance (epochEnv "alice@host1" t2026 t2026)
                         (RunParameters.mk ModeQuick (paramsOwnedBy "alice@host1") t2026)
                         safetyFull
                         (freshWorld (paramsOwnedBy "alice@host1") emptySchedule)))).
Proof.
  split; [reflexivity|].
  vm_compute. intros [H | [H | []]]; discriminate H.
Qed.

(** ** Traces only grow *)

Section Extends.

Context {A B : Type}.

Lemma extends_ret (a : A) : extends (ret a).
Proof. intros w. exists []. reflexivity. Qed.

Lemma extends_fail (e : error) : extends (@fail A e).
Proof. intros w. exists []. reflexivity. Qed.

Lemma extends_lift (r : result A) : extends (lift r).
Proof. intros w. exists []. reflexivity. Qed.

Lemma extends_bind (m : M A) (k : A -> M B) :
  extends m -> (forall a, extends (k a)) -> extends (bind m k).
Proof.
  intros Hm Hk w. unfold bind. destruct (Hm w) as [n1 H1].
  destruct (m w) as [[a | e] w1]; simpl in *.
  - destruct (Hk a w1) as [n2 H2]. exists (n2 ++ n1)%list.
    rewrite H2, H1, app_assoc. reflexivity.
  - exists n1. exact H1.
Qed.

Lemma extends_wrapErr (m : M A) (msg : string) : extends m -> extends (wrapErr m msg).
Proof.
  intros Hm w. unfold wrapErr. destruct (Hm w) as [n1 H1].
  destruct (m w) as [[a | e] w1]; exists n1; exact H1.
Qed.

Lemma extends_attempt (m : M A) : extends m -> extends (attempt m).
Proof.
  intros Hm w. unfold attempt. destruct (Hm w) as [n1 H1].
  destruct (m w) as [r w1]. exists n1. exact H1.
Qed.

Lemma extends_defer (cleanup : M unit) (body : M A) :
  extends cleanup -> extends body -> extends (defer cleanup body).
Proof.
  intros Hc Hb w. unfold defer. destruct (Hb w) as [n1 H1].
  destruct (body w) as [r w1]. simpl in *.
  destruct (Hc w1) as [n2 H2]. exists (n2 ++ n1)%list.
  rewrite H2, H1, app_assoc. reflexivity.
Qed.

(** what follows a step keeps the events of the step *)
Lemma bind_keeps (m : M A) (k : A -> M B) (w : World) (past : list Event) :
  (exists new, trace (snd (m w)) = (new ++ past)%list) ->
  (forall a, extends (k a)) ->
  exists new, trace (snd (bind m k w)) = (new ++ past)%list.
Proof.
  intros [n1 H1] Hk. unfold bind.
  destruct (m w) as [[a | e] w1]; simpl in *.
  - destruct (Hk a w1) as [n2 H2]. exists (n2 ++ n1)%list.
    rewrite H2, H1, app_assoc. reflexivity.
  - exists n1. exact H1.
Qed.

End Extends.

Lemma wrapErr_trace {A : Type} (m : M A) (msg : string) (w : World) :
  trace (snd (wrapErr m msg w)) = trace (snd (m w)).
Proof. unfold wrapErr. destruct (m w) as [[a | e] w1]; reflexivity. Qed.

Lemma extends_log (format : string) : extends (log format).
Proof. intros w. exists [Logged format]. reflexivity. Qed.

Lemma extends_call (env : Env) (c : Call) : extends (call env c).
Proof.
  intros w. exists [Called c]. unfold call.
  destruct (failure env c (length (trace w))); reflexivity.
Qed.

Lemma extends_repTime (env : Env) : extends (repTime env).
Proof. intros w. exists []. reflexivity. Qed.

Lemma extends_state {A : Type} (f : World -> A) (g : World -> World) :
  (forall w, trace (g w) = trace w) -> extends (fun w => (Ok (f w), g w)).
Proof. intros H w. exists []. simpl. apply H. Qed.

Lemma extends_EpochManager (env : Env) : extends (EpochManager env).
Proof. intros w. exists [Called Calls.EpochManager]. reflexivity. Qed.

Ltac extends_step :=
  lazymatch goal with
  | |- extends (ret _) => apply extends_ret
  | |- extends (fail _) => apply extends_fail
  | |- extends (lift _) => apply extends_lift
  | |- extends (log _) => apply extends_log
  | |- extends (call _ _) => apply extends_call
  | |- extends (repTime _) => apply extends_repTime
  | |- extends (EpochManager _) => apply extends_EpochManager
  | |- extends (wrapErr _ _) => apply extends_wrapErr
  | |- extends (attempt _) => apply extends_attempt
  | |- extends (defer _ _) => apply extends_defer
  | |- extends (bind _ _) => apply extends_bind; [|intros ?]
  | |- extends (if ?b then _ else _) => destruct b
  | |- extends (match ?x with _ => _ end) => destruct x
  | |- extends (fun w => (Ok _, _)) => apply extends_state; intros; reflexivity
  end.

Ltac solve_extends := repeat extends_step.

Lemma extends_GetSchedule (env : Env) : extends (GetSchedule env).
Proof. unfold GetSchedule. solve_extends. Qed.

Lemma extends_SetSchedule (env : Env) (s : Schedule) : extends (SetSchedule env s).
Proof. unfold SetSchedule. solve_extends. Qed.

Lemma extends_ReportRun (env : Env) (taskType : TaskType) (s : Schedule) (run : M unit) :
  extends run -> extends (ReportRun env taskType s run).
Proof.
  intros Hrun. unfold ReportRun. solve_extends;
    first [exact Hrun | apply extends_SetSchedule].
Qed.

Lemma extends_runTaskCleanupLogs (env : Env) (rp : RunParameters) (s : Schedule) :
  extends (runTaskCleanupLogs env rp s).
Proof. unfold runTaskCleanupLogs. apply extends_ReportRun. solve_extends. Qed.

Lemma extends_runTaskCleanupEpochManager (env : Env) (rp : RunParameters) (s : Schedule) :
  extends (runTaskCleanupEpochManager env rp s).
Proof.
  unfold runTaskCleanupEpochManager. solve_extends.
  apply extends_ReportRun. solve_extends.
Qed.

Lemma extends_runTaskIndexCompactionQuick (env : Env) (rp : RunParameters) (s : Schedule)
    (safety : SafetyParameters) :
  extends (runTaskIndexCompactionQuick env rp s safety).
Proof. unfold runTaskIndexCompactionQuick. apply extends_ReportRun. solve_extends. Qed.

Lemma extends_fullDeleteStep (env : Env) (rp : RunParameters) (s : Schedule)
    (safety : SafetyParameters) :
  extends (fullDeleteStep env rp s safety).
Proof.
  unfold fullDeleteStep, runTaskDeleteOrphanedBlobsFull, notDeletingOrphanedBlobs.
  solve_extends. apply extends_ReportRun. solve_extends.
Qed.

(** ** Stepping through a computation *)

Lemma bind_ok {A B : Type} (m : M A) (k : A -> M B) (w w1 : World) (a : A) :
  m w = (Ok a, w1) -> bind m k w = k a w1.
Proof. intros H. unfold bind. rewrite H. reflexivity. Qed.

Lemma bind_err {A B : Type} (m : M A) (k : A -> M B) (w w1 : World) (e : error) :
  m w = (Err e, w1) -> bind m k w = (Err e, w1).
Proof. intros H. unfold bind. rewrite H. reflexivity. Qed.

Lemma GetSchedule_ok (env : Env) (msg : string) (w : World) :
  failure env Calls.GetSchedule (length (trace w)) = None ->
  wrapErr (GetSchedule env) msg w
  = (Ok (schedule w), record (Called Calls.GetSchedule) w).
Proof.
  intros H. unfold GetSchedule. run_monad. rewrite H. reflexivity.
Qed.

(** ** What a reported task leaves in the trace *)

(** A task that is one call leaves that call and then the write of the
    schedule with the new run, whatever the outcome of either. *)
Lemma ReportRun_call_trace (env : Env) (taskType : TaskType) (s : Schedule)
    (c : Call) (w : World) :
  trace (snd (ReportRun env taskType s (call env c) w))
  = Called (Calls.SetSchedule
              (reportRun s taskType
                 (mkRunInfo (clock env (clockReads w)) (clock env (S (clockReads w)))
                    (match failure env c (length (trace w)) with
                     | Some _ => false
                     | None => true
                     end))))
    :: Called c :: trace w.
Proof.
  unfold ReportRun, SetSchedule, repTime. run_monad.
  destruct (failure env c (length (trace w))); simpl;
    match goal with
    | |- context [failure env (Calls.SetSchedule ?x) ?n] =>
        destruct (failure env (Calls.SetSchedule x) n)
    end; reflexivity.
Qed.

Lemma ReportRun_call_ok (env : Env) (taskType : TaskType) (s : Schedule)
    (c : Call) (w : World) :
  failure env c (length (trace w)) = None ->
  exists s', fst (ReportRun env taskType s (call env c) w) = Ok s'.
Proof.
  intros Hc. unfold ReportRun, SetSchedule, repTime. run_monad. rewrite Hc. simpl.
  match goal with
  | |- context [failure env (Calls.SetSchedule ?x) ?n] =>
      destruct (failure env (Calls.SetSchedule x) n)
  end; eexists; reflexivity.
Qed.

Lemma ReportRun_call_err (env : Env) (taskType : TaskType) (s : Schedule)
    (c : Call) (w : World) (e : error) :
  failure env c (length (trace w)) = Some e ->
  fst (ReportRun env taskType s (call env c) w) = Err e.
Proof.
  intros Hc. unfold ReportRun, SetSchedule, repTime. run_monad. rewrite Hc. simpl.
  match goal with
  | |- context [failure env (Calls.SetSchedule ?x) ?n] =>
      destruct (failure env (Calls.SetSchedule x) n)
  end; reflexivity.
Qed.

(** ** The full cycle: dropping deleted contents *)

(** the drop step always reports its decision first, one of two log lines *)
Lemma runTaskDropDeletedContentsFull_logs (sortSlice : SortSlice) (env : Env)
    (rp : RunParameters) (s : Schedule) (safety : SafetyParameters) (w : World) :
  exists msg more,
    (msg = notEnoughTimeMsg \/ msg = foundSafeTimeMsg)
    /\ trace (snd (runTaskDropDeletedContentsFull sortSlice env rp s safety w))
       = (more ++ Logged msg :: trace w)%list.
Proof.
  unfold runTaskDropDeletedContentsFull, bind at 1.
  destruct (RequireTwoGCCycles safety).
  - unfold ret at 1.
    destruct (time.IsZero (findSafeDropTime sortSlice _ safety)).
    + exists notEnoughTimeMsg, []. split; [left; reflexivity | reflexivity].
    + exists foundSafeTimeMsg. unfold bind, log.
      rewrite ReportRun_call_trace. simpl. eexists [_; _].
      split; [right; reflexivity | reflexivity].
  - unfold repTime at 1. destruct (time.IsZero (clock env (clockReads w))).
    + exists notEnoughTimeMsg, []. split; [left; reflexivity | reflexivity].
    + exists foundSafeTimeMsg. unfold bind, log.
      rewrite ReportRun_call_trace. simpl. eexists [_; _].
      split; [right; reflexivity | reflexivity].
Qed.

(** the rewrite block of the full cycle is through without an error when the
    rewrite is not due or the rewrite itself returns none *)
Lemma fullRewriteStep_ok (env : Env) (rp : RunParameters) (s : Schedule)
    (safety : SafetyParameters) (w : World) :
  shouldFullRewriteContents s safety = false
  \/ failure env (Calls.RewriteContents AllIDs "" true) (length (trace w)) = None ->
  exists s1, fst (fullRewriteStep env rp s safety w) = Ok s1.
Proof.
  intros H. unfold fullRewriteStep.
  destruct (shouldFullRewriteContents s safety) eqn:Hdue.
  - destruct H as [H | H]; [discriminate|].
    unfold runTaskRewriteContentsFull, wrapErr.
    destruct (ReportRun_call_ok env TaskRewriteContentsFull s _ w H) as [s' Hs'].
    destruct (ReportRun _ _ _ _ w) as [[a | e] w']; simpl in *;
      [eexists; reflexivity | discriminate].
  - eexists. reflexivity.
Qed.

(** the rewrite block of the full cycle hands on the error of a rewrite that
    was due and failed, and leaves the rewrite and the write of the schedule
    in the trace *)
Lemma fullRewriteStep_err (env : Env) (rp : RunParameters) (s : Schedule)
    (safety : SafetyParameters) (w : World) (e : error) :
  shouldFullRewriteContents s safety = true ->
  failure env (Calls.RewriteContents AllIDs "" true) (length (trace w)) = Some e ->
  exists ri w1,
    fullRewriteStep env rp s safety w
    = (Err (Wrap e "error rewriting contents in short packs"), w1)
    /\ trace w1
       = Called (Calls.SetSchedule (reportRun s TaskRewriteContentsFull ri))
         :: Called (Calls.RewriteContents AllIDs "" true) :: trace w.
Proof.
  intros Hdue He. unfold fullRewriteStep. rewrite Hdue.
  unfold runTaskRewriteContentsFull, wrapErr.
  pose proof (ReportRun_call_err env TaskRewriteContentsFull s _ w e He) as Hres.
  pose proof (ReportRun_call_trace env TaskRewriteContentsFull s
                (Calls.RewriteContents AllIDs "" true) w) as Htr.
  destruct (ReportRun _ _ _ _ w) as [[a | e'] w1]; simpl in *; [discriminate|].
  injection Hres as ->. eexists _, w1. split; [reflexivity | exact Htr].
Qed.

(** C3, as the code has it: in a full cycle whose schedule loads, when the
    rewrite was skipped as not due or went through without an error, the
    drop step comes next: the first event after the rewrite block is the log
    line with which the drop step reports whether it found a safe time.  When
    the rewrite was due and failed, the cycle ends there with the error of
    the rewrite, wrapped, and the drop step is not attempted: the last events
    are the rewrite and the write of the schedule that reports it. *)
Theorem runFullMaintenance_attempts_drop (sortSlice : SortSlice) (env : Env)
    (rp : RunParameters) (safety : SafetyParameters) (w : World) :
  failure env Calls.GetSchedule (length (trace w)) = None ->
  (shouldFullRewriteContents (schedule w) safety = false
   \/ failure env (Calls.RewriteContents AllIDs "" true) (S (length (trace w))) = None ->
   exists msg rest,
     (msg = notEnoughTimeMsg \/ msg = foundSafeTimeMsg)
     /\ trace (snd (runFullMaintenance sortSlice env rp safety w))
        = (rest ++ Logged msg
                :: trace (snd (fullRewriteStep env rp (schedule w) safety
                                 (record (Called Calls.GetSchedule) w))))%list)
  /\ (forall e : error,
        shouldFullRewriteContents (schedule w) safety = true ->
        failure env (Calls.RewriteContents AllIDs "" true) (S (length (trace w))) = Some e ->
        fst (runFullMaintenance sortSlice env rp safety w)
        = Err (Wrap e "error rewriting contents in short packs")
        /\ exists ri,
            trace (snd (runFullMaintenance sortSlice env rp safety w))
            = Called (Calls.SetSchedule (reportRun (schedule w) TaskRewriteContentsFull ri))
              :: Called (Calls.RewriteContents AllIDs "" true)
              :: Called Calls.GetSchedule :: trace w).
Proof.
  intros Hget. split.
  - intros Hrw.
    destruct (fullRewriteStep_ok env rp (schedule w) safety
                (record (Called Calls.GetSchedule) w) Hrw) as [s1 Hs1].
    unfold runFullMaintenance.
    rewrite (bind_ok _ _ _ _ _ (GetSchedule_ok env _ w Hget)).
    destruct (fullRewriteStep env rp (schedule w) safety
                (record (Called Calls.GetSchedule) w)) as [[s1' | e] w1] eqn:Hstep;
      simpl in Hs1; [|discriminate].
    rewrite (bind_ok _ _ _ _ _ Hstep). simpl snd.
    destruct (runTaskDropDeletedContentsFull_logs sortSlice env rp s1' safety w1)
      as (msg & more & Hmsg & Htrace).
    exists msg.
    destruct (bind_keeps
                (wrapErr (runTaskDropDeletedContentsFull sortSlice env rp s1' safety)
                         "error dropping deleted contents")
                (fun s => s <- fullDeleteStep env rp s safety ;;
                          s <- wrapErr (runTaskCleanupLogs env rp s) "error cleaning up logs" ;;
                          wrapErr (runTaskCleanupEpochManager env rp s)
                                  "error cleaning up epoch manager" ;;;
                          ret tt)
                w1 (Logged msg :: trace w1)) as [rest Hrest].
    + exists more. rewrite wrapErr_trace. exact Htrace.
    + intros s2. solve_extends;
        first [ apply extends_fullDeleteStep | apply extends_runTaskCleanupLogs
              | apply extends_runTaskCleanupEpochManager ].
    + exists rest. split; [exact Hmsg | exact Hrest].
  - intros e Hdue Hfail.
    destruct (fullRewriteStep_err env rp (schedule w) safety
                (record (Called Calls.GetSchedule) w) e Hdue Hfail)
      as (ri & w1 & Hstep & Htr).
    unfold runFullMaintenance.
    rewrite (bind_ok _ _ _ _ _ (GetSchedule_ok env _ w Hget)).
    rewrite (bind_err _ _ _ _ _ Hstep).
    split; [reflexivity|]. exists ri. exact Htr.
Qed.

Lemma runFullMaintenance_attempts_drop_witness :
  failure (quietEnv "alice@host1" t2026 t2026) Calls.GetSchedule
          (length (trace (freshWorld (paramsOwnedBy "alice@host1") emptySchedule))) = None
  /\ failure (quietEnv "alice@host1" t2026 t2026) (Calls.RewriteContents AllIDs "" true)
             (S (length (trace (freshWorld (paramsOwnedBy "alice@host1") emptySchedule))))
     = None
  /\ exists msg rest,
      (msg = notEnoughTimeMsg \/ msg = foundSafeTimeMsg)
      /\ trace (snd (runFullMaintenance insertionSort (quietEnv "alice@host1" t2026 t2026)
                       (fullRunOf "alice@host1") safetyFull
                       (freshWorld (paramsOwnedBy "alice@host1") emptySchedule)))
         = (rest ++ Logged msg
                 :: trace (snd (fullRewriteStep (quietEnv "alice@host1" t2026 t2026)
                                  (fullRunOf "alice@host1")
                                  (schedule (freshWorld (paramsOwnedBy "alice@host1")
                                                        emptySchedule))
                                  safetyFull
                                  (record (Called Calls.GetSchedule)
                                     (freshWorld (paramsOwnedBy "alice@host1")
                                                 emptySchedule)))))%list.
Proof.
  split; [reflexivity|]. split; [reflexivity|].
  apply (proj1 (runFullMaintenance_attempts_drop insertionSort
                  (quietEnv "alice@host1" t2026 t2026) (fullRunOf "alice@host1") safetyFull
                  (freshWorld (paramsOwnedBy "alice@host1") emptySchedule) eq_refl)).
  right. reflexivity.
Defined.

(** C3 as stated fails when the rewrite fails: the full rewrite is due on a
    fresh schedule, its failure ends the cycle with the wrapped error, and
    the drop step leaves no event: neither of its log lines, nor a call. *)
Lemma runFullMaintenance_failed_rewrite_no_drop :
  shouldFullRewriteContents emptySchedule safetyFull = true
  /\ fst (runFullMaintenance insertionSort (failingRewriteEnv "alice@host1" t2026 t2026)
            (fullRunOf "alice@host1") safetyFull
            (freshWorld (paramsOwnedBy "alice@host1") emptySchedule))
     = Err (Wrap (Errorf "rewrite failed") "error rewriting contents in short packs")
  /\ Forall (fun e => match e with
                      | Logged msg => msg <> notEnoughTimeMsg /\ msg <> foundSafeTimeMsg
                      | Called (Calls.DropDeletedContents _) => False
                      | Called _ => True
                      end)
            (trace (snd (runFullMaintenance insertionSort
                           (failingRewriteEnv "alice@host1" t2026 t2026)
                           (fullRunOf "alice@host1") safetyFull
                           (freshWorld (paramsOwnedBy "alice@host1") emptySchedule)))).
Proof.
  split; [reflexivity|]. split; [reflexivity|].
  vm_compute. repeat constructor.
Qed.

(** ** The quick cycle: which orphan-blob deletion *)

Lemma hadRecentFullRewrite_latest (s : Schedule) :
  hadRecentFullRewrite s = fullIsAtLeastAsRecent s.
Proof.
  unfold hadRecentFullRewrite, fullIsAtLeastAsRecent.
  rewrite !maxEndTime_latest. simpl concat. rewrite !app_nil_r.
  apply not_Before.
Qed.

Lemma quickDeleteStep_due (env : Env) (rp : RunParameters) (s : Schedule)
    (safety : SafetyParameters) (w : World) :
  shouldDeleteOrphanedPacks (clock env (clockReads w)) s safety = true ->
  exists ri,
    trace (snd (quickDeleteStep env rp s safety w))
    = (deletionEvents rp s ri ++ trace w)%list.
Proof.
  intros Hdue. unfold quickDeleteStep, deletionEvents.
  unfold bind at 1, repTime at 1. rewrite Hdue, wrapErr_trace.
  rewrite hadRecentFullRewrite_latest.
  destruct (fullIsAtLeastAsRecent s); unfold bind, log;
    [unfold runTaskDeleteOrphanedBlobsFull | unfold runTaskDeleteOrphanedBlobsQuick];
    rewrite ReportRun_call_trace; eexists; reflexivity.
Qed.

(** C6: in a quick cycle that reaches the orphaned-blob block (no epoch
    manager, the schedule loads, the rewrite block is through without an
    error) with the deletion due, the deletion that runs is the full one when
    the latest successful full rewrite ended no earlier than the latest
    successful quick rewrite, equal times included, and the quick one
    otherwise: the events right after the rewrite block are the log line of
    that choice, the deletion with or without the prefix, and the write of
    the schedule with the run reported under that task. *)
Theorem runQuickMaintenance_selects_deletion (env : Env) (rp : RunParameters)
    (safety : SafetyParameters) (w : World) (s1 : Schedule) (w1 : World) :
  epochManagerPresent env (length (trace w)) = false ->
  failure env Calls.EpochManager (length (trace w)) = None ->
  failure env Calls.GetSchedule (S (length (trace w))) = None ->
  quickRewriteStep env rp (schedule w) safety
    (record (Called Calls.GetSchedule) (record (Called Calls.EpochManager) w))
  = (Ok s1, w1) ->
  shouldDeleteOrphanedPacks (clock env (clockReads w1)) s1 safety = true ->
  hadRecentFullRewrite s1 = fullIsAtLeastAsRecent s1
  /\ exists ri rest,
      trace (snd (runQuickMaintenance env rp safety w))
      = (rest ++ deletionEvents rp s1 ri ++ trace w1)%list.
Proof.
  intros Hem Herr Hget Hstep Hdue.
  split; [apply hadRecentFullRewrite_latest|].
  destruct (quickDeleteStep_due env rp s1 safety w1 Hdue) as [ri Hri].
  exists ri.
  unfold runQuickMaintenance.
  unfold bind at 1, EpochManager at 1. rewrite Hem, Herr. cbv beta iota. simpl fst. simpl snd.
  cbv iota.
  rewrite (bind_ok _ _ _ _ _
             (GetSchedule_ok env _ (record (Called Calls.EpochManager) w) Hget)).
  change (schedule (record (Called Calls.EpochManager) w)) with (schedule w).
  rewrite (bind_ok _ _ _ _ _ Hstep).
  apply bind_keeps.
  - exists []. exact Hri.
  - intros s2. solve_extends;
      first [ apply extends_runTaskIndexCompactionQuick
            | apply extends_runTaskCleanupLogs ].
Qed.

(** *** Three histories *)

Example quick_cycle_after_full_rewrite :
  deletionsOfQuickCycle afterFullRewrite
  = [Called (Calls.DeleteUnreferencedBlobs t2026 "")].
Proof. vm_compute. reflexivity. Qed.

Example quick_cycle_after_both_rewrites :
  deletionsOfQuickCycle afterBothRewrites
  = [Called (Calls.DeleteUnreferencedBlobs t2026 "")].
Proof. vm_compute. reflexivity. Qed.

Example quick_cycle_after_later_quick_rewrite :
  deletionsOfQuickCycle afterLaterQuickRewrite
  = [Called (Calls.DeleteUnreferencedBlobs t2026 "q")].
Proof. vm_compute. reflexivity. Qed.

Lemma runQuickMaintenance_selects_deletion_witness :
  shouldDeleteOrphanedPacks t2026 afterFullRewrite safetyFull = true
  /\ fullIsAtLeastAsRecent afterFullRewrite = true
  /\ exists ri rest,
      trace (snd (runQuickMaintenance (quietEnv "alice@host1" t2026 t2026)
                    (quickRunOf "alice@host1") safetyFull
                    (freshWorld (paramsOwnedBy "alice@host1") afterFullRewrite)))
      = (rest ++ deletionEvents (quickRunOf "alice@host1") afterFullRewrite ri
              ++ trace (snd (quickRewriteStep (quietEnv "alice@host1" t2026 t2026)
                               (quickRunOf "alice@host1") afterFullRewrite safetyFull
                               (record (Called Calls.GetSchedule)
                                  (record (Called Calls.EpochManager)
                                     (freshWorld (paramsOwnedBy "alice@host1")
                                                 afterFullRewrite))))))%list.
Proof.
  split; [vm_compute; reflexivity|]. split; [vm_compute; reflexivity|].
  refine (proj2 (runQuickMaintenance_selects_deletion
                   (quietEnv "alice@host1" t2026 t2026) (quickRunOf "alice@host1")
                   safetyFull (freshWorld (paramsOwnedBy "alice@host1") afterFullRewrite)
                   afterFullRewrite
                   (snd (quickRewriteStep (quietEnv "alice@host1" t2026 t2026)
                           (quickRunOf "alice@host1") afterFullRewrite safetyFull
                           (record (Called Calls.GetSchedule)
                              (record (Called Calls.EpochManager)
                                 (freshWorld (paramsOwnedBy "alice@host1")
                                             afterFullRewrite)))))
                   _ _ _ _ _)).
  - reflexivity.
  - reflexivity.
  - reflexivity.
  - vm_compute. reflexivity.
  - vm_compute. reflexivity.
Defined.

(** ** The policies on small histories *)

Example findSafeDropTime_no_run :
  findSafeDropTime insertionSort [] safetyFull = time.zero.
Proof. reflexivity. Qed.

Example findSafeDropTime_one_run :
  findSafeDropTime insertionSort [gcRun 0 1 true] safetyFull = time.zero.
Proof. reflexivity. Qed.

(** the later run starts four hours after the end of the earlier one: just
    the margin, not beyond it *)
Example findSafeDropTime_at_the_margin :
  findSafeDropTime insertionSort [gcRun 0 1 true; gcRun 5 6 true] safetyFull = time.zero.
Proof. vm_compute. reflexivity. Qed.

Example findSafeDropTime_beyond_the_margin :
  findSafeDropTime insertionSort [gcRun 6 7 true; gcRun 0 1 true] safetyFull
  = t2026 - time.Hour.
Proof. vm_compute. reflexivity. Qed.

(** failed runs do not count; the run that ends just the margin before the
    latest start is passed over for the one before it *)
Example findSafeDropTime_failed_run_between :
  findSafeDropTime insertionSort
    [gcRun 0 1 true; gcRun 2 3 false; gcRun 5 6 true; gcRun 9 10 false] safetyFull
  = time.zero
  /\ findSafeDropTime insertionSort
       [gcRun 0 1 true; gcRun 2 3 true; gcRun 7 8 true] safetyFull
     = t2026 - time.Hour.
Proof. vm_compute. split; reflexivity. Qed.

Lemma findSafeDropTime_within_range_example :
  firstBeyondMargin (gcRun 7 8 true) [gcRun 2 3 true; gcRun 0 1 true] safetyFull
    (findSafeDropTime insertionSort
       [gcRun 0 1 true; gcRun 2 3 true; gcRun 7 8 true] safetyFull).
Proof.
  destruct (findSafeDropTime_within_range insertionSort
              [gcRun 0 1 true; gcRun 2 3 true; gcRun 7 8 true] safetyFull)
    as (_ & _ & H).
  - exact insertionSort_contract.
  - vm_compute. split; [reflexivity | discriminate].
  - vm_compute. split; [reflexivity | discriminate].
  - intros r r' Hr Hr'. simpl in Hr, Hr'.
    destruct Hr as [<- | [<- | [<- | []]]];
      destruct Hr' as [<- | [<- | [<- | []]]]; vm_compute; discriminate.
  - destruct (H ltac:(simpl; lia)) as (r0 & older & Heq & _ & _ & Hres).
    vm_compute in Heq. injection Heq as <- <-. exact Hres.
Defined.

Example rewrite_blocked_until_deletion :
  shouldFullRewriteContents emptySchedule safetyFull = true
  /\ shouldFullRewriteContents afterFullRewrite safetyFull = false
  /\ shouldFullRewriteContents (rewriteThenDeletion 1) safetyFull = false
  /\ shouldFullRewriteContents (rewriteThenDeletion 2) safetyFull = true
  /\ shouldFullRewriteContents (rewriteThenDeletion 3) safetyFull = true.
Proof. vm_compute. repeat split. Qed.

(** a quick rewrite after the last deletion blocks the next quick rewrite
    and leaves the full one free *)
Example full_rewrite_may_follow_quick :
  shouldQuickRewriteContents
    (mkSchedule time.zero time.zero {[ TaskRewriteContentsQuick := [gcRun 1 2 true] ]})
    safetyFull = false
  /\ shouldFullRewriteContents
       (mkSchedule time.zero time.zero {[ TaskRewriteContentsQuick := [gcRun 1 2 true] ]})
       safetyFull = true.
Proof. vm_compute. split; reflexivity. Qed.


(** * Further properties: the policies *)

Lemma fold_max_perm (l l' : list Z) (z : Z) :
  Permutation l l' -> fold_right Z.max z l = fold_right Z.max z l'.
Proof.
  induction 1 as [| x l l' _ IH | x y l | l l' l'' _ IH1 _ IH2]; simpl;
    [reflexivity | rewrite IH; reflexivity | lia | congruence].
Qed.

Lemma latestSuccessfulEnd_filter (runs : list RunInfo) :
  latestSuccessfulEnd (List.filter Success runs) = latestSuccessfulEnd runs.
Proof. unfold latestSuccessfulEnd. rewrite filter_Success_idem. reflexivity. Qed.

Lemma latestSuccessfulEnd_perm (l l' : list RunInfo) :
  Permutation (List.filter Success l) (List.filter Success l') ->
  latestSuccessfulEnd l = latestSuccessfulEnd l'.
Proof.
  intros H. unfold latestSuccessfulEnd. apply fold_max_perm, Permutation_map, H.
Qed.

(** X1: [maxEndTime] is never before the zero time, no successful run of
    any of the histories ends after it, and it is the zero time or the end
    of a successful run of one of the histories. *)
Theorem maxEndTime_bounds (taskRuns : list (list RunInfo)) :
  time.zero <= maxEndTime taskRuns
  /\ (forall tr r, In tr taskRuns -> In r tr -> Success r = true ->
                   End r <= maxEndTime taskRuns)
  /\ (maxEndTime taskRuns = time.zero
      \/ exists tr r, In tr taskRuns /\ In r tr /\ Success r = true
                      /\ End r = maxEndTime taskRuns).
Proof.
  rewrite maxEndTime_latest. split; [apply latestSuccessfulEnd_nonneg|]. split.
  - intros tr r Htr Hr Hs. apply latestSuccessfulEnd_upper; [|exact Hs].
    apply List.in_concat. exists tr. split; assumption.
  - destruct (latestSuccessfulEnd_attained (concat taskRuns))
      as [H | (r & Hin & Hs & He)]; [left; exact H|].
    right. apply List.in_concat in Hin. destruct Hin as (tr & Htr & Hr).
    exists tr, r. repeat split; assumption.
Qed.

(** X2: [maxEndTime] sees the successful runs only, and neither their order
    nor the history each one sits in: two lists of histories with the same
    successful runs, in any order and grouping, give the same time. *)
Theorem maxEndTime_same_successful_runs (l1 l2 : list (list RunInfo)) :
  Permutation (List.filter Success (concat l1)) (List.filter Success (concat l2)) ->
  maxEndTime l1 = maxEndTime l2.
Proof.
  intros H. rewrite !maxEndTime_latest. apply latestSuccessfulEnd_perm, H.
Qed.

Lemma maxEndTime_same_successful_runs_witness :
  maxEndTime [[gcRun 0 1 true; gcRun 2 9 false]; [gcRun 3 4 true]]
  = maxEndTime [[gcRun 3 4 true; gcRun 0 1 true]].
Proof.
  apply maxEndTime_same_successful_runs. simpl. apply perm_swap.
Defined.

Lemma nextBlobDeleteTime_latest (s : Schedule) (safety : SafetyParameters) :
  nextBlobDeleteTime s safety
  = if latestSuccessfulEnd (rewriteHistory s) =? 0 then time.zero
    else latestSuccessfulEnd (rewriteHistory s) + MinRewriteToOrphanDeletionDelay safety.
Proof.
  unfold nextBlobDeleteTime. rewrite maxEndTime_latest. simpl concat.
  rewrite app_nil_r. reflexivity.
Qed.

Lemma shouldDeleteOrphanedPacks_due (now : Time) (s : Schedule)
    (safety : SafetyParameters) (r : RunInfo) :
  shouldDeleteOrphanedPacks now s safety = true ->
  In r (rewriteHistory s) -> Success r = true -> time.zero < End r ->
  End r + MinRewriteToOrphanDeletionDelay safety <= now.
Proof.
  unfold shouldDeleteOrphanedPacks. rewrite not_Before, nextBlobDeleteTime_latest.
  intros Hdue Hin Hs Hpos.
  pose proof (latestSuccessfulEnd_upper _ r Hin Hs) as Hle.
  unfold time.zero in *.
  destruct (Z.eqb_spec (latestSuccessfulEnd (rewriteHistory s)) 0) as [H0 | H0]; [lia|].
  apply Z.leb_le in Hdue. lia.
Qed.

(** X3: when [shouldDeleteOrphanedPacks] says yes, the delay has passed
    since every successful rewrite, full or quick, that ended after the zero
    time: no such rewrite ended later than the delay before now. *)
Theorem shouldDeleteOrphanedPacks_after_delay (now : Time) (s : Schedule)
    (safety : SafetyParameters) (r : RunInfo) :
  shouldDeleteOrphanedPacks now s safety = true ->
  In r (rewriteHistory s) -> Success r = true -> time.zero < End r ->
  End r + MinRewriteToOrphanDeletionDelay safety <= now.
Proof. apply shouldDeleteOrphanedPacks_due. Qed.

Lemma shouldDeleteOrphanedPacks_after_delay_witness :
  shouldDeleteOrphanedPacks (3 * time.Hour) afterFullRewrite safetyFull = true
  /\ End (earlyRun 1 2) + MinRewriteToOrphanDeletionDelay safetyFull <= 3 * time.Hour.
Proof.
  split; [vm_compute; reflexivity|].
  apply (shouldDeleteOrphanedPacks_after_delay (3 * time.Hour) afterFullRewrite
           safetyFull (earlyRun 1 2)).
  - vm_compute. reflexivity.
  - vm_compute. left. reflexivity.
  - reflexivity.
  - vm_compute. reflexivity.
Defined.

(** X4: without a successful rewrite, full or quick, the deletion of
    orphaned blobs is due at every time from the zero time on, whatever the
    delay; before the zero time it is not. *)
Theorem shouldDeleteOrphanedPacks_no_rewrite (now : Time) (s : Schedule)
    (safety : SafetyParameters) :
  noSuccessfulRun (rewriteHistory s) ->
  nextBlobDeleteTime s safety = time.zero
  /\ shouldDeleteOrphanedPacks now s safety = (time.zero <=? now).
Proof.
  intros Hnone. unfold shouldDeleteOrphanedPacks.
  rewrite not_Before, nextBlobDeleteTime_latest.
  rewrite (latestSuccessfulEnd_none _ Hnone). split; reflexivity.
Qed.

Lemma shouldDeleteOrphanedPacks_no_rewrite_witness :
  shouldDeleteOrphanedPacks t2026 emptySchedule safetyFull = (time.zero <=? t2026).
Proof.
  apply (shouldDeleteOrphanedPacks_no_rewrite t2026 emptySchedule safetyFull).
  vm_compute. constructor.
Defined.

(** X5: whenever a quick rewrite is permitted, a full rewrite is permitted
    as well: the full check reads less rewrite history and the same
    deletions. *)
Theorem quick_rewrite_permits_full (s : Schedule) (safety : SafetyParameters) :
  shouldQuickRewriteContents s safety = true ->
  shouldFullRewriteContents s safety = true.
Proof.
  unfold shouldQuickRewriteContents, shouldFullRewriteContents.
  rewrite !maxEndTime_latest. simpl concat. rewrite !app_nil_r.
  rewrite (latestSuccessfulEnd_app (runsOf s TaskRewriteContentsFull)).
  pose proof (latestSuccessfulEnd_nonneg (runsOf s TaskRewriteContentsFull)) as Hf.
  pose proof (latestSuccessfulEnd_nonneg (runsOf s TaskRewriteContentsQuick)) as Hq.
  unfold time.zero, time.IsZero, time.Before in *.
  destruct (MinRewriteToOrphanDeletionDelay safety =? 0);
    [rewrite !orb_true_r; reflexivity|]. rewrite !orb_false_r.
  destruct (Z.eqb_spec (Z.max (latestSuccessfulEnd (runsOf s TaskRewriteContentsFull))
                              (latestSuccessfulEnd (runsOf s TaskRewriteContentsQuick))) 0)
    as [H0 | H0].
  - intros _. destruct (Z.eqb_spec (latestSuccessfulEnd (runsOf s TaskRewriteContentsFull)) 0);
      [reflexivity | lia].
  - rewrite negb_true_iff, Z.ltb_ge. intros H.
    destruct (latestSuccessfulEnd (runsOf s TaskRewriteContentsFull) =? 0); [reflexivity|].
    rewrite negb_true_iff, Z.ltb_ge. lia.
Qed.

Lemma quick_rewrite_permits_full_witness :
  shouldFullRewriteContents (rewriteThenDeletion 3) safetyFull = true.
Proof.
  apply quick_rewrite_permits_full. vm_compute. reflexivity.
Defined.

Lemma latestSuccessfulEnd_same (s s' : Schedule) (tasks : list TaskType) :
  sameSuccessfulRuns s s' ->
  latestSuccessfulEnd (concat (map (runsOf s) tasks))
  = latestSuccessfulEnd (concat (map (runsOf s') tasks)).
Proof.
  intros Hsame. apply latestSuccessfulEnd_perm.
  induction tasks as [|t ts IH]; simpl; [reflexivity|].
  rewrite !List.filter_app, (Hsame t). apply Permutation_app_head, IH.
Qed.

Lemma maxEndTime_same (s s' : Schedule) (tasks : list TaskType) :
  sameSuccessfulRuns s s' ->
  maxEndTime (map (runsOf s) tasks) = maxEndTime (map (runsOf s') tasks).
Proof. intros H. rewrite !maxEndTime_latest. apply latestSuccessfulEnd_same, H. Qed.

(** X6: failed runs and the next-due times change no decision of the
    policies: on two schedules with the same successful runs, task by task,
    the two rewrite checks, the deletion check at every time, the choice
    between full and quick deletion and the safe-drop time agree. *)
Theorem policies_ignore_failed_runs (s s' : Schedule) (safety : SafetyParameters) :
  sameSuccessfulRuns s s' ->
  shouldQuickRewriteContents s safety = shouldQuickRewriteContents s' safety
  /\ shouldFullRewriteContents s safety = shouldFullRewriteContents s' safety
  /\ (forall now, shouldDeleteOrphanedPacks now s safety
                   = shouldDeleteOrphanedPacks now s' safety)
  /\ hadRecentFullRewrite s = hadRecentFullRewrite s'
  /\ (forall sortSlice,
        findSafeDropTime sortSlice (runsOf s TaskSnapshotGarbageCollection) safety
        = findSafeDropTime sortSlice (runsOf s' TaskSnapshotGarbageCollection) safety).
Proof.
  intros Hsame.
  pose proof (maxEndTime_same s s' [TaskRewriteContentsFull; TaskRewriteContentsQuick] Hsame)
    as Hrw.
  pose proof (maxEndTime_same s s' [TaskRewriteContentsFull] Hsame) as Hfull.
  pose proof (maxEndTime_same s s' [TaskRewriteContentsQuick] Hsame) as Hquick.
  pose proof (maxEndTime_same s s'
                [TaskDeleteOrphanedBlobsFull; TaskDeleteOrphanedBlobsQuick] Hsame) as Hdel.
  simpl map in *.
  unfold shouldQuickRewriteContents, shouldFullRewriteContents,
    shouldDeleteOrphanedPacks, nextBlobDeleteTime, hadRecentFullRewrite.
  rewrite Hrw, Hfull, Hquick, Hdel.
  repeat split.
  intros sortSlice.
  rewrite (findSafeDropTime_ignores_failed sortSlice (runsOf s _)),
    (findSafeDropTime_ignores_failed sortSlice (runsOf s' _)), Hsame.
  reflexivity.
Qed.

Lemma policies_ignore_failed_runs_witness :
  shouldQuickRewriteContents afterFullRewrite safetyFull
  = shouldQuickRewriteContents afterFullRewriteAndFailures safetyFull.
Proof.
  refine (proj1 (policies_ignore_failed_runs afterFullRewrite afterFullRewriteAndFailures
                   safetyFull _)).
  intros task. unfold runsOf, afterFullRewrite, afterFullRewriteAndFailures, Runs.
  destruct (decide (task = TaskDeleteOrphanedBlobsFull)) as [-> | H1]; [reflexivity|].
  rewrite lookup_insert_ne by congruence.
  destruct (decide (task = TaskRewriteContentsQuick)) as [-> | H2]; [reflexivity|].
  rewrite lookup_insert_ne by congruence.
  destruct (decide (task = TaskRewriteContentsFull)) as [-> | H3]; [reflexivity|].
  rewrite !lookup_singleton_ne by congruence. reflexivity.
Defined.


(** * Further properties: the safe-drop time *)

(** With a margin that is not negative, the test of the loop holds only when
    the exact spacing is beyond the margin, whatever the two instants: a
    saturated difference never passes it. *)
Lemma diff_sound (r0 r : RunInfo) (margin : Duration) :
  0 <= margin <= time.maxDuration ->
  (margin <? time.neg (time.Sub (End r) (Start r0))) = true ->
  margin < spacing r0 r.
Proof.
  unfold spacing. intros Hm Htest. apply Z.ltb_lt in Htest.
  unfold time.Sub in Htest.
  destruct (Z.ltb_spec (End r - Start r0) time.minDuration) as [H1 | H1].
  { rewrite neg_minDuration in Htest. int64_bounds. lia. }
  destruct (Z.ltb_spec time.maxDuration (End r - Start r0)) as [H2 | H2].
  { rewrite neg_exact in Htest by (int64_bounds; lia). int64_bounds. lia. }
  destruct (Z.eq_dec (End r - Start r0) time.minDuration) as [H3 | H3].
  { rewrite H3, neg_minDuration in Htest. int64_bounds. lia. }
  rewrite neg_exact in Htest by (int64_bounds; lia). lia.
Qed.

Lemma findSafeDropTime_scan_provenance (r0 : RunInfo) (older : list RunInfo)
    (safety : SafetyParameters) :
  0 <= MarginBetweenSnapshotGC safety <= time.maxDuration ->
  findSafeDropTime_scan r0 older safety = time.zero
  \/ exists r, In r older
               /\ MarginBetweenSnapshotGC safety < spacing r0 r
               /\ findSafeDropTime_scan r0 older safety
                  = time.Add (Start r) (time.neg (DropContentFromIndexExtraMargin safety)).
Proof.
  intros Hm. induction older as [|r rest IH]; simpl; [left; reflexivity|].
  destruct (MarginBetweenSnapshotGC safety <? _) eqn:Htest.
  - right. exists r. split; [left; reflexivity|].
    split; [apply diff_sound; assumption | reflexivity].
  - destruct IH as [IH | (x & Hin & Hx & Hres)]; [left; exact IH|].
    right. exists x. split; [right; exact Hin | split; assumption].
Qed.

(** where a result comes from: the zero time, or two successful runs, the
    latest and an older one, with the exact spacing beyond the margin *)
Lemma findSafeDropTime_provenance (sortSlice : SortSlice) (runs : list RunInfo)
    (safety : SafetyParameters) :
  SortSliceContract sortSlice ->
  0 <= MarginBetweenSnapshotGC safety <= time.maxDuration ->
  findSafeDropTime sortSlice runs safety = time.zero
  \/ exists r0 older r,
      Permutation (r0 :: older) (List.filter Success runs)
      /\ In r older
      /\ Start r <= Start r0
      /\ MarginBetweenSnapshotGC safety < spacing r0 r
      /\ findSafeDropTime sortSlice runs safety
         = time.Add (Start r) (time.neg (DropContentFromIndexExtraMargin safety)).
Proof.
  intros Hsort Hm.
  destruct (Nat.le_gt_cases (length (List.filter Success runs)) 1) as [Hfew | Hmany].
  { left. apply findSafeDropTime_few, Hfew. }
  destruct (findSafeDropTime_sorted sortSlice Hsort runs safety Hmany)
    as (r0 & older & _ & Hperm & Hsorted & Hres).
  rewrite Hres.
  destruct (findSafeDropTime_scan_provenance r0 older safety Hm)
    as [Hz | (r & Hin & Hsp & Hr)]; [left; exact Hz|].
  right. exists r0, older, r. repeat (split; [assumption|]).
  split; [|split; assumption].
  inversion Hsorted as [|? ? _ Hall]; subst.
  rewrite List.Forall_forall in Hall. apply Hall, Hin.
Qed.

(** X8: for all timestamps, with a margin that is not negative: a result of
    [findSafeDropTime] other than the zero time always comes from two
    successful runs, the latest and an older one, whose exact spacing (latest
    start less older end) is beyond the margin, and is the start of the older
    one with the negated extra margin added.  Saturated differences only
    ever make it answer the zero time. *)
Theorem findSafeDropTime_sound (sortSlice : SortSlice) (runs : list RunInfo)
    (safety : SafetyParameters) :
  SortSliceContract sortSlice ->
  0 <= MarginBetweenSnapshotGC safety <= time.maxDuration ->
  findSafeDropTime sortSlice runs safety <> time.zero ->
  exists r0 older r,
    Permutation (r0 :: older) (List.filter Success runs)
    /\ In r older
    /\ Start r <= Start r0
    /\ MarginBetweenSnapshotGC safety < spacing r0 r
    /\ findSafeDropTime sortSlice runs safety
       = time.Add (Start r) (time.neg (DropContentFromIndexExtraMargin safety)).
Proof.
  intros Hsort Hm Hnz.
  destruct (findSafeDropTime_provenance sortSlice runs safety Hsort Hm) as [Hz | H];
    [contradiction | exact H].
Qed.

Lemma findSafeDropTime_sound_witness :
  exists r0 older r,
    Permutation (r0 :: older) (List.filter Success [gcRun 6 7 true; gcRun 0 1 true])
    /\ In r older
    /\ Start r <= Start r0
    /\ MarginBetweenSnapshotGC safetyFull < spacing r0 r
    /\ findSafeDropTime insertionSort [gcRun 6 7 true; gcRun 0 1 true] safetyFull
       = time.Add (Start r) (time.neg (DropContentFromIndexExtraMargin safetyFull)).
Proof.
  apply (findSafeDropTime_sound insertionSort [gcRun 6 7 true; gcRun 0 1 true] safetyFull).
  - exact insertionSort_contract.
  - vm_compute. split; discriminate.
  - vm_compute. discriminate.
Defined.

(** two lists in descending order of start with the same elements and no
    start twice are the same list *)
Lemma sorted_desc_unique (l1 l2 : list RunInfo) :
  Permutation l1 l2 ->
  List.NoDup (map Start l1) ->
  StronglySorted (fun a b => Start b <= Start a) l1 ->
  StronglySorted (fun a b => Start b <= Start a) l2 ->
  l1 = l2.
Proof.
  revert l2. induction l1 as [|a t1 IH]; intros l2 Hperm Hnd Hs1 Hs2.
  - apply Permutation_nil in Hperm. congruence.
  - destruct l2 as [|b t2].
    { apply Permutation_sym, Permutation_nil in Hperm. discriminate. }
    inversion Hs1 as [|? ? Hs1' Ha]; subst.
    inversion Hs2 as [|? ? Hs2' Hb]; subst.
    inversion Hnd as [|? ? Hnotin Hnd']; subst.
    rewrite List.Forall_forall in Ha, Hb.
    assert (Hab : a = b).
    { assert (Hina : In a (b :: t2))
        by (eapply Permutation_in; [exact Hperm | left; reflexivity]).
      assert (Hinb : In b (a :: t1))
        by (eapply Permutation_in; [apply Permutation_sym, Hperm | left; reflexivity]).
      destruct Hina as [-> | Hina]; [reflexivity|].
      destruct Hinb as [-> | Hinb]; [reflexivity|].
      exfalso. apply Hnotin.
      assert (Start a = Start b) as -> by (specialize (Ha b Hinb); specialize (Hb a Hina); lia).
      apply List.in_map, Hinb. }
    subst b. f_equal. apply IH; try assumption.
    eapply Permutation_cons_inv, Hperm.
Qed.

(** X9: when no two successful runs start at the same instant, the result of
    [findSafeDropTime] depends neither on the order in which the history
    holds the runs, nor on its failed runs, nor on which sort keeping the
    promise of [sort.Slice] is used. *)
Theorem findSafeDropTime_order_independent (sort1 sort2 : SortSlice)
    (runs1 runs2 : list RunInfo) (safety : SafetyParameters) :
  SortSliceContract sort1 -> SortSliceContract sort2 ->
  Permutation (List.filter Success runs1) (List.filter Success runs2) ->
  List.NoDup (map Start (List.filter Success runs1)) ->
  findSafeDropTime sort1 runs1 safety = findSafeDropTime sort2 runs2 safety.
Proof.
  intros Hc1 Hc2 Hperm Hnd.
  pose proof (Permutation_length Hperm) as Hlen.
  destruct (Nat.le_gt_cases (length (List.filter Success runs1)) 1) as [Hfew | Hmany].
  { rewrite !findSafeDropTime_few by lia. reflexivity. }
  destruct (findSafeDropTime_sorted sort1 Hc1 runs1 safety Hmany)
    as (a & t1 & _ & Hp1 & Hs1 & ->).
  destruct (findSafeDropTime_sorted sort2 Hc2 runs2 safety ltac:(lia))
    as (b & t2 & _ & Hp2 & Hs2 & ->).
  assert (Heq : a :: t1 = b :: t2).
  { apply sorted_desc_unique; try assumption.
    - rewrite Hp1, Hperm, Hp2. reflexivity.
    - eapply Permutation_NoDup; [|exact Hnd].
      apply Permutation_map, Permutation_sym, Hp1. }
  injection Heq as -> ->. reflexivity.
Qed.

Lemma insertionSortReversed_contract : SortSliceContract insertionSortReversed.
Proof.
  split; intros A less l; unfold insertionSortReversed.
  - rewrite (sortSlice_perm _ insertionSort_contract). symmetry. apply Permutation_rev.
  - apply (sortSlice_sorted _ insertionSort_contract).
Qed.

Lemma findSafeDropTime_order_independent_witness :
  findSafeDropTime insertionSort
    [gcRun 0 1 true; gcRun 2 3 false; gcRun 7 8 true] safetyFull
  = findSafeDropTime insertionSortReversed
      [gcRun 7 8 true; gcRun 4 5 false; gcRun 0 1 true] safetyFull.
Proof.
  apply findSafeDropTime_order_independent.
  - exact insertionSort_contract.
  - exact insertionSortReversed_contract.
  - simpl. apply perm_swap.
  - simpl. repeat constructor; simpl; intros H;
      repeat (destruct H as [H | H]; [vm_compute in H; discriminate H|]); exact H.
Defined.

(** with two successful runs that start at the same instant the two sorts
    order them differently, and the results differ: the sort of the library
    is not stable, and here the order decides *)
Example findSafeDropTime_tied_starts :
  findSafeDropTime insertionSort tiedRuns safetyFull = time.zero
  /\ findSafeDropTime insertionSortReversed tiedRuns safetyFull = 9 * time.Hour.
Proof. vm_compute. split; reflexivity. Qed.

(** * Further properties: the clock-skew check *)

(** the computed skew is never more than the absolute difference *)
Lemma clockSkewOf_le_abs (repoTime localTime : Time) :
  clockSkewOf repoTime localTime <= Z.abs (repoTime - localTime).
Proof.
  unfold clockSkewOf, time.Sub.
  destruct (Z.ltb_spec (repoTime - localTime) time.minDuration) as [H1 | H1].
  { change (time.minDuration <? 0) with true. cbv iota.
    rewrite neg_minDuration. int64_bounds. lia. }
  destruct (Z.ltb_spec time.maxDuration (repoTime - localTime)) as [H2 | H2].
  { change (time.maxDuration <? 0) with false. cbv iota. int64_bounds. lia. }
  destruct (Z.ltb_spec (repoTime - localTime) 0) as [H3 | H3]; [|lia].
  destruct (Z.eq_dec (repoTime - localTime) time.minDuration) as [H4 | H4].
  - rewrite H4, neg_minDuration. int64_bounds. lia.
  - rewrite neg_exact by (int64_bounds; lia). lia.
Qed.

(** X10: for all timestamps, the clock-skew check fails only when the
    repository timestamp and the local clock differ by more than five
    minutes: saturated differences make it miss a skew, never report one that
    is not there.  The check reads the clock once and leaves no event. *)
Theorem checkClockSkewBounds_no_false_alarm (env : Env) (rp : RunParameters)
    (w : World) (e : error) :
  fst (checkClockSkewBounds env rp w) = Err e ->
  maxClockSkew < Z.abs (RunParameters.MaintenanceStartTime rp - clock env (clockReads w))
  /\ trace (snd (checkClockSkewBounds env rp w)) = trace w
  /\ clockReads (snd (checkClockSkewBounds env rp w)) = S (clockReads w).
Proof.
  intros Herr. rewrite checkClockSkewBounds_unfold in Herr.
  pose proof (clockSkewOf_le_abs (RunParameters.MaintenanceStartTime rp)
                (clock env (clockReads w))) as Hle.
  split.
  - destruct (Z.ltb_spec maxClockSkew
                (clockSkewOf (RunParameters.MaintenanceStartTime rp)
                             (clock env (clockReads w)))); [lia | discriminate].
  - unfold checkClockSkewBounds, bind, repTime, fail, ret. simpl.
    destruct (maxClockSkew <? _); split; reflexivity.
Qed.

Lemma checkClockSkewBounds_no_false_alarm_witness :
  maxClockSkew
  < Z.abs (RunParameters.MaintenanceStartTime (fullRunAt "alice@host1" (t2026 - 6 * time.Minute))
           - clock (quietEnv "alice@host1" t2026 time.zero)
                   (clockReads (freshWorld (paramsOwnedBy "alice@host1") emptySchedule))).
Proof.
  refine (proj1 (checkClockSkewBounds_no_false_alarm
                   (quietEnv "alice@host1" t2026 time.zero)
                   (fullRunAt "alice@host1" (t2026 - 6 * time.Minute))
                   (freshWorld (paramsOwnedBy "alice@host1") emptySchedule)
                   (Errorf "Clock skew detected: local clock is out of sync with repository timestamp by more than allowed %v (local: %v repository: %v). Refusing to run maintenance.")
                   _)).
  vm_compute. reflexivity.
Defined.

Lemma checkClockSkewBounds_within_range_witness :
  exists e,
    fst (checkClockSkewBounds (quietEnv "alice@host1" t2026 time.zero)
           (fullRunAt "alice@host1" (t2026 + 6 * time.Minute))
           (freshWorld (paramsOwnedBy "alice@host1") emptySchedule)) = Err e.
Proof.
  apply (checkClockSkewBounds_within_range (quietEnv "alice@host1" t2026 time.zero)
           (fullRunAt "alice@host1" (t2026 + 6 * time.Minute))
           (freshWorld (paramsOwnedBy "alice@host1") emptySchedule)).
  - vm_compute. reflexivity.
  - vm_compute. reflexivity.
Defined.


(** * Further properties: what a computation keeps and which errors it returns *)

#[local] Instance storeKept_preorder : PreOrder storeKept.
Proof.
  split.
  - intros w. unfold storeKept. auto.
  - intros a b c (H1 & H2 & H3 & H4) (H5 & H6 & H7 & H8).
    unfold storeKept. repeat split; congruence.
Qed.

#[local] Instance historyKept_preorder : PreOrder historyKept.
Proof.
  split.
  - intros w. unfold historyKept. auto.
  - intros a b c (H1 & H2 & H3) (H4 & H5 & H6).
    unfold historyKept. repeat split; congruence.
Qed.

#[local] Instance lockNotLeft_preorder : PreOrder lockNotLeft.
Proof.
  split.
  - intros w H. exact H.
  - intros a b c H1 H2 H. apply H2, H1, H.
Qed.

#[local] Instance emitting_preorder (P : Event -> Prop) : PreOrder (emitting P).
Proof.
  split.
  - intros w. unfold emitting. split; [exists []; split; [reflexivity | constructor] | auto].
  - intros a b c ((n1 & H1 & F1) & H2 & H3 & H4) ((n2 & H5 & F2) & H6 & H7 & H8).
    unfold emitting. split; [|repeat split; congruence].
    exists (n2 ++ n1)%list. split; [rewrite H5, H1, app_assoc; reflexivity|].
    apply Forall_app. split; assumption.
Qed.

Section Always.

Context (R : World -> World -> Prop) `{!PreOrder R} {A B : Type}.

Lemma always_ret (a : A) : always R (ret a).
Proof. intros w. simpl. reflexivity. Qed.

Lemma always_fail (e : error) : always R (@fail A e).
Proof. intros w. simpl. reflexivity. Qed.

Lemma always_lift (r : result A) : always R (lift r).
Proof. intros w. simpl. reflexivity. Qed.

Lemma always_bind (m : M A) (k : A -> M B) :
  always R m -> (forall a, always R (k a)) -> always R (bind m k).
Proof.
  intros Hm Hk w. unfold bind. specialize (Hm w).
  destruct (m w) as [[a | e] w1]; simpl in *; [|exact Hm].
  etransitivity; [exact Hm | apply Hk].
Qed.

Lemma always_wrapErr (m : M A) (msg : string) : always R m -> always R (wrapErr m msg).
Proof.
  intros Hm w. unfold wrapErr. specialize (Hm w).
  destruct (m w) as [[a | e] w1]; exact Hm.
Qed.

Lemma always_attempt (m : M A) : always R m -> always R (attempt m).
Proof.
  intros Hm w. unfold attempt. specialize (Hm w). destruct (m w) as [r w1]. exact Hm.
Qed.

Lemma always_defer (cleanup : M unit) (body : M A) :
  always R cleanup -> always R body -> always R (defer cleanup body).
Proof.
  intros Hc Hb w. unfold defer. specialize (Hb w).
  destruct (body w) as [r w1]. simpl in *.
  etransitivity; [exact Hb | apply Hc].
Qed.

End Always.

Section Errs.

Context (Q : error -> Prop) {A B : Type}.

Lemma errs_ret (a : A) : errs Q (ret a).
Proof. intros w e H. discriminate H. Qed.

Lemma errs_fail (e : error) : Q e -> errs Q (@fail A e).
Proof. intros He w e' H. injection H as <-. exact He. Qed.

Lemma errs_bind (m : M A) (k : A -> M B) :
  errs Q m -> (forall a, errs Q (k a)) -> errs Q (bind m k).
Proof.
  intros Hm Hk w e. unfold bind. specialize (Hm w).
  destruct (m w) as [[a | e'] w1]; simpl in *.
  - apply Hk.
  - intros H. injection H as <-. apply Hm. reflexivity.
Qed.

Lemma errs_wrapErr (m : M A) (msg : string) :
  (forall cause, Q (Wrap cause msg)) -> errs Q (wrapErr m msg).
Proof.
  intros HQ w e. unfold wrapErr.
  destruct (m w) as [[a | e'] w1]; simpl; [discriminate|].
  intros H. injection H as <-. apply HQ.
Qed.

Lemma errs_defer (cleanup : M unit) (body : M A) :
  errs Q body -> errs Q (defer cleanup body).
Proof.
  intros Hb w e. unfold defer. specialize (Hb w).
  destruct (body w) as [r w1]. simpl in *. apply Hb.
Qed.

End Errs.

Lemma errs_log (Q : error -> Prop) (format : string) : errs Q (log format).
Proof. intros w e H. discriminate H. Qed.

Lemma errs_repTime (Q : error -> Prop) (env : Env) : errs Q (repTime env).
Proof. intros w e H. discriminate H. Qed.

Lemma errs_EpochManager (Q : error -> Prop) (env : Env) : errs Q (EpochManager env).
Proof. intros w e H. discriminate H. Qed.

(** the leaves of a computation, run on a world *)
Ltac run_leaf :=
  intros ?w;
  unfold log, call, repTime, EpochManager, GetMetadata, TryLock, Unlock,
    DisableIndexRefresh, record, ret, fail, lift;
  simpl;
  repeat match goal with
         | |- context [match ?x with _ => _ end] => destruct x; simpl
         end.

Ltac always_rule lem := apply lem; try typeclasses eauto.

Ltac always_step leaf :=
  lazymatch goal with
  | |- always _ (ret _) => always_rule always_ret
  | |- always _ (fail _) => always_rule always_fail
  | |- always _ (lift _) => always_rule always_lift
  | |- always _ (wrapErr _ _) => always_rule always_wrapErr
  | |- always _ (attempt _) => always_rule always_attempt
  | |- always _ (defer _ _) => always_rule always_defer
  | |- always _ (bind _ _) => always_rule always_bind; [|intros ?]
  | |- always _ (if ?b then _ else _) => destruct b
  | |- always _ (match ?x with _ => _ end) => destruct x
  | |- always _ (GetSchedule _) => unfold GetSchedule
  | |- always _ (SetSchedule _ _) => unfold SetSchedule
  | |- always _ (GetParams _) => unfold GetParams
  | |- always _ (ReportRun _ _ _ _) => unfold ReportRun
  | |- always _ _ => run_leaf; leaf
  end.

Ltac errs_step :=
  lazymatch goal with
  | |- errs _ (ret _) => apply errs_ret
  | |- errs _ (log _) => apply errs_log
  | |- errs _ (repTime _) => apply errs_repTime
  | |- errs _ (EpochManager _) => apply errs_EpochManager
  | |- errs _ (wrapErr _ _) => apply errs_wrapErr; intros ?
  | |- errs _ (defer _ _) => apply errs_defer
  | |- errs _ (bind _ _) => apply errs_bind; [|intros ?]
  | |- errs _ (fail _) => apply errs_fail
  | |- errs _ (if ?b then _ else _) => destruct b
  | |- errs _ (match ?x with _ => _ end) => destruct x
  end.

Ltac wrapped_with :=
  lazymatch goal with
  | |- wrappedWith _ (Wrap ?c ?msg) =>
      exists c, msg; split; [reflexivity | simpl; tauto]
  end.

(** * Further properties: eligibility and schedule advance *)

Lemma shouldRun_storeKept (env : Env) (p : Params) : always storeKept (shouldRun env p).
Proof.
  unfold shouldRun. cbv zeta.
  repeat always_step ltac:(unfold storeKept; auto).
Qed.

Lemma shouldRun_results (env : Env) (p : Params) (w : World) :
  (forall m, fst (shouldRun env p w) = Ok m ->
             m = ModeNone \/ m = ModeQuick \/ m = ModeFull)
  /\ (forall e, fst (shouldRun env p w) = Err e ->
                Owner p = UsernameAtHost env
                /\ exists cause,
                    failure env Calls.GetSchedule (length (trace w)) = Some cause
                    /\ e = Wrap cause "error getting status").
Proof.
  unfold shouldRun, GetSchedule, repTime. run_monad.
  destruct (String.eqb_spec (Owner p) (UsernameAtHost env)) as [Hown | Hown]; simpl.
  - destruct (failure env Calls.GetSchedule (length (trace w))) as [cause|]; simpl.
    + split; [discriminate|]. intros e H. injection H as <-.
      split; [exact Hown | exists cause; split; reflexivity].
    + destruct (Enabled (FullCycle p)), (Enabled (QuickCycle p)); simpl;
        repeat match goal with
               | |- context [negb (time.Before ?a ?b)] =>
                   destruct (negb (time.Before a b)); simpl
               end;
        (split; [intros m H; injection H as <-; auto | discriminate]).
  - split; [intros m H; injection H as <-; auto | discriminate].
Qed.

(** X12: [shouldRun] only reads: the persisted parameters and schedule, the
    lock and the handle are as before on every path.  The mode it resolves
    to is none, quick or full, never auto, and its only error is the error of
    loading the schedule, wrapped, which only the owner can meet. *)
Theorem shouldRun_reads_only (env : Env) (p : Params) (w : World) :
  storeKept w (snd (shouldRun env p w))
  /\ (forall m, fst (shouldRun env p w) = Ok m ->
                m = ModeNone \/ m = ModeQuick \/ m = ModeFull)
  /\ (forall e, fst (shouldRun env p w) = Err e ->
                Owner p = UsernameAtHost env
                /\ exists cause,
                    failure env Calls.GetSchedule (length (trace w)) = Some cause
                    /\ e = Wrap cause "error getting status").
Proof.
  split; [apply shouldRun_storeKept | apply shouldRun_results].
Qed.

Lemma updateSchedule_historyKept (env : Env) (rp : RunParameters) :
  always historyKept (updateSchedule env rp).
Proof.
  intros w.
  unfold updateSchedule, GetSchedule, SetSchedule, repTime, historyKept,
    setNextFullMaintenanceTime, setNextQuickMaintenanceTime.
  run_monad.
  destruct (failure env Calls.GetSchedule (length (trace w))); simpl; [auto|].
  destruct (String.eqb (RunParameters.Mode rp) ModeFull); simpl;
    [|destruct (String.eqb (RunParameters.Mode rp) ModeQuick); simpl; [|auto]];
    match goal with
    | |- context [failure env (Calls.SetSchedule ?x) ?n] =>
        destruct (failure env (Calls.SetSchedule x) n)
    end; simpl; auto.
Qed.

(** X13: on every path, failures included, [updateSchedule] leaves the run
    history of the persisted schedule, the parameters and the lock as they
    were.  In a mode other than full the next full time is as it was, and in
    a mode other than full and quick the schedule is loaded and nothing is
    written. *)
Theorem updateSchedule_frame (env : Env) (rp : RunParameters) (w : World) :
  historyKept w (snd (updateSchedule env rp w))
  /\ (RunParameters.Mode rp <> ModeFull ->
      NextFullMaintenanceTime (schedule (snd (updateSchedule env rp w)))
      = NextFullMaintenanceTime (schedule w))
  /\ (RunParameters.Mode rp <> ModeFull -> RunParameters.Mode rp <> ModeQuick ->
      schedule (snd (updateSchedule env rp w)) = schedule w
      /\ trace (snd (updateSchedule env rp w)) = Called Calls.GetSchedule :: trace w).
Proof.
  split; [apply updateSchedule_historyKept|].
  unfold updateSchedule, GetSchedule, SetSchedule, repTime,
    setNextFullMaintenanceTime, setNextQuickMaintenanceTime.
  split.
  - intros Hfull. apply String.eqb_neq in Hfull. rewrite Hfull. run_monad.
    destruct (failure env Calls.GetSchedule (length (trace w))); simpl; [reflexivity|].
    destruct (String.eqb (RunParameters.Mode rp) ModeQuick); simpl; [|reflexivity].
    match goal with
    | |- context [failure env (Calls.SetSchedule ?x) ?n] =>
        destruct (failure env (Calls.SetSchedule x) n)
    end; reflexivity.
  - intros Hfull Hquick. apply String.eqb_neq in Hfull, Hquick.
    rewrite Hfull, Hquick. run_monad.
    destruct (failure env Calls.GetSchedule (length (trace w))); simpl; auto.
Qed.

Lemma updateSchedule_frame_witness :
  schedule (snd (updateSchedule (quietEnv "alice@host1" t2026 t2026)
                   (RunParameters.mk ModeNone (paramsOwnedBy "alice@host1") time.zero)
                   (freshWorld (paramsOwnedBy "alice@host1") afterFullRewrite)))
  = afterFullRewrite.
Proof.
  refine (proj1 (proj2 (proj2 (updateSchedule_frame (quietEnv "alice@host1" t2026 t2026)
                   (RunParameters.mk ModeNone (paramsOwnedBy "alice@host1") time.zero)
                   (freshWorld (paramsOwnedBy "alice@host1") afterFullRewrite))) _ _));
    vm_compute; discriminate.
Defined.

(** * Further properties: the exclusivity guard *)

Lemma shouldRun_lockNotLeft (env : Env) (p : Params) : always lockNotLeft (shouldRun env p).
Proof.
  intros w Hw. destruct (shouldRun_storeKept env p w) as (_ & _ & Hl & _). congruence.
Qed.

(** from the attempt to take the lock on: when the lock is taken, the
    deferred unlock comes last, whatever the body does *)
Lemma lock_section {A : Type} (env : Env) (lockFile msg : string)
    (contended body : M A) :
  always lockNotLeft contended ->
  always lockNotLeft
    (ok <- wrapErr (TryLock env lockFile) msg ;;
     if negb ok then contended else defer Unlock body).
Proof.
  intros Hc w Hw. unfold bind, wrapErr, TryLock.
  destruct (failure env (Calls.TryLock lockFile) (length (trace w))); simpl; [exact Hw|].
  destruct (lockFree env (length (trace w))); simpl.
  - unfold defer. destruct (body _) as [r w1]. reflexivity.
  - apply Hc. exact Hw.
Qed.

(** X14: [RunExclusive] never returns with the lock held when it was entered
    without it, whatever the mode, the callback and the step that fails: on
    the paths that take the lock the deferred unlock runs last, and the other
    paths do not touch it. *)
Theorem RunExclusive_releases_lock (env : Env) (mode : Mode) (force : bool)
    (cb : RunParameters -> M unit) (w : World) :
  locked w = false ->
  locked (snd (RunExclusive env mode force cb w)) = false.
Proof.
  revert w. change (always lockNotLeft (RunExclusive env mode force cb)).
  unfold RunExclusive.
  always_rule always_bind; [run_leaf; unfold lockNotLeft; auto | intros _].
  always_rule always_bind;
    [repeat always_step ltac:(unfold lockNotLeft; auto) | intros p].
  destruct (negb force && negb (isOwnedByByThisUser env p)); [always_rule always_fail|].
  always_rule always_bind.
  { destruct (String.eqb mode ModeAuto);
      [always_rule always_wrapErr; apply shouldRun_lockNotLeft | always_rule always_ret]. }
  intros m. destruct (String.eqb m ModeNone);
    [repeat always_step ltac:(unfold lockNotLeft; auto)|].
  cbv zeta.
  always_rule always_bind; [run_leaf; unfold lockNotLeft; auto | intros _].
  apply lock_section. repeat always_step ltac:(unfold lockNotLeft; auto).
Qed.

Lemma RunExclusive_releases_lock_witness :
  locked (snd (RunExclusive (quietEnv "alice@host1" t2026 t2026) ModeFull false
                 (markCallback (quietEnv "alice@host1" t2026 t2026))
                 (freshWorld (paramsOwnedBy "alice@host1") emptySchedule)))
  = false.
Proof.
  apply RunExclusive_releases_lock. reflexivity.
Defined.

Lemma wrapErr_ok {A : Type} (m : M A) (msg : string) (w w1 : World) (a : A) :
  m w = (Ok a, w1) -> wrapErr m msg w = (Ok a, w1).
Proof. intros H. unfold wrapErr. rewrite H. reflexivity. Qed.

Lemma wrapErr_err {A : Type} (m : M A) (msg : string) (w w1 : World) (e : error) :
  m w = (Err e, w1) -> wrapErr m msg w = (Err (Wrap e msg), w1).
Proof. intros H. unfold wrapErr. rewrite H. reflexivity. Qed.

Lemma GetParams_ok (env : Env) (msg : string) (w : World) :
  failure env Calls.GetParams (length (trace w)) = None ->
  wrapErr (GetParams env) msg w = (Ok (params w), record (Called Calls.GetParams) w).
Proof. intros H. unfold GetParams. run_monad. rewrite H. reflexivity. Qed.

Lemma checkClockSkewBounds_run (env : Env) (rp : RunParameters) (w : World) :
  checkClockSkewBounds env rp w
  = (if maxClockSkew <? clockSkewOf (RunParameters.MaintenanceStartTime rp)
                                   (clock env (clockReads w))
     then Err (Errorf "Clock skew detected: local clock is out of sync with repository timestamp by more than allowed %v (local: %v repository: %v). Refusing to run maintenance.")
     else Ok tt,
     tick w).
Proof.
  unfold checkClockSkewBounds, clockSkewOf, bind, repTime, fail, ret, tick. simpl.
  destruct (maxClockSkew <? _); reflexivity.
Qed.

(** with the mode given and the ownership test passed, [RunExclusive] comes
    to the lock in [worldAtLock] *)
Lemma RunExclusive_at_lock (env : Env) (mode : Mode) (force : bool)
    (cb : RunParameters -> M unit) (w : World) :
  mode <> ModeAuto -> mode <> ModeNone ->
  failure env Calls.GetParams (S (length (trace w))) = None ->
  force = true \/ Owner (params w) = UsernameAtHost env ->
  RunExclusive env mode force cb w = underLock env mode (params w) cb (worldAtLock w).
Proof.
  intros Hauto Hnone Hget Hown.
  apply String.eqb_neq in Hauto, Hnone.
  unfold RunExclusive.
  rewrite (bind_ok DisableIndexRefresh _ w _ tt eq_refl).
  rewrite (bind_ok _ _ _ _ _
             (GetParams_ok env _
                (record (Called Calls.DisableIndexRefresh)
                   (mkWorld (params w) (schedule w) true (locked w) (clockReads w)
                            (trace w))) Hget)).
  cbn [params record].
  replace (negb force && negb (isOwnedByByThisUser env (params w))) with false.
  2:{ destruct Hown as [-> | Hown]; [reflexivity|].
      unfold isOwnedByByThisUser. apply String.eqb_eq in Hown. rewrite Hown.
      destruct force; reflexivity. }
  rewrite Hauto. rewrite (bind_ok (ret mode) _ _ _ mode eq_refl). rewrite Hnone.
  cbv zeta.
  rewrite (bind_ok (log "Acquiring maintenance lock in file %v") _ _ _ tt eq_refl).
  reflexivity.
Qed.

(** X15: when the lock is held by another process, [RunExclusive] in a
    given mode returns without an error and without work: after the attempt
    it only logs a line; the schedule is not advanced, the callback does not
    run and the lock of the other process is not released. *)
Theorem RunExclusive_lock_contention (env : Env) (mode : Mode) (force : bool)
    (cb : RunParameters -> M unit) (w : World) :
  mode <> ModeAuto -> mode <> ModeNone ->
  failure env Calls.GetParams (S (length (trace w))) = None ->
  force = true \/ Owner (params w) = UsernameAtHost env ->
  failure env (Calls.TryLock (lockFileOf env)) (length (trace (worldAtLock w))) = None ->
  lockFree env (length (trace (worldAtLock w))) = false ->
  RunExclusive env mode force cb w
  = (Ok tt,
     record (Logged "maintenance is already in progress locally")
            (record (Called (Calls.TryLock (lockFileOf env))) (worldAtLock w))).
Proof.
  intros Hauto Hnone Hget Hown Hlock Hfree.
  rewrite (RunExclusive_at_lock env mode force cb w Hauto Hnone Hget Hown).
  unfold underLock, bind at 1, wrapErr at 1, TryLock.
  rewrite Hlock, Hfree. reflexivity.
Qed.

Lemma RunExclusive_lock_contention_witness :
  trace (snd (RunExclusive (busyEnv "alice@host1" t2026 t2026) ModeFull false
                (markCallback (busyEnv "alice@host1" t2026 t2026))
                (freshWorld (paramsOwnedBy "alice@host1") emptySchedule)))
  = [Logged "maintenance is already in progress locally";
     Called (Calls.TryLock "/repo/kopia.config.mlock");
     Logged "Acquiring maintenance lock in file %v";
     Called Calls.GetParams; Called Calls.DisableIndexRefresh].
Proof.
  rewrite (RunExclusive_lock_contention (busyEnv "alice@host1" t2026 t2026) ModeFull false
             (markCallback (busyEnv "alice@host1" t2026 t2026))
             (freshWorld (paramsOwnedBy "alice@host1") emptySchedule)).
  - reflexivity.
  - vm_compute. discriminate.
  - vm_compute. discriminate.
  - reflexivity.
  - right. reflexivity.
  - reflexivity.
  - reflexivity.
Defined.

Lemma TryLock_taken (env : Env) (msg : string) (w : World) :
  failure env (Calls.TryLock (lockFileOf env)) (length (trace w)) = None ->
  lockFree env (length (trace w)) = true ->
  wrapErr (TryLock env (lockFileOf env)) msg w
  = (Ok true, record (Called (Calls.TryLock (lockFileOf env))) (withLock true w)).
Proof. intros H1 H2. unfold wrapErr, TryLock. rewrite H1, H2. reflexivity. Qed.

Lemma GetMetadata_ok (env : Env) (msg : string) (w : World) :
  failure env Calls.GetMetadata (length (trace w)) = None ->
  wrapErr (GetMetadata env) msg w
  = (Ok (blobTimestamp env (length (trace w))), record (Called Calls.GetMetadata) w).
Proof. intros H. unfold wrapErr, GetMetadata. rewrite H. reflexivity. Qed.

Lemma call_ok (env : Env) (c : Call) (msg : string) (w : World) :
  failure env c (length (trace w)) = None ->
  wrapErr (call env c) msg w = (Ok tt, record (Called c) w).
Proof. intros H. unfold wrapErr, call. rewrite H. reflexivity. Qed.

(** [RunExclusive] up to the clock-skew check, when the lock is free and the
    schedule and the blob metadata are at hand *)
Lemma RunExclusive_to_check (env : Env) (mode : Mode) (force : bool)
    (cb : RunParameters -> M unit) (w w3 : World) :
  mode <> ModeAuto -> mode <> ModeNone ->
  failure env Calls.GetParams (S (length (trace w))) = None ->
  force = true \/ Owner (params w) = UsernameAtHost env ->
  failure env (Calls.TryLock (lockFileOf env)) (length (trace (worldAtLock w))) = None ->
  lockFree env (length (trace (worldAtLock w))) = true ->
  updateSchedule env (RunParameters.mk mode (params w) time.zero) (worldLocked env w)
  = (Ok tt, w3) ->
  failure env Calls.GetMetadata (length (trace w3)) = None ->
  RunExclusive env mode force cb w
  = defer Unlock
      (wrapErr (checkClockSkewBounds env
                  (RunParameters.mk mode (params w) (blobTimestamp env (length (trace w3)))))
               "error checking for clock skew" ;;;
       log "Running %v maintenance..." ;;;
       defer (log "Finished %v maintenance.")
         (wrapErr (call env Calls.Refresh) "error refreshing indexes before maintenance" ;;;
          cb (RunParameters.mk mode (params w) (blobTimestamp env (length (trace w3))))))
      (record (Called Calls.GetMetadata) w3).
Proof.
  intros Hauto Hnone Hget Hown Hlock Hfree Hupd Hmeta.
  rewrite (RunExclusive_at_lock env mode force cb w Hauto Hnone Hget Hown).
  unfold underLock.
  rewrite (bind_ok _ _ _ _ _ (TryLock_taken env _ _ Hlock Hfree)).
  cbn [negb]. cbv zeta. fold (worldLocked env w).
  unfold defer at 1 3.
  rewrite (bind_ok _ _ _ _ _ (wrapErr_ok _ _ _ _ _ Hupd)).
  rewrite (bind_ok _ _ _ _ _ (GetMetadata_ok env _ w3 Hmeta)).
  reflexivity.
Qed.

(** X16: in a given mode, with the lock free and every call before it
    without an error, the callback runs once the schedule is advanced and
    written, under the lock, after the indexes are refreshed, and with the
    timestamp the blob store reports for the schedule blob as
    [MaintenanceStartTime]; its result is the result of [RunExclusive], and
    after it come the closing log line and the unlock. *)
Theorem RunExclusive_runs_callback (env : Env) (mode : Mode) (force : bool)
    (cb : RunParameters -> M unit) (w w3 : World) :
  mode <> ModeAuto -> mode <> ModeNone ->
  failure env Calls.GetParams (S (length (trace w))) = None ->
  force = true \/ Owner (params w) = UsernameAtHost env ->
  failure env (Calls.TryLock (lockFileOf env)) (length (trace (worldAtLock w))) = None ->
  lockFree env (length (trace (worldAtLock w))) = true ->
  updateSchedule env (RunParameters.mk mode (params w) time.zero) (worldLocked env w)
  = (Ok tt, w3) ->
  failure env Calls.GetMetadata (length (trace w3)) = None ->
  clockSkewOf (blobTimestamp env (length (trace w3))) (clock env (clockReads w3))
  <= maxClockSkew ->
  failure env Calls.Refresh (2 + length (trace w3)) = None ->
  let rp := RunParameters.mk mode (params w) (blobTimestamp env (length (trace w3))) in
  let wcb := record (Called Calls.Refresh)
               (record (Logged "Running %v maintenance...")
                  (tick (record (Called Calls.GetMetadata) w3))) in
  schedule wcb = schedule w3
  /\ locked wcb = locked w3
  /\ RunExclusive env mode force cb w
     = (fst (cb rp wcb),
        withLock false
          (record (Called Calls.Unlock)
             (record (Logged "Finished %v maintenance.") (snd (cb rp wcb))))).
Proof.
  intros Hauto Hnone Hget Hown Hlock Hfree Hupd Hmeta Hskew Hrefresh rp wcb.
  split; [reflexivity|]. split; [reflexivity|].
  rewrite (RunExclusive_to_check env mode force cb w w3) by assumption.
  fold rp. unfold defer at 1.
  assert (Hcheck : wrapErr (checkClockSkewBounds env rp) "error checking for clock skew"
                     (record (Called Calls.GetMetadata) w3)
                   = (Ok tt, tick (record (Called Calls.GetMetadata) w3))).
  { apply wrapErr_ok. rewrite checkClockSkewBounds_run.
    destruct (Z.ltb_spec maxClockSkew
                (clockSkewOf (RunParameters.MaintenanceStartTime rp)
                   (clock env (clockReads (record (Called Calls.GetMetadata) w3)))));
      [simpl in *; lia | reflexivity]. }
  rewrite (bind_ok _ _ _ _ _ Hcheck).
  rewrite (bind_ok (log "Running %v maintenance...") _ _ _ tt eq_refl).
  unfold defer.
  rewrite (bind_ok _ _ _ _ _
             (call_ok env Calls.Refresh _
                (record (Logged "Running %v maintenance...")
                   (tick (record (Called Calls.GetMetadata) w3))) Hrefresh)).
  fold wcb. destruct (cb rp wcb) as [r w']. reflexivity.
Qed.

(** X17: in a given mode, with the lock taken and the schedule advanced,
    when the computed clock skew is beyond the bound, [RunExclusive] returns
    the error of the check, wrapped, and releases the lock; the callback has
    no part in the result, and the schedule stays as [updateSchedule] wrote
    it. *)
Theorem RunExclusive_skew_stops (env : Env) (mode : Mode) (force : bool)
    (cb : RunParameters -> M unit) (w w3 : World) :
  mode <> ModeAuto -> mode <> ModeNone ->
  failure env Calls.GetParams (S (length (trace w))) = None ->
  force = true \/ Owner (params w) = UsernameAtHost env ->
  failure env (Calls.TryLock (lockFileOf env)) (length (trace (worldAtLock w))) = None ->
  lockFree env (length (trace (worldAtLock w))) = true ->
  updateSchedule env (RunParameters.mk mode (params w) time.zero) (worldLocked env w)
  = (Ok tt, w3) ->
  failure env Calls.GetMetadata (length (trace w3)) = None ->
  maxClockSkew
  < clockSkewOf (blobTimestamp env (length (trace w3))) (clock env (clockReads w3)) ->
  RunExclusive env mode force cb w
  = (Err clockSkewError,
     withLock false
       (record (Called Calls.Unlock) (tick (record (Called Calls.GetMetadata) w3)))).
Proof.
  intros Hauto Hnone Hget Hown Hlock Hfree Hupd Hmeta Hskew.
  rewrite (RunExclusive_to_check env mode force cb w w3) by assumption.
  unfold defer at 1.
  assert (Hcheck : wrapErr (checkClockSkewBounds env
                              (RunParameters.mk mode (params w)
                                 (blobTimestamp env (length (trace w3)))))
                     "error checking for clock skew"
                     (record (Called Calls.GetMetadata) w3)
                   = (Err clockSkewError, tick (record (Called Calls.GetMetadata) w3))).
  { apply wrapErr_err. rewrite checkClockSkewBounds_run.
    destruct (Z.ltb_spec maxClockSkew
                (clockSkewOf (RunParameters.MaintenanceStartTime
                                (RunParameters.mk mode (params w)
                                   (blobTimestamp env (length (trace w3)))))
                   (clock env (clockReads (record (Called Calls.GetMetadata) w3)))));
      [reflexivity | simpl in *; lia]. }
  rewrite (bind_err _ _ _ _ _ Hcheck). reflexivity.
Qed.

Lemma RunExclusive_runs_callback_witness :
  RunExclusive (quietEnv "alice@host1" t2026 t2026) ModeFull false
    (markCallback (quietEnv "alice@host1" t2026 t2026))
    (freshWorld (paramsOwnedBy "alice@host1") emptySchedule)
  = (fst (markCallback (quietEnv "alice@host1" t2026 t2026)
            (RunParameters.mk ModeFull (paramsOwnedBy "alice@host1") t2026)
            (callbackWorld (quietEnv "alice@host1" t2026 t2026))),
     withLock false
       (record (Called Calls.Unlock)
          (record (Logged "Finished %v maintenance.")
             (snd (markCallback (quietEnv "alice@host1" t2026 t2026)
                     (RunParameters.mk ModeFull (paramsOwnedBy "alice@host1") t2026)
                     (callbackWorld (quietEnv "alice@host1" t2026 t2026))))))).
Proof.
  refine (proj2 (proj2 (RunExclusive_runs_callback (quietEnv "alice@host1" t2026 t2026)
                          ModeFull false
                          (markCallback (quietEnv "alice@host1" t2026 t2026))
                          (freshWorld (paramsOwnedBy "alice@host1") emptySchedule)
                          (advancedWorld (quietEnv "alice@host1" t2026 t2026))
                          _ _ _ _ _ _ _ _ _ _))).
  - vm_compute. discriminate.
  - vm_compute. discriminate.
  - reflexivity.
  - right. reflexivity.
  - reflexivity.
  - reflexivity.
  - vm_compute. reflexivity.
  - reflexivity.
  - vm_compute. discriminate.
  - reflexivity.
Defined.

Lemma RunExclusive_skew_stops_witness :
  fst (RunExclusive (quietEnv "alice@host1" t2026 (t2026 + 6 * time.Minute)) ModeFull false
         (markCallback (quietEnv "alice@host1" t2026 (t2026 + 6 * time.Minute)))
         (freshWorld (paramsOwnedBy "alice@host1") emptySchedule))
  = Err clockSkewError.
Proof.
  rewrite (RunExclusive_skew_stops (quietEnv "alice@host1" t2026 (t2026 + 6 * time.Minute))
             ModeFull false
             (markCallback (quietEnv "alice@host1" t2026 (t2026 + 6 * time.Minute)))
             (freshWorld (paramsOwnedBy "alice@host1") emptySchedule)
             (advancedWorld (quietEnv "alice@host1" t2026 (t2026 + 6 * time.Minute)))).
  - reflexivity.
  - vm_compute. discriminate.
  - vm_compute. discriminate.
  - reflexivity.
  - right. reflexivity.
  - reflexivity.
  - reflexivity.
  - vm_compute. reflexivity.
  - reflexivity.
  - vm_compute. reflexivity.
Defined.

(** * Further properties: the cycle bodies *)

Lemma runQuickMaintenance_errs (env : Env) (rp : RunParameters) (safety : SafetyParameters) :
  errs (wrappedWith quickCycleContexts) (runQuickMaintenance env rp safety).
Proof.
  unfold runQuickMaintenance, quickRewriteStep, quickDeleteStep,
    notRewritingContents, notDeletingOrphanedBlobs.
  repeat errs_step; wrapped_with.
Qed.

Lemma runFullMaintenance_errs (sortSlice : SortSlice) (env : Env) (rp : RunParameters)
    (safety : SafetyParameters) :
  errs (wrappedWith fullCycleContexts) (runFullMaintenance sortSlice env rp safety).
Proof.
  unfold runFullMaintenance, fullRewriteStep, fullDeleteStep,
    notRewritingContents, notDeletingOrphanedBlobs.
  repeat errs_step; wrapped_with.
Qed.

(** X18: every error of [Run] carries its context: an error of the quick
    cycle is wrapped with the context of one of its six steps, an error of
    the full cycle with one of its six, and any other mode, auto and none
    included, is refused as unknown before any call is made. *)
Theorem Run_errors (sortSlice : SortSlice) (env : Env) (rp : RunParameters)
    (safety : SafetyParameters) (w : World) (e : error) :
  fst (Run sortSlice env rp safety w) = Err e ->
  (RunParameters.Mode rp = ModeQuick /\ wrappedWith quickCycleContexts e)
  \/ (RunParameters.Mode rp = ModeFull /\ wrappedWith fullCycleContexts e)
  \/ (RunParameters.Mode rp <> ModeQuick /\ RunParameters.Mode rp <> ModeFull
      /\ e = Errorf "unknown mode %q"
      /\ snd (Run sortSlice env rp safety w) = w).
Proof.
  unfold Run.
  destruct (String.eqb_spec (RunParameters.Mode rp) ModeQuick) as [Hq | Hq].
  - intros H. left. split; [exact Hq|]. eapply runQuickMaintenance_errs, H.
  - destruct (String.eqb_spec (RunParameters.Mode rp) ModeFull) as [Hf | Hf].
    + intros H. right; left. split; [exact Hf|]. eapply runFullMaintenance_errs, H.
    + intros H. injection H as <-. right; right. auto.
Qed.

Lemma Run_errors_witness :
  wrappedWith fullCycleContexts
    (Wrap (Errorf "rewrite failed") "error rewriting contents in short packs").
Proof.
  destruct (Run_errors insertionSort (failingRewriteEnv "alice@host1" t2026 t2026)
              (fullRunOf "alice@host1") safetyFull
              (freshWorld (paramsOwnedBy "alice@host1") emptySchedule)
              (Wrap (Errorf "rewrite failed") "error rewriting contents in short packs"))
    as [[Hm _] | [[_ H] | (_ & Hm & _)]].
  - vm_compute. reflexivity.
  - vm_compute in Hm. discriminate Hm.
  - exact H.
  - exfalso. apply Hm. reflexivity.
Defined.

Ltac emit_leaf :=
  unfold emitting; simpl;
  split;
    [ first [ exists []; split; [reflexivity | constructor]
            | eexists [_]; split;
              [reflexivity | constructor; [simpl; repeat split; auto | constructor]] ]
    | auto ].

Lemma runQuickMaintenance_emitting (env : Env) (rp : RunParameters)
    (safety : SafetyParameters) :
  always (emitting (quickCycleEvent rp)) (runQuickMaintenance env rp safety).
Proof.
  unfold runQuickMaintenance, quickRewriteStep, quickDeleteStep,
    runTaskRewriteContentsQuick, runTaskDeleteOrphanedBlobsFull,
    runTaskDeleteOrphanedBlobsQuick, runTaskIndexCompactionQuick, runTaskCleanupLogs,
    notRewritingContents, notDeletingOrphanedBlobs.
  repeat always_step emit_leaf.
Qed.

Lemma runFullMaintenance_emitting (sortSlice : SortSlice) (env : Env)
    (rp : RunParameters) (safety : SafetyParameters) :
  always (emitting (fullCycleEvent rp)) (runFullMaintenance sortSlice env rp safety).
Proof.
  unfold runFullMaintenance, fullRewriteStep, fullDeleteStep,
    runTaskRewriteContentsFull, runTaskDropDeletedContentsFull,
    runTaskDeleteOrphanedBlobsFull, runTaskCleanupLogs, runTaskCleanupEpochManager,
    notRewritingContents, notDeletingOrphanedBlobs.
  repeat always_step emit_leaf.
Qed.

(** X19: on every path, the quick cycle makes no calls but these: the query
    for the epoch manager, reads and writes of the schedule, rewrites of
    short packs restricted to the prefixed content IDs and the special pack
    prefix, deletions of unreferenced blobs cut off at the start of the
    maintenance, the index compaction and the log cleanup.  It never drops
    deleted contents and never touches the lock, the parameters or the
    index-refresh flag. *)
Theorem runQuickMaintenance_calls (env : Env) (rp : RunParameters)
    (safety : SafetyParameters) (w : World) :
  (exists new,
      trace (snd (runQuickMaintenance env rp safety w)) = (new ++ trace w)%list
      /\ Forall (quickCycleEvent rp) new)
  /\ params (snd (runQuickMaintenance env rp safety w)) = params w
  /\ locked (snd (runQuickMaintenance env rp safety w)) = locked w
  /\ indexRefreshDisabled (snd (runQuickMaintenance env rp safety w))
     = indexRefreshDisabled w.
Proof. apply runQuickMaintenance_emitting. Qed.

(** X20: on every path, the full cycle makes no calls but these: reads and
    writes of the schedule, rewrites of short packs over all content IDs
    without a pack prefix, drops of deleted contents, deletions of
    unreferenced blobs of every prefix cut off at the start of the
    maintenance, the log cleanup, the query for the epoch manager and the
    cleanup of its superseded indexes.  It never compacts indexes and never
    touches the lock, the parameters or the index-refresh flag. *)
Theorem runFullMaintenance_calls (sortSlice : SortSlice) (env : Env)
    (rp : RunParameters) (safety : SafetyParameters) (w : World) :
  (exists new,
      trace (snd (runFullMaintenance sortSlice env rp safety w)) = (new ++ trace w)%list
      /\ Forall (fullCycleEvent rp) new)
  /\ params (snd (runFullMaintenance sortSlice env rp safety w)) = params w
  /\ locked (snd (runFullMaintenance sortSlice env rp safety w)) = locked w
  /\ indexRefreshDisabled (snd (runFullMaintenance sortSlice env rp safety w))
     = indexRefreshDisabled w.
Proof. apply runFullMaintenance_emitting. Qed.

(** X21: both cycles delete orphaned blobs only when the deletion is due:
    if the orphaned-blob block of the quick or of the full cycle calls the
    deletion, then at the clock reading of that block the delay has passed
    since every successful rewrite, full or quick, of the schedule in hand
    that ended after the zero time. *)
Theorem deletion_only_after_delay (env : Env) (rp : RunParameters) (s : Schedule)
    (safety : SafetyParameters) (w : World) (notAfter : Time) (prefix : string)
    (r : RunInfo) :
  In (Called (Calls.DeleteUnreferencedBlobs notAfter prefix))
     (trace (snd (quickDeleteStep env rp s safety w)))
  \/ In (Called (Calls.DeleteUnreferencedBlobs notAfter prefix))
        (trace (snd (fullDeleteStep env rp s safety w))) ->
  ~ In (Called (Calls.DeleteUnreferencedBlobs notAfter prefix)) (trace w) ->
  In r (rewriteHistory s) -> Success r = true -> time.zero < End r ->
  End r + MinRewriteToOrphanDeletionDelay safety <= clock env (clockReads w).
Proof.
  intros Hcall Hnew Hin Hs Hpos.
  destruct (shouldDeleteOrphanedPacks (clock env (clockReads w)) s safety) eqn:Hdue.
  { eapply shouldDeleteOrphanedPacks_due; eassumption. }
  exfalso. apply Hnew.
  unfold quickDeleteStep, fullDeleteStep, notDeletingOrphanedBlobs in Hcall.
  destruct Hcall as [Hcall | Hcall];
    unfold bind at 1, repTime at 1 in Hcall; rewrite Hdue in Hcall;
    simpl in Hcall; destruct Hcall as [Hcall | Hcall];
    first [discriminate Hcall | exact Hcall].
Qed.

Lemma deletion_only_after_delay_witness :
  End (earlyRun 1 2) + MinRewriteToOrphanDeletionDelay safetyFull
  <= clock (quietEnv "alice@host1" t2026 t2026)
           (clockReads (freshWorld (paramsOwnedBy "alice@host1") afterFullRewrite)).
Proof.
  apply (deletion_only_after_delay (quietEnv "alice@host1" t2026 t2026)
           (quickRunOf "alice@host1") afterFullRewrite safetyFull
           (freshWorld (paramsOwnedBy "alice@host1") afterFullRewrite)
           t2026 "" (earlyRun 1 2)).
  - left. vm_compute. right. left. reflexivity.
  - simpl. tauto.
  - vm_compute. left. reflexivity.
  - reflexivity.
  - vm_compute. reflexivity.
Defined.

(** X22: the drop step of the full cycle drops deleted contents only up to
    a time it can answer for.  When two GC cycles are required and the
    margin is not negative, a drop it calls is up to the start, with the
    negated extra margin added, of a successful GC run that has a later
    successful GC run past it whose start is more than the margin after its
    end; otherwise the drop is up to the clock reading of the step.  A drop
    is never up to the zero time. *)
Theorem drop_only_up_to_safe_time (sortSlice : SortSlice) (env : Env)
    (rp : RunParameters) (s : Schedule) (safety : SafetyParameters) (w : World)
    (upTo : Time) :
  SortSliceContract sortSlice ->
  0 <= MarginBetweenSnapshotGC safety <= time.maxDuration ->
  In (Called (Calls.DropDeletedContents upTo))
     (trace (snd (runTaskDropDeletedContentsFull sortSlice env rp s safety w))) ->
  ~ In (Called (Calls.DropDeletedContents upTo)) (trace w) ->
  upTo <> time.zero
  /\ (RequireTwoGCCycles safety = true ->
      exists r0 older r,
        Permutation (r0 :: older)
          (List.filter Success (runsOf s TaskSnapshotGarbageCollection))
        /\ In r older
        /\ Start r <= Start r0
        /\ MarginBetweenSnapshotGC safety < spacing r0 r
        /\ upTo = time.Add (Start r) (time.neg (DropContentFromIndexExtraMargin safety)))
  /\ (RequireTwoGCCycles safety = false -> upTo = clock env (clockReads w)).
Proof.
  intros Hsort Hm Hcall Hnew.
  unfold runTaskDropDeletedContentsFull in Hcall. unfold bind at 1 in Hcall.
  destruct (RequireTwoGCCycles safety).
  - unfold ret at 1 in Hcall.
    destruct (findSafeDropTime_provenance sortSlice
                (runsOf s TaskSnapshotGarbageCollection) safety Hsort Hm)
      as [Hz | Hprov].
    + rewrite Hz in Hcall. simpl in Hcall.
      destruct Hcall as [Hcall | Hcall]; [discriminate | contradiction].
    + destruct (time.IsZero (findSafeDropTime sortSlice _ safety)) eqn:Hzero.
      * simpl in Hcall. destruct Hcall as [Hcall | Hcall]; [discriminate | contradiction].
      * unfold bind, log in Hcall. rewrite ReportRun_call_trace in Hcall. simpl in Hcall.
        destruct Hcall as [Hcall | [Hcall | [Hcall | Hcall]]];
          try discriminate; try contradiction.
        injection Hcall as <-.
        split; [intros Heq; rewrite Heq in Hzero; discriminate|].
        split; [intros _; exact Hprov | discriminate].
  - unfold repTime at 1 in Hcall.
    destruct (time.IsZero (clock env (clockReads w))) eqn:Hzero.
    + simpl in Hcall. destruct Hcall as [Hcall | Hcall]; [discriminate | contradiction].
    + unfold bind, log in Hcall. rewrite ReportRun_call_trace in Hcall. simpl in Hcall.
      destruct Hcall as [Hcall | [Hcall | [Hcall | Hcall]]];
        try discriminate; try contradiction.
      injection Hcall as <-.
      split; [intros Heq; rewrite Heq in Hzero; discriminate|].
      split; [discriminate | reflexivity].
Qed.

Lemma drop_only_up_to_safe_time_witness :
  t2026 - time.Hour <> time.zero.
Proof.
  apply (drop_only_up_to_safe_time insertionSort (quietEnv "alice@host1" t2026 t2026)
           (fullRunOf "alice@host1") afterTwoGCRuns safetyFull
           (freshWorld (paramsOwnedBy "alice@host1") afterTwoGCRuns)
           (t2026 - time.Hour)).
  - exact insertionSort_contract.
  - vm_compute. split; discriminate.
  - vm_compute. right. left. reflexivity.
  - simpl. tauto.
Defined.

(** * Further properties: the schedule advance against the eligibility check *)

(** the schedule that [updateSchedule] writes in mode full *)
Lemma updateSchedule_full_run (env : Env) (rp : RunParameters) (w : World) :
  RunParameters.Mode rp = ModeFull ->
  failure env Calls.GetSchedule (length (trace w)) = None ->
  (forall s n, failure env (Calls.SetSchedule s) n = None) ->
  schedule (snd (updateSchedule env rp w))
  = mkSchedule
      (time.Add (clock env (clockReads w)) (Interval (FullCycle (RunParameters.Params rp))))
      (time.Add (clock env (S (clockReads w)))
                (Interval (QuickCycle (RunParameters.Params rp))))
      (Runs (schedule w))
  /\ clockReads (snd (updateSchedule env rp w)) = S (S (clockReads w)).
Proof.
  intros Hmode Hget Hset.
  unfold updateSchedule, GetSchedule, SetSchedule, repTime,
    setNextFullMaintenanceTime, setNextQuickMaintenanceTime.
  rewrite Hmode. run_monad. rewrite Hget. simpl. rewrite Hset. simpl. auto.
Qed.

Lemma updateSchedule_quick_run (env : Env) (rp : RunParameters) (w : World) :
  RunParameters.Mode rp = ModeQuick ->
  failure env Calls.GetSchedule (length (trace w)) = None ->
  (forall s n, failure env (Calls.SetSchedule s) n = None) ->
  schedule (snd (updateSchedule env rp w))
  = mkSchedule
      (NextFullMaintenanceTime (schedule w))
      (time.Add (clock env (clockReads w))
                (Interval (QuickCycle (RunParameters.Params rp))))
      (Runs (schedule w))
  /\ clockReads (snd (updateSchedule env rp w)) = S (clockReads w).
Proof.
  intros Hmode Hget Hset.
  unfold updateSchedule, GetSchedule, SetSchedule, repTime,
    setNextFullMaintenanceTime, setNextQuickMaintenanceTime.
  rewrite Hmode. run_monad. rewrite Hget. simpl. rewrite Hset. simpl. auto.
Qed.

(** X23: the advance keeps the cycle from coming due again at once.  After
    [updateSchedule] in mode full has written the schedule, [shouldRun]
    answers none for the owner as long as the clock reads less than the full
    interval after the first reading of the advance and less than the quick
    interval after the second; after [updateSchedule] in mode quick it does
    not answer quick as long as the clock reads less than the quick interval
    after the reading of the advance. *)
Theorem no_rerun_after_advance (env : Env) (rp : RunParameters) (w : World) :
  Owner (RunParameters.Params rp) = UsernameAtHost env ->
  (forall n, failure env Calls.GetSchedule n = None) ->
  (forall s n, failure env (Calls.SetSchedule s) n = None) ->
  (RunParameters.Mode rp = ModeFull ->
   (forall n, clock env n
              < clock env (clockReads w) + Interval (FullCycle (RunParameters.Params rp))) ->
   (forall n, clock env n
              < clock env (S (clockReads w))
                + Interval (QuickCycle (RunParameters.Params rp))) ->
   fst (shouldRun env (RunParameters.Params rp) (snd (updateSchedule env rp w)))
   = Ok ModeNone)
  /\ (RunParameters.Mode rp = ModeQuick ->
      (forall n, clock env n
                 < clock env (clockReads w)
                   + Interval (QuickCycle (RunParameters.Params rp))) ->
      fst (shouldRun env (RunParameters.Params rp) (snd (updateSchedule env rp w)))
      <> Ok ModeQuick).
Proof.
  intros Hown Hget Hset. split.
  - intros Hmode Hfull Hquick.
    rewrite (shouldRun_resolveMode env _ _ Hown (Hget _)).
    destruct (updateSchedule_full_run env rp w Hmode (Hget _) Hset) as [-> _].
    unfold resolveMode, time.Add. simpl.
    match goal with
    | |- context [?a <=? ?b] =>
        destruct (Z.leb_spec a b) as [H | _]; [specialize (Hfull (clockReads (snd (updateSchedule env rp w)))); lia|]
    end.
    rewrite andb_false_r.
    match goal with
    | |- context [?a <=? ?b] =>
        destruct (Z.leb_spec a b) as [H | _];
          [match type of H with _ <= clock env ?n => specialize (Hquick n) end; lia|]
    end.
    rewrite andb_false_r. reflexivity.
  - intros Hmode Hquick.
    rewrite (shouldRun_resolveMode env _ _ Hown (Hget _)).
    destruct (updateSchedule_quick_run env rp w Hmode (Hget _) Hset) as [-> _].
    unfold resolveMode, time.Add. simpl.
    destruct (Enabled (FullCycle (RunParameters.Params rp)) && _); [discriminate|].
    match goal with
    | |- context [?a <=? ?b] =>
        destruct (Z.leb_spec a b) as [H | _];
          [match type of H with _ <= clock env ?n => specialize (Hquick n) end; lia|]
    end.
    rewrite andb_false_r. discriminate.
Qed.

Lemma no_rerun_after_advance_witness :
  fst (shouldRun (quietEnv "alice@host1" t2026 t2026) (paramsOwnedBy "alice@host1")
         (snd (updateSchedule (quietEnv "alice@host1" t2026 t2026)
                 (fullRunOf "alice@host1")
                 (freshWorld (paramsOwnedBy "alice@host1") emptySchedule))))
  = Ok ModeNone.
Proof.
  refine (proj1 (no_rerun_after_advance (quietEnv "alice@host1" t2026 t2026)
                   (fullRunOf "alice@host1")
                   (freshWorld (paramsOwnedBy "alice@host1") emptySchedule) _ _ _) _ _ _).
  - reflexivity.
  - intros n. reflexivity.
  - intros s n. reflexivity.
  - reflexivity.
  - intros n. vm_compute. reflexivity.
  - intros n. vm_compute. reflexivity.
Defined.

(** * Further properties: what the callback is given *)

Lemma bind_ext {A B : Type} (m : M A) (k k' : A -> M B) (w : World) :
  (forall a w1, k a w1 = k' a w1) -> bind m k w = bind m k' w.
Proof.
  intros H. unfold bind. destruct (m w) as [[a | e] w1]; [apply H | reflexivity].
Qed.

Lemma defer_ext {A : Type} (cleanup : M unit) (body body' : M A) (w : World) :
  body w = body' w -> defer cleanup body w = defer cleanup body' w.
Proof. intros H. unfold defer. rewrite H. reflexivity. Qed.

(** from the lock on, the callback counts only at the parameters of the
    resolved mode and the loaded parameters *)
Lemma underLock_callback (env : Env) (mode : Mode) (p : Params)
    (cb cb' : RunParameters -> M unit) (w : World) :
  (forall start, cb (RunParameters.mk mode p start) = cb' (RunParameters.mk mode p start)) ->
  underLock env mode p cb w = underLock env mode p cb' w.
Proof.
  intros Hcb. unfold underLock.
  apply bind_ext. intros ok w1. destruct (negb ok); [reflexivity|].
  apply defer_ext. cbv zeta.
  apply bind_ext. intros _ w2.
  apply bind_ext. intros bm w3.
  rewrite (Hcb bm). reflexivity.
Qed.

Lemma bind_ext_on {A B : Type} (m : M A) (k k' : A -> M B) (w : World) :
  (forall a w1, m w = (Ok a, w1) -> k a w1 = k' a w1) -> bind m k w = bind m k' w.
Proof.
  intros H. unfold bind. destruct (m w) as [[a | e] w1]; [apply H | ]; reflexivity.
Qed.

Lemma GetParams_result (env : Env) (msg : string) (w w1 : World) (p : Params) :
  wrapErr (GetParams env) msg w = (Ok p, w1) -> p = params w.
Proof.
  unfold GetParams. run_monad.
  destruct (failure env Calls.GetParams (length (trace w))); simpl; intros H;
    [discriminate | injection H as <- _; reflexivity].
Qed.

(** X24: the callback is only ever handed the loaded parameters and a mode
    to run: the requested mode when one is given, and quick or full, never
    auto or none, when the mode is auto.  Two callbacks that agree on such
    run parameters give [RunExclusive] the same result and the same world. *)
Theorem RunExclusive_callback_modes (env : Env) (mode : Mode) (force : bool)
    (cb cb' : RunParameters -> M unit) (w : World) :
  (forall m start,
      (if String.eqb mode ModeAuto then m = ModeQuick \/ m = ModeFull else m = mode) ->
      cb (RunParameters.mk m (params w) start) = cb' (RunParameters.mk m (params w) start)) ->
  RunExclusive env mode force cb w = RunExclusive env mode force cb' w.
Proof.
  intros Hcb. unfold RunExclusive.
  apply bind_ext_on. intros [] w1 H1.
  assert (Hp1 : params w1 = params w) by (injection H1 as <-; reflexivity).
  apply bind_ext_on. intros p w2 H2.
  apply GetParams_result in H2. rewrite Hp1 in H2. subst p.
  destruct (negb force && negb (isOwnedByByThisUser env (params w))); [reflexivity|].
  apply bind_ext_on. intros m w3 H3.
  destruct (String.eqb_spec m ModeNone) as [Hnone | Hnone]; [reflexivity|].
  cbv zeta. apply bind_ext. intros _ w4.
  apply (underLock_callback env m (params w) cb cb' w4).
  intros start. apply Hcb.
  destruct (String.eqb mode ModeAuto).
  - unfold wrapErr in H3.
    destruct (shouldRun env (params w) w2) as [[m' | e] w'] eqn:Hsr; [|discriminate].
    injection H3 as -> _.
    destruct (proj1 (shouldRun_results env (params w) w2) m) as [H | H];
      [rewrite Hsr; reflexivity | contradiction | exact H].
  - injection H3 as <- _. reflexivity.
Qed.

Lemma RunExclusive_callback_modes_witness :
  RunExclusive (quietEnv "alice@host1" t2026 t2026) ModeAuto false
    (fun rp => Run insertionSort (quietEnv "alice@host1" t2026 t2026) rp safetyFull)
    (freshWorld (paramsOwnedBy "alice@host1") emptySchedule)
  = RunExclusive (quietEnv "alice@host1" t2026 t2026) ModeAuto false
      (fun rp => if String.eqb (RunParameters.Mode rp) ModeQuick
                 then runQuickMaintenance (quietEnv "alice@host1" t2026 t2026) rp safetyFull
                 else runFullMaintenance insertionSort
                        (quietEnv "alice@host1" t2026 t2026) rp safetyFull)
      (freshWorld (paramsOwnedBy "alice@host1") emptySchedule).
Proof.
  apply RunExclusive_callback_modes.
  intros m start [-> | ->]; reflexivity.
Defined.


(** * Further properties: nothing is written without the lock *)

#[local] Instance persistedKept_preorder : PreOrder persistedKept.
Proof.
  split.
  - intros w. unfold persistedKept. auto.
  - intros a b c (H1 & H2 & H3) (H4 & H5 & H6).
    unfold persistedKept. repeat split; congruence.
Qed.

Lemma always_then {A B : Type} (m : M A) (k : A -> M B) :
  always persistedKept m ->
  (forall a, always keptUnlessUnlocked (k a)) ->
  always keptUnlessUnlocked (bind m k).
Proof.
  intros Hm Hk w. unfold bind. specialize (Hm w).
  destruct (m w) as [[a | e] w1]; simpl in *.
  - intros Hno. etransitivity; [exact Hm | apply Hk, Hno].
  - intros _. exact Hm.
Qed.

Lemma always_kept {A : Type} (m : M A) :
  always persistedKept m -> always keptUnlessUnlocked m.
Proof. intros Hm w _. apply Hm. Qed.

Lemma shouldRun_persistedKept (env : Env) (p : Params) :
  always persistedKept (shouldRun env p).
Proof.
  intros w. destruct (shouldRun_storeKept env p w) as (H1 & H2 & H3 & _).
  unfold persistedKept. auto.
Qed.

Lemma lock_section_kept {A : Type} (env : Env) (lockFile msg : string)
    (contended body : M A) :
  always persistedKept contended ->
  always keptUnlessUnlocked
    (ok <- wrapErr (TryLock env lockFile) msg ;;
     if negb ok then contended else defer Unlock body).
Proof.
  intros Hc w. unfold bind, wrapErr, TryLock.
  destruct (failure env (Calls.TryLock lockFile) (length (trace w))); simpl.
  { intros _. unfold persistedKept. auto. }
  destruct (lockFree env (length (trace w))); simpl.
  - unfold defer. destruct (body _) as [r w1]. simpl.
    intros Hno. exfalso. apply Hno. left. reflexivity.
  - intros _. apply (Hc (record _ w)).
Qed.

(** X25: [RunExclusive] writes nothing without the lock.  Whatever the mode,
    the callback and the failing step, a run that does not end with the
    unlock in the trace (the parameters did not load, another owner, mode
    none, nothing due, the lock failed or was held) leaves the persisted
    parameters, the persisted schedule and the lock as they were. *)
Theorem RunExclusive_writes_under_lock_only (env : Env) (mode : Mode) (force : bool)
    (cb : RunParameters -> M unit) (w : World) :
  ~ In (Called Calls.Unlock) (trace (snd (RunExclusive env mode force cb w))) ->
  params (snd (RunExclusive env mode force cb w)) = params w
  /\ schedule (snd (RunExclusive env mode force cb w)) = schedule w
  /\ locked (snd (RunExclusive env mode force cb w)) = locked w.
Proof.
  revert w. change (always keptUnlessUnlocked (RunExclusive env mode force cb)).
  unfold RunExclusive.
  apply always_then; [run_leaf; unfold persistedKept; auto | intros _].
  apply always_then;
    [repeat always_step ltac:(unfold persistedKept; auto) | intros p].
  destruct (negb force && negb (isOwnedByByThisUser env p));
    [apply always_kept; always_rule always_fail|].
  apply always_then.
  { destruct (String.eqb mode ModeAuto);
      [always_rule always_wrapErr; apply shouldRun_persistedKept
      | always_rule always_ret]. }
  intros m. destruct (String.eqb m ModeNone);
    [apply always_kept; repeat always_step ltac:(unfold persistedKept; auto)|].
  cbv zeta.
  apply always_then; [run_leaf; unfold persistedKept; auto | intros _].
  apply lock_section_kept. repeat always_step ltac:(unfold persistedKept; auto).
Qed.

Lemma RunExclusive_writes_under_lock_only_witness :
  schedule (snd (RunExclusive (busyEnv "alice@host1" t2026 t2026) ModeAuto false
                   (markCallback (busyEnv "alice@host1" t2026 t2026))
                   (freshWorld (paramsOwnedBy "alice@host1") emptySchedule)))
  = emptySchedule.
Proof.
  refine (proj1 (proj2 (RunExclusive_writes_under_lock_only
                          (busyEnv "alice@host1" t2026 t2026) ModeAuto false
                          (markCallback (busyEnv "alice@host1" t2026 t2026))
                          (freshWorld (paramsOwnedBy "alice@host1") emptySchedule) _))).
  vm_compute. intros H.
  repeat (destruct H as [H | H]; [discriminate H|]). exact H.
Defined.
